(** * Narrative pipeline: schema validator and response recoverer

    A shallow embedding of the decision-bearing parts of the repository:

    - [schemas/narrative_genesis_schema.py] and [processors/validator.py]:
      the pydantic models of the Narrative Genesis Input and the
      [NarrativeValidator] that turns a raw dictionary into a
      [ValidationReport], with its summary and its statistics;
    - [process_narrative.py], [_call_openrouter_for_pillars]: the handling of
      the content returned by the completion API (fence stripping, trailing
      comma repair, strict parse, lenient repair, brace extraction, final
      shape check); and the stamping of the pillars and what is written to
      the output files, in [run_narrative_pipeline] and
      [generate_pillars_from_data];
    - [ui_helpers.py]: the session of the form, the document built from it,
      the overlap warning and the completion marks;
    - [processors/transformers.py] and [processors/distributor.py]: the
      system prompt, the Pillar 3 configuration and the generation
      parameters of the scriptwriter configuration.

    Conventions.  A Python [str] is a Rocq [string]; one [ascii] stands for
    one code point below 256, and [isspace] and [lower] are Python's on that
    range.  Python values (JSON documents, dictionaries handed to the
    validator) are the type [pyval]; a [dict] is an association list read
    with [dict_get].  Exceptions are results: a validator returns [Some] of
    the text of the [ValueError] it raises, a parser returns [inr] of the
    text of its exception.

    Libraries outside the repository.  The schema is written against
    pydantic 2 ([field_validator], [model_validator]); its validation of a
    model is the function [validate], which walks the fields in declaration
    order, collects the errors of all of them, and runs a validator of the
    schema only on what has passed the checks before it.  [re.sub] and
    [re.search] with the two patterns of the code are [fix_trailing_commas]
    and [search_object].  [datetime.fromisoformat], [json_repair.loads] and,
    in the recoverer, [json.loads] are Section variables: what is proved
    holds whatever they answer.  The decoder [json_loads] is [json.loads] as
    CPython 3.11 runs it with its default settings; it is what the samples
    and the witnesses are run with, and what a statement about one given
    text, or about the first character of a text, is made of. *)

From Stdlib Require Import String Ascii List ZArith NArith Bool Arith Lia.
From Stdlib Require Import DecimalString.
From Stdlib Require Import Sorting.Sorted.
Import ListNotations.
Set Warnings "-register-all".
Open Scope string_scope.
Open Scope list_scope.

(* ================================================================== *)
(** * Python strings *)
(* ================================================================== *)

Definition ord (c : ascii) : N := N_of_ascii c.

(** [str.isspace] on one character, which is also what [\s] matches in a
    [re] pattern over [str]: TAB..CR, FS..US, space, NEL and NBSP. *)
Definition isspace (c : ascii) : bool :=
  let n := ord c in
  (((9 <=? n) && (n <=? 13)) || ((28 <=? n) && (n <=? 32))
   || (n =? 133) || (n =? 160))%N.

(** [str.lower] on one character: A-Z and the Latin-1 capitals (all of
    U+00C0..U+00DE but the multiplication sign) move up by 32. *)
Definition lower_char (c : ascii) : ascii :=
  let n := ord c in
  if (((65 <=? n) && (n <=? 90))
      || ((192 <=? n) && (n <=? 222) && negb (n =? 215)))%N
  then ascii_of_N (n + 32) else c.

Fixpoint lower (s : string) : string :=
  match s with
  | EmptyString => EmptyString
  | String c r => String (lower_char c) (lower r)
  end.

Fixpoint lstrip (s : string) : string :=
  match s with
  | EmptyString => EmptyString
  | String c r => if isspace c then lstrip r else s
  end.

Fixpoint rstrip (s : string) : string :=
  match s with
  | EmptyString => EmptyString
  | String c r =>
      match rstrip r with
      | EmptyString => if isspace c then EmptyString else String c EmptyString
      | r' => String c r'
      end
  end.

(** [s.strip()] *)
Definition strip (s : string) : string := lstrip (rstrip s).

(** [s.startswith(p)] *)
Definition startswith (s p : string) : bool := prefix p s.

(** [s.endswith(p)] *)
Fixpoint endswith (s p : string) : bool :=
  if String.eqb s p then true
  else match s with
       | EmptyString => false
       | String _ r => endswith r p
       end.

(** [needle in hay] *)
Fixpoint contains (needle hay : string) : bool :=
  if prefix needle hay then true
  else match hay with
       | EmptyString => false
       | String _ r => contains needle r
       end.

(** [s.find(c)] for a one-character [c]; [None] is Python's [-1]. *)
Fixpoint find (s : string) (c : ascii) : option nat :=
  match s with
  | EmptyString => None
  | String x r =>
      if Ascii.eqb x c then Some 0
      else match find r c with Some i => Some (S i) | None => None end
  end.

(** [s[n:]] *)
Fixpoint slice_from (n : nat) (s : string) : string :=
  match n, s with
  | O, _ => s
  | S n', String _ r => slice_from n' r
  | S _, EmptyString => EmptyString
  end.

(** [s[:n]] *)
Fixpoint slice_to (n : nat) (s : string) : string :=
  match n, s with
  | S n', String c r => String c (slice_to n' r)
  | _, _ => EmptyString
  end.

(** [s[:-n]] for [n > 0] *)
Definition drop_last (n : nat) (s : string) : string :=
  slice_to (String.length s - n) s.

(** [s.replace(c, by)] for a one-character [c] *)
Fixpoint replace (c : ascii) (by_ : string) (s : string) : string :=
  match s with
  | EmptyString => EmptyString
  | String x r =>
      if Ascii.eqb x c then by_ ++ replace c by_ r
      else String x (replace c by_ r)
  end.

(** Membership of a string in a list of strings ([x in xs]). *)
Definition mem (x : string) (xs : list string) : bool :=
  existsb (String.eqb x) xs.

(* ================================================================== *)
(** * Python values *)
(* ================================================================== *)

(** The values a JSON document or a keyword dictionary is made of.  A
    [float] is kept as the literal it was read from: floating point
    arithmetic plays no part in the code modelled here. *)
Inductive pyval : Type :=
| PNone
| PBool (b : bool)
| PInt (z : Z)
| PFloat (literal : string)
| PStr (s : string)
| PList (items : list pyval)
| PDict (entries : list (string * pyval)).

Definition pydict : Type := list (string * pyval).

(** [d.get(k)]: the value bound to [k], if any. *)
Fixpoint dict_get (k : string) (d : pydict) : option pyval :=
  match d with
  | [] => None
  | (k', v) :: r => if String.eqb k k' then Some v else dict_get k r
  end.

(** [k in d] *)
Definition dict_has (k : string) (d : pydict) : bool :=
  match dict_get k d with Some _ => true | None => false end.

(** [d[k] = v]: an existing key keeps its place, a new one goes last. *)
Fixpoint dict_set (k : string) (v : pyval) (d : pydict) : pydict :=
  match d with
  | [] => [(k, v)]
  | (k', v') :: r =>
      if String.eqb k k' then (k, v) :: r else (k', v') :: dict_set k v r
  end.

(** The pieces of an f-string.  Interpolated strings are spliced in as they
    are; an interpolated list or set is kept as such, since its [repr] is
    Python's business (and, for a set, comes in no specified order). *)
Inductive fragment : Type :=
| Lit (text : string)
| StrOf (s : string)
| ReprList (items : list string)
| ReprSet (elements : list string).

Definition fstring : Type := list fragment.

(* ================================================================== *)
(** * pydantic: validating a value against a model *)
(* ================================================================== *)

(** One step of an error location: a field name or a list index. *)
Inductive loc_item : Type :=
| Key (name : string)
| Idx (i : nat).

Definition location : Type := list loc_item.

(** The text of an error.  For its own errors pydantic words the message
    itself, from the error type and the field; for a [ValueError] raised by
    a validator of the schema the message is "Value error, " followed by the
    text of the exception. *)
Inductive message : Type :=
| Standard
| ValueError (text : fstring).

(** One entry of [ValidationError.errors()], as far as the validator reads
    it: the keys [type], [loc], [msg] and [input]. *)
Record ErrorDetails : Type := mkError {
  err_type : string;
  err_loc : location;
  err_msg : message;
  err_input : pyval
}.

(** What a field is declared as.  [FStr n check] is [str] with
    [Field(..., min_length=n)] ([n = 0] for a bare [str]) and a
    [field_validator] [check] run on the value once it has passed;
    [FOptStr] is [Optional[str]] with default [None]; [FListStr n check] is
    [List[str]] with [min_length=n] and its [field_validator];
    [FLiteral] is [Literal[...]]; [FModel] is a nested [BaseModel] with its
    [str_strip_whitespace] setting, its fields in declaration order and its
    [model_validator(mode='after')]. *)
Inductive ftype : Type :=
| FStr (min_length : nat) (check : string -> option fstring)
| FOptStr
| FListStr (min_length : nat) (check : list string -> option fstring)
| FLiteral (choices : list string)
| FModel (str_strip_whitespace : bool)
         (fields : list (string * ftype))
         (after : pydict -> option fstring).

(** A field or model without a validator of its own. *)
Definition no_check {A : Type} (_ : A) : option fstring := None.

Inductive outcome : Type :=
| Valid (value : pyval)
| Invalid (errors : list ErrorDetails).

(** Errors of a nested value are reported under the name (or index) that
    holds it. *)
Definition with_outer_location (l : loc_item) (e : ErrorDetails) : ErrorDetails :=
  mkError (err_type e) (l :: err_loc e) (err_msg e) (err_input e).

Definition errors_of (o : outcome) : list ErrorDetails :=
  match o with Valid _ => [] | Invalid es => es end.

(** [str], under the [str_strip_whitespace] setting of the enclosing model. *)
Definition validate_str (strip_ws : bool) (v : pyval) : outcome :=
  match v with
  | PStr s => Valid (PStr (if strip_ws then strip s else s))
  | _ => Invalid [mkError "string_type" [] Standard v]
  end.

(** The items of a [List[str]]: every item is checked, the errors of item
    [i] are located at [i]. *)
Fixpoint validate_items (strip_ws : bool) (i : nat) (items : list pyval)
  : list ErrorDetails * list string :=
  match items with
  | [] => ([], [])
  | x :: r =>
      let (es, ss) := validate_items strip_ws (S i) r in
      match validate_str strip_ws x with
      | Valid (PStr s) => (es, s :: ss)
      | o => (map (with_outer_location (Idx i)) (errors_of o) ++ es, ss)
      end
  end.

(** The value a field takes when the input has no entry for it: only
    [Optional] fields have a default. *)
Definition default_of (t : ftype) : option pyval :=
  match t with FOptStr => Some PNone | _ => None end.

(** The declared type of the field [name] of a model. *)
Fixpoint lookup_field (name : string) (fs : list (string * ftype)) : option ftype :=
  match fs with
  | [] => None
  | (n, ty) :: rest => if String.eqb name n then Some ty else lookup_field name rest
  end.

Definition field_type (t : ftype) (name : string) : option ftype :=
  match t with
  | FModel _ fields _ => lookup_field name fields
  | _ => None
  end.

Section Walk.

(** The walk over the fields of a model, in declaration order, given the
    validation of one field: the errors of all the fields, each under the
    name of its field, and the validated values.  A field the input has no
    entry for takes its default or is reported [missing]. *)
Variable validate_field : ftype -> pyval -> outcome.
Variable d : pydict.

Fixpoint walk (fs : list (string * ftype)) : list ErrorDetails * pydict :=
  match fs with
  | [] => ([], [])
  | (name, ty) :: rest =>
      let (es, vals) := walk rest in
      match dict_get name d with
      | None =>
          match default_of ty with
          | Some dv => (es, (name, dv) :: vals)
          | None => (mkError "missing" [Key name] Standard (PDict d) :: es, vals)
          end
      | Some x =>
          match validate_field ty x with
          | Valid x' => (es, (name, x') :: vals)
          | Invalid es' => (map (with_outer_location (Key name)) es' ++ es, vals)
          end
      end
  end.

End Walk.

(** Validation of [v] against [t]; [strip_ws] is the [str_strip_whitespace]
    setting of the model the field belongs to.  A validator of the schema
    runs only on a value that has passed the checks of its type, and the
    validator of a model only when all its fields have passed. *)
Fixpoint validate (strip_ws : bool) (t : ftype) (v : pyval) : outcome :=
  match t with
  | FStr min_length check =>
      match validate_str strip_ws v with
      | Valid (PStr s) =>
          if (String.length s <? min_length)%nat
          then Invalid [mkError "string_too_short" [] Standard v]
          else match check s with
               | Some text => Invalid [mkError "value_error" [] (ValueError text) v]
               | None => Valid (PStr s)
               end
      | o => o
      end
  | FOptStr =>
      match v with
      | PNone => Valid PNone
      | _ => validate_str strip_ws v
      end
  | FListStr min_length check =>
      match v with
      | PList items =>
          match validate_items strip_ws 0 items with
          | ([], ss) =>
              if (List.length ss <? min_length)%nat
              then Invalid [mkError "too_short" [] Standard v]
              else match check ss with
                   | Some text => Invalid [mkError "value_error" [] (ValueError text) v]
                   | None => Valid (PList (map PStr ss))
                   end
          | (es, _) => Invalid es
          end
      | _ => Invalid [mkError "list_type" [] Standard v]
      end
  | FLiteral choices =>
      match v with
      | PStr s => if mem s choices then Valid v
                  else Invalid [mkError "literal_error" [] Standard v]
      | _ => Invalid [mkError "literal_error" [] Standard v]
      end
  | FModel strip_here fields after =>
      match v with
      | PDict d =>
          match walk (validate strip_here) d fields with
          | ([], self) =>
              match after self with
              | Some text => Invalid [mkError "value_error" [] (ValueError text) v]
              | None => Valid (PDict self)
              end
          | (es, _) => Invalid es
          end
      | _ => Invalid [mkError "model_type" [] Standard v]
      end
  end.

(** Attribute access on a validated model. *)
Definition attr (name : string) (self : pydict) : pyval :=
  match dict_get name self with Some v => v | None => PNone end.

Definition attr_str (name : string) (self : pydict) : string :=
  match attr name self with PStr s => s | _ => "" end.

Definition attr_model (name : string) (self : pydict) : pydict :=
  match attr name self with PDict d => d | _ => [] end.

Definition as_str (v : pyval) : string :=
  match v with PStr s => s | _ => "" end.

Definition attr_list (name : string) (self : pydict) : list string :=
  match attr name self with PList l => map as_str l | _ => [] end.

(* ================================================================== *)
(** * schemas/narrative_genesis_schema.py *)
(* ================================================================== *)

(** [set(xs)], as the list of its elements. *)
Fixpoint make_set (xs : list string) : list string :=
  match xs with
  | [] => []
  | x :: r => if mem x r then make_set r else x :: make_set r
  end.

(** [a & b] *)
Definition set_inter (a b : list string) : list string :=
  filter (fun x => mem x b) a.

(** [ToneGuardrails.check_no_overlap], on the two validated lists. *)
Definition check_no_overlap_lists (allowed forbidden : list string) : option fstring :=
  let allowed_set := make_set (map lower allowed) in
  let forbidden_set := make_set (map lower forbidden) in
  let overlap := set_inter allowed_set forbidden_set in
  match overlap with
  | [] => None
  | _ => Some [Lit "Tone guardrails overlap detected: "; ReprSet overlap;
               Lit ". A tone cannot be both allowed and forbidden."]
  end.

Definition check_no_overlap (self : pydict) : option fstring :=
  check_no_overlap_lists (attr_list "allowed" self) (attr_list "forbidden" self).

Definition ToneGuardrails : ftype :=
  FModel false
    [ ("allowed", FListStr 1 no_check);
      ("forbidden", FListStr 1 no_check) ]
    check_no_overlap.

Definition BrandIdentityCore : ftype :=
  FModel false
    [ ("product_name", FStr 1 no_check);
      ("archetype", FStr 1 no_check);
      ("core_philosophy", FStr 1 no_check);
      ("tone_guardrails", ToneGuardrails) ]
    no_check.

Definition TheWorld : ftype :=
  FModel false
    [ ("description", FStr 1 no_check);
      ("consensus_reality", FStr 1 no_check) ]
    no_check.

Definition TheEnemy : ftype :=
  FModel false
    [ ("name", FStr 1 no_check);
      ("manifestation", FStr 1 no_check);
      ("why_fight_it", FStr 1 no_check) ]
    no_check.

Definition TheChangeVehicle : ftype :=
  FModel false
    [ ("what_is_new", FStr 1 no_check);
      ("mechanism", FStr 1 no_check) ]
    no_check.

Definition ThePromisedLand : ftype :=
  FModel false
    [ ("vision", FStr 1 no_check);
      ("emotional_payoff", FStr 1 no_check) ]
    no_check.

Definition TransformationThesis : ftype :=
  FModel false
    [ ("from_state", FStr 1 no_check);
      ("to_state", FStr 1 no_check) ]
    no_check.

Definition StrategicNarrativeFramework : ftype :=
  FModel false
    [ ("comment", FOptStr);
      ("the_world_status_quo", TheWorld);
      ("the_enemy", TheEnemy);
      ("the_change_vehicle", TheChangeVehicle);
      ("the_promised_land", ThePromisedLand);
      ("transformation_thesis", TransformationThesis);
      ("proof_points", FListStr 1 no_check) ]
    no_check.

Definition BasePersona : ftype :=
  FModel false
    [ ("name", FStr 1 no_check);
      ("role", FStr 1 no_check);
      ("demographics", FStr 1 no_check);
      ("product_relation",
        FLiteral ["The Unaware/Novice"; "The Skeptic"; "The Stumbler"; "The Convert"]);
      ("social_setting", FOptStr) ]
    no_check.

Definition LoreSeed : ftype :=
  FModel false
    [ ("central_belief", FStr 1 no_check);
      ("internal_monologue_style", FStr 1 no_check);
      ("obsession_topics", FListStr 1 no_check);
      ("affliction", FStr 1 no_check);
      ("aspiration", FStr 1 no_check) ]
    no_check.

(** [EvolutionParameters.validate_hallucination] *)
Definition valid_values : list string := ["Allowed"; "Not Allowed"; "Limited"].

Definition validate_hallucination (v : string) : option fstring :=
  if negb (existsb (fun valid => contains valid v) valid_values)
  then Some [Lit "hallucination_permission must contain one of: "; ReprList valid_values]
  else None.

Definition EvolutionParameters : ftype :=
  FModel false
    [ ("autonomy_level", FLiteral ["Low"; "Medium"; "High"]);
      ("memory_retention", FStr 1 no_check);
      ("hallucination_permission", FStr 1 validate_hallucination) ]
    no_check.

Definition AutonomousCharacterSeed : ftype :=
  FModel false
    [ ("comment", FOptStr);
      ("base_persona", BasePersona);
      ("lore_seed", LoreSeed);
      ("evolution_parameters", EvolutionParameters) ]
    no_check.

(** [LanguageModel.validate_slang]: the loop stops at the first entry it
    objects to. *)
Fixpoint validate_slang (v : list string) : option fstring :=
  match v with
  | [] => None
  | slang :: rest =>
      if String.eqb slang "" || (String.length (strip slang) =? 0)%nat
      then Some [Lit "Slang whitelist cannot contain empty strings"]
      else if (50 <? String.length slang)%nat
      then Some [Lit "Slang entry too long: "; StrOf (slice_to 30 slang); Lit "..."]
      else validate_slang rest
  end.

Definition LanguageModel : ftype :=
  FModel false
    [ ("slang_whitelist", FListStr 1 validate_slang);
      ("cultural_references", FListStr 1 no_check) ]
    no_check.

Definition TargetAudienceContext : ftype :=
  FModel false
    [ ("persona_code", FStr 1 no_check);
      ("pain_points", FListStr 1 no_check);
      ("language_model", LanguageModel) ]
    no_check.

(** [NarrativeGenesisInput.validate_consistency]: the inner branch is a
    [pass]; nothing is ever raised. *)
Definition validate_consistency (self : pydict) : option fstring :=
  let character_demo :=
    lower (attr_str "demographics"
             (attr_model "base_persona" (attr_model "autonomous_character_seed" self))) in
  let target_code :=
    lower (attr_str "persona_code" (attr_model "target_audience_context" self)) in
  if contains "genz" target_code || contains "gen_z" target_code
  then if negb (existsb (fun term => contains term character_demo)
                  ["24"; "23"; "25"; "26"; "gen z"; "genz"])
       then None
       else None
  else None.

Section Schema.

(** [datetime.fromisoformat]: whether it returns (rather than raising
    [ValueError]) on the given text. *)
Variable fromisoformat : string -> bool.

(** [Meta.validate_timestamp] *)
Definition validate_timestamp (v : string) : option fstring :=
  if fromisoformat (replace "Z" "+00:00" v) then None
  else Some [Lit "Timestamp must be in ISO format: "; StrOf v].

(** [Meta]: bare [str] fields, no [Field(...)] constraint. *)
Definition Meta : ftype :=
  FModel false
    [ ("project_name", FStr 0 no_check);
      ("version", FStr 0 no_check);
      ("input_by", FStr 0 no_check);
      ("timestamp", FStr 0 validate_timestamp) ]
    no_check.

(** [NarrativeGenesisInput], whose [Config] sets [str_strip_whitespace].
    The setting belongs to this model alone: pydantic does not hand the
    configuration of a model down to the models of its fields. *)
Definition NarrativeGenesisInput : ftype :=
  FModel true
    [ ("meta", Meta);
      ("brand_identity_core", BrandIdentityCore);
      ("strategic_narrative_framework", StrategicNarrativeFramework);
      ("autonomous_character_seed", AutonomousCharacterSeed);
      ("target_audience_context", TargetAudienceContext) ]
    validate_consistency.

(* ================================================================ *)
(** * processors/validator.py *)
(* ================================================================ *)

Record ValidationReport : Type := mkReport {
  is_valid : bool;
  errors : list ErrorDetails;
  data : option pyval
}.

(** [NarrativeValidator]: its only attribute is [last_report]. *)
Record NarrativeValidator : Type := mkValidator {
  last_report : option ValidationReport
}.

(** [NarrativeValidator.__init__] *)
Definition new_validator : NarrativeValidator := mkValidator None.

(** [NarrativeValidator._perform_business_logic_checks] *)
Definition _perform_business_logic_checks (validated_input : pydict) : list string :=
  let brand := attr_model "brand_identity_core" validated_input in
  let archetype := lower (attr_str "archetype" brand) in
  let allowed_tones := map lower (attr_list "allowed" (attr_model "tone_guardrails" brand)) in
  let w1 :=
    if contains "rebel" archetype
    then if negb (existsb (fun tone => mem tone ["sarcastic"; "raw"; "unfiltered"]) allowed_tones)
         then ["Archetype is 'Rebel' but tone doesn't include rebellious characteristics"]
         else []
    else [] in
  let proof_points :=
    attr_list "proof_points" (attr_model "strategic_narrative_framework" validated_input) in
  let w2 :=
    if existsb (fun point => (String.length point <? 20)%nat) proof_points
    then ["Some proof points seem too short - consider adding more detail"]
    else [] in
  let demo :=
    attr_str "demographics"
      (attr_model "base_persona" (attr_model "autonomous_character_seed" validated_input)) in
  let pain_points :=
    attr_list "pain_points" (attr_model "target_audience_context" validated_input) in
  let w3 :=
    if existsb (fun p => contains "gaji" (lower p) || contains "salary" (lower p)) pain_points
    then if negb (existsb (fun term => contains term (lower demo))
                    ["gaji"; "salary"; "umr"; "debt"])
         then ["Target audience has salary pain points but character demographics don't mention income/debt"]
         else []
    else [] in
  w1 ++ w2 ++ w3.

(** The entry the validator builds from one error of pydantic. *)
Definition report_error (error : ErrorDetails) : ErrorDetails :=
  mkError (err_type error) (err_loc error) (err_msg error) (err_input error).

(** [NarrativeValidator.validate_from_dict].  The result is the report
    returned, the validator after the call (its [last_report] is
    assigned) and the warning lines printed.  Building the
    [NarrativeGenesisInput] from the keywords of [data]
    either returns the validated model or raises [ValidationError]; the
    validators of the schema raise nothing but [ValueError], so the
    handler for other exceptions has no case to serve here. *)
Definition validate_from_dict (self : NarrativeValidator) (data : pydict)
  : ValidationReport * NarrativeValidator * list string :=
  match validate false NarrativeGenesisInput (PDict data) with
  | Valid validated_input =>
      let warnings :=
        _perform_business_logic_checks
          (match validated_input with PDict d => d | _ => [] end) in
      let report := mkReport true [] (Some validated_input) in
      (report, mkValidator (Some report), warnings)
  | Invalid es =>
      let report := mkReport false (map report_error es) None in
      (report, mkValidator (Some report), [])
  end.

End Schema.

(* ================================================================== *)
(** * json.loads *)
(* ================================================================== *)

(** What [json.loads] raises: a [JSONDecodeError], which the recoverer
    catches, or an exception of another class, which it does not (the
    [ValueError] of an integer of too many digits, the [RecursionError] of
    arrays and objects too deep inside one another).  Each holds the text of
    the exception, [str(exc)]. *)
Inductive loads_error : Type :=
| JSONDecodeError (text : string)
| OtherError (text : string).

(** The decoder of CPython 3.11 on a [str] ([Lib/json/decoder.py] with the
    scanner of [Modules/_json.c]), with the settings a new interpreter has:
    whitespace is space, tab, line feed and carriage return; strings may
    not hold raw control characters; the constants [NaN], [Infinity] and
    [-Infinity] are read; of a repeated key the last value is kept, at the
    place of the first; an integer of more than 4300 digits is refused with
    a [ValueError]; a [float] is kept as its literal.  A [JSONDecodeError]
    names the place the decoder stopped at, as line, column and index.

    Two things are outside this model.  An escape [\uXXXX] above U+00FF
    names a character that a [string] does not have: the model stops at it
    and answers [WideEscape], an error of its own that stands for no
    exception.  The decoder recurses once for each array or object inside
    another, and the interpreter ends it with a [RecursionError] when its
    stack is used up, which depends on the state of the interpreter at the
    call: the model is the decoder with stack to spare.  What is proved of
    the recoverer for every text does not rest on this model: there
    [json.loads] is a variable. *)

Inductive parse_error : Type :=
| OutOfFuel
| Syntax (msg : string) (ahead : nat)
| IntTooLong (digits : nat)
| WideEscape.

Definition json_ws (c : ascii) : bool :=
  match c with
  | " "%char | "009"%char | "010"%char | "013"%char => true
  | _ => false
  end.

Fixpoint skip_ws (s : string) : string :=
  match s with
  | EmptyString => EmptyString
  | String c r => if json_ws c then skip_ws r else s
  end.

Definition is_digit (c : ascii) : bool := ((48 <=? ord c) && (ord c <=? 57))%N.

Definition hex_digit (c : ascii) : option N :=
  let n := ord c in
  if ((48 <=? n) && (n <=? 57))%N then Some (n - 48)%N
  else if ((97 <=? n) && (n <=? 102))%N then Some (n - 87)%N
  else if ((65 <=? n) && (n <=? 70))%N then Some (n - 55)%N
  else None.

Definition hex4 (a b c d : ascii) : option N :=
  match hex_digit a, hex_digit b, hex_digit c, hex_digit d with
  | Some x, Some y, Some z, Some w => Some (((x * 16 + y) * 16 + z) * 16 + w)%N
  | _, _, _, _ => None
  end.

(** The character a one-letter escape stands for. *)
Definition unescape (e : ascii) : option ascii :=
  match e with
  | "034"%char => Some "034"%char
  | "\"%char => Some "\"%char
  | "/"%char => Some "/"%char
  | "b"%char => Some "008"%char
  | "f"%char => Some "012"%char
  | "n"%char => Some "010"%char
  | "r"%char => Some "013"%char
  | "t"%char => Some "009"%char
  | _ => None
  end.

Definition push_char (c : ascii) (r : (string * string) + parse_error)
  : (string * string) + parse_error :=
  match r with
  | inl (body, rest) => inl (String c body, rest)
  | inr e => inr e
  end.

(** The body of a string, from just after its opening quote: the decoded
    text and what follows the closing quote.  A place in the text is kept
    as the number of characters from it to the end; [begin] is the place of
    the opening quote.  An escape [\uXXXX] is read only when something
    follows its four digits. *)
Fixpoint scanstring (begin : nat) (s : string) : (string * string) + parse_error :=
  match s with
  | EmptyString => inr (Syntax "Unterminated string starting at" begin)
  | String c r =>
      if Ascii.eqb c "034"%char then inl (EmptyString, r)
      else if Ascii.eqb c "\"%char then
        match r with
        | EmptyString => inr (Syntax "Unterminated string starting at" begin)
        | String e r1 =>
            if Ascii.eqb e "u"%char then
              match r1 with
              | String h1 (String h2 (String h3 (String h4 (String _ _ as r2)))) =>
                  match hex4 h1 h2 h3 h4 with
                  | Some n =>
                      if (n <? 256)%N then push_char (ascii_of_N n) (scanstring begin r2)
                      else inr WideEscape
                  | None => inr (Syntax "Invalid \uXXXX escape" (String.length r))
                  end
              | _ => inr (Syntax "Invalid \uXXXX escape" (String.length r))
              end
            else
              match unescape e with
              | Some ch => push_char ch (scanstring begin r1)
              | None => inr (Syntax "Invalid \escape" (String.length s))
              end
        end
      else if (ord c <? 32)%N then
        inr (Syntax "Invalid control character at" (String.length s))
      else push_char c (scanstring begin r)
  end.

(** [s] without its first character, when that is [c]. *)
Definition after_char (c : ascii) (s : string) : option string :=
  match s with
  | String x r => if Ascii.eqb x c then Some r else None
  | EmptyString => None
  end.

(** The longest run of digits at the head of [s], and the rest. *)
Fixpoint span_digits (s : string) : string * string :=
  match s with
  | String c r =>
      if is_digit c then let (ds, rest) := span_digits r in (String c ds, rest)
      else (EmptyString, s)
  | EmptyString => (EmptyString, EmptyString)
  end.

Fixpoint decimal (acc : Z) (ds : string) : Z :=
  match ds with
  | EmptyString => acc
  | String c r => decimal (acc * 10 + Z.of_N (ord c - 48)%N)%Z r
  end.

(** The integer part of a number: a lone 0, or a digit from 1 to 9
    followed by digits. *)
Definition scan_integer (s : string) : option (string * string) :=
  match s with
  | EmptyString => None
  | String c r =>
      if is_digit c then
        if Ascii.eqb c "0"%char then Some (String c EmptyString, r)
        else let (ds, r') := span_digits r in Some (String c ds, r')
      else None
  end.

(** The fraction of a number, if it has one: a point and at least one
    digit. *)
Definition scan_frac (s : string) : string * string :=
  match after_char "."%char s with
  | Some r =>
      match span_digits r with
      | (EmptyString, _) => (EmptyString, s)
      | (ds, r') => (String "."%char ds, r')
      end
  | None => (EmptyString, s)
  end.

(** The exponent of a number, if it has one: e or E, an optional sign and
    at least one digit. *)
Definition scan_exp (s : string) : string * string :=
  match s with
  | String e r =>
      if Ascii.eqb e "e"%char || Ascii.eqb e "E"%char then
        let (esign, r1) :=
          match after_char "+"%char r, after_char "-"%char r with
          | Some r', _ => ("+", r')
          | None, Some r' => ("-", r')
          | None, None => ("", r)
          end in
        match span_digits r1 with
        | (EmptyString, _) => (EmptyString, s)
        | (ds, r2) => (String e (esign ++ ds), r2)
        end
      else (EmptyString, s)
  | EmptyString => (EmptyString, s)
  end.

(** [sys.int_info.default_max_str_digits] *)
Definition max_str_digits : nat := 4300.

(** A number, by the decoder's pattern: an optional minus sign, the integer
    part, then the fraction and the exponent if there are any.  It is an
    [int] when it has neither fraction nor exponent, a [float] otherwise;
    an [int] is converted from its digits, which is refused when there are
    more than [max_str_digits] of them. *)
Definition scan_number (s : string) : option ((pyval * string) + parse_error) :=
  let (sign, s1) :=
    match after_char "-"%char s with
    | Some r => ("-", r)
    | None => ("", s)
    end in
  match scan_integer s1 with
  | None => None
  | Some (integer, s2) =>
      let (frac, s3) := scan_frac s2 in
      let (exp, s4) := scan_exp s3 in
      match frac, exp with
      | EmptyString, EmptyString =>
          if (max_str_digits <? String.length integer)%nat
          then Some (inr (IntTooLong (String.length integer)))
          else Some (inl (PInt (if String.eqb sign "-" then - decimal 0 integer
                                else decimal 0 integer), s4))
      | _, _ => Some (inl (PFloat (sign ++ integer ++ frac ++ exp), s4))
      end
  end.

(** [s] with the word [w] taken off its head, if it starts with it. *)
Fixpoint after_word (w s : string) : option string :=
  match w, s with
  | EmptyString, _ => Some s
  | String a w', String b s' => if Ascii.eqb a b then after_word w' s' else None
  | String _ _, EmptyString => None
  end.

(** The values that are neither a string nor a container. *)
Definition scan_atom (s : string) : (pyval * string) + parse_error :=
  match after_word "null" s with
  | Some r => inl (PNone, r)
  | None =>
  match after_word "true" s with
  | Some r => inl (PBool true, r)
  | None =>
  match after_word "false" s with
  | Some r => inl (PBool false, r)
  | None =>
  match scan_number s with
  | Some res => res
  | None =>
  match after_word "NaN" s with
  | Some r => inl (PFloat "NaN", r)
  | None =>
  match after_word "Infinity" s with
  | Some r => inl (PFloat "Infinity", r)
  | None =>
  match after_word "-Infinity" s with
  | Some r => inl (PFloat "-Infinity", r)
  | None => inr (Syntax "Expecting value" (String.length s))
  end end end end end end end.

(** The decoder proper.  Every call takes at least one character off the
    text before it calls again, so the fuel [json_loads] provides is never
    used up. *)
Fixpoint scan_value (fuel : nat) (s : string) : (pyval * string) + parse_error :=
  match fuel with
  | O => inr OutOfFuel
  | S fuel' =>
      match after_char "034"%char s, after_char "{"%char s, after_char "["%char s with
      | Some r, _, _ =>
          match scanstring (String.length s) r with
          | inl (text, rest) => inl (PStr text, rest)
          | inr e => inr e
          end
      | None, Some r, _ =>
          match after_char "}"%char (skip_ws r) with
          | Some rest => inl (PDict [], rest)
          | None => scan_members fuel' (skip_ws r) []
          end
      | None, None, Some r =>
          match after_char "]"%char (skip_ws r) with
          | Some rest => inl (PList [], rest)
          | None => scan_elements fuel' (skip_ws r) []
          end
      | None, None, None => scan_atom s
      end
  end

(** The members of an object, from the first character of a key. *)
with scan_members (fuel : nat) (s : string) (acc : pydict)
  : (pyval * string) + parse_error :=
  match fuel with
  | O => inr OutOfFuel
  | S fuel' =>
      match after_char "034"%char s with
      | None => inr (Syntax "Expecting property name enclosed in double quotes"
                       (String.length s))
      | Some r =>
          match scanstring (String.length s) r with
          | inr e => inr e
          | inl (key, r1) =>
              match after_char ":"%char (skip_ws r1) with
              | None => inr (Syntax "Expecting ':' delimiter"
                               (String.length (skip_ws r1)))
              | Some r2 =>
                  match scan_value fuel' (skip_ws r2) with
                  | inr e => inr e
                  | inl (value, r3) =>
                      let acc' := dict_set key value acc in
                      match after_char "}"%char (skip_ws r3),
                            after_char ","%char (skip_ws r3) with
                      | Some rest, _ => inl (PDict acc', rest)
                      | None, Some r4 => scan_members fuel' (skip_ws r4) acc'
                      | None, None => inr (Syntax "Expecting ',' delimiter"
                                             (String.length (skip_ws r3)))
                      end
                  end
              end
          end
      end
  end

(** The elements of an array, from the first character of an element. *)
with scan_elements (fuel : nat) (s : string) (acc : list pyval)
  : (pyval * string) + parse_error :=
  match fuel with
  | O => inr OutOfFuel
  | S fuel' =>
      match scan_value fuel' s with
      | inr e => inr e
      | inl (value, r1) =>
          let acc' := acc ++ [value] in
          match after_char "]"%char (skip_ws r1),
                after_char ","%char (skip_ws r1) with
          | Some rest, _ => inl (PList acc', rest)
          | None, Some r2 => scan_elements fuel' (skip_ws r2) acc'
          | None, None => inr (Syntax "Expecting ',' delimiter"
                                 (String.length (skip_ws r1)))
          end
      end
  end.

(** [str(n)] *)
Definition str_of_nat (n : nat) : string := NilEmpty.string_of_uint (Nat.to_uint n).

(** The line and the column of the place [pos] of [doc], both counted from
    one: [doc.count('\n', 0, pos) + 1] and [pos - doc.rfind('\n', 0, pos)]. *)
Fixpoint line_and_column (doc : string) (pos lineno colno : nat) : nat * nat :=
  match pos, doc with
  | S pos', String c r =>
      if Ascii.eqb c "010"%char then line_and_column r pos' (S lineno) 1
      else line_and_column r pos' lineno (S colno)
  | _, _ => (lineno, colno)
  end.

(** The text of [JSONDecodeError(msg, doc, pos)]. *)
Definition errmsg (msg doc : string) (pos : nat) : string :=
  let (lineno, colno) := line_and_column doc pos 1 1 in
  msg ++ ": line " ++ str_of_nat lineno ++ " column " ++ str_of_nat colno
      ++ " (char " ++ str_of_nat pos ++ ")".

(** The exception a stop of the decoder on [doc] comes out as. *)
Definition raised (doc : string) (e : parse_error) : loads_error :=
  match e with
  | Syntax msg ahead => JSONDecodeError (errmsg msg doc (String.length doc - ahead))
  | IntTooLong digits =>
      OtherError ("Exceeds the limit (" ++ str_of_nat max_str_digits
                  ++ " digits) for integer string conversion: value has "
                  ++ str_of_nat digits
                  ++ " digits; use sys.set_int_max_str_digits() to increase the limit")
  | WideEscape => OtherError "escape above U+00FF: outside the model"
  | OutOfFuel => OtherError "out of fuel"
  end.

(** [json.loads(s)]: the value, or the exception. *)
Definition json_loads (s : string) : pyval + loads_error :=
  let s0 := skip_ws s in
  match scan_value (2 * String.length s0 + 2) s0 with
  | inr e => inr (raised s e)
  | inl (value, rest) =>
      match skip_ws rest with
      | EmptyString => inl value
      | rest' => inr (JSONDecodeError
                        (errmsg "Extra data" s (String.length s - String.length rest')))
      end
  end.

(* ================================================================== *)
(** * process_narrative.py: [_call_openrouter_for_pillars] *)
(* ================================================================== *)

(** The [content] of the first choice of the response.  It is either a
    [dict] or something else, and of something else the code reads nothing
    but [str(content)]. *)
Inductive content : Type :=
| ContentDict (d : pydict)
| ContentOther (str_content : string).

(** The fence handling: when the text starts with three backquotes, drop
    its first line (if it has a line break at all), then drop three closing
    backquotes and strip again. *)
Definition strip_code_fences (raw : string) : string :=
  if startswith raw "```" then
    let raw1 :=
      match find raw "010"%char with
      | Some first_newline => slice_from (first_newline + 1) raw
      | None => raw
      end in
    if endswith raw1 "```" then strip (drop_last 3 raw1) else raw1
  else raw.

(** Whether [\s*[}\]]] matches at the head of [s]. *)
Fixpoint closing_follows (s : string) : bool :=
  match s with
  | EmptyString => false
  | String c r =>
      if isspace c then closing_follows r
      else Ascii.eqb c "}"%char || Ascii.eqb c "]"%char
  end.

(** [re.sub(r',(\s*[}\]])', r'\1', raw)]: every comma that is followed by
    optional whitespace and a closing brace or bracket is dropped.  The
    whitespace and the bracket of a match hold no comma, so copying them one
    by one is the same as copying the group and going on after it. *)
Fixpoint fix_trailing_commas (raw : string) : string :=
  match raw with
  | EmptyString => EmptyString
  | String c r =>
      if Ascii.eqb c ","%char && closing_follows r
      then fix_trailing_commas r
      else String c (fix_trailing_commas r)
  end.

(** The longest prefix of [s] that ends with a closing brace. *)
Fixpoint upto_last_brace (s : string) : option string :=
  match s with
  | EmptyString => None
  | String c r =>
      match upto_last_brace r with
      | Some p => Some (String c p)
      | None => if Ascii.eqb c "}"%char then Some (String c EmptyString) else None
      end
  end.

(** [re.search(r"\{[\s\S]*\}", raw)]: the leftmost opening brace that has a
    closing brace after it, up to the last closing brace. *)
Fixpoint search_object (raw : string) : option string :=
  match raw with
  | EmptyString => None
  | String c r =>
      if Ascii.eqb c "{"%char then
        match upto_last_brace r with
        | Some p => Some (String c p)
        | None => search_object r
        end
      else search_object r
  end.

Definition failed_to_parse (first_err repair_err : string) : string :=
  "Failed to parse/repair JSON from OpenRouter response. "
  ++ "Original error: " ++ first_err ++ "; repair error: " ++ repair_err.

(** The final shape check: a [dict] with the three keys. *)
Fixpoint check_keys (keys : list string) (pillars : pydict) : option string :=
  match keys with
  | [] => None
  | key :: rest =>
      if negb (dict_has key pillars)
      then Some ("Missing '" ++ key ++ "' in pillars response.")%string
      else check_keys rest pillars
  end.

Definition check_pillars (pillars : pyval) : pydict + string :=
  match pillars with
  | PDict d =>
      match check_keys ["pillar2"; "pillar3"; "pillar4"] d with
      | Some msg => inr msg
      | None => inl d
      end
  | _ => inr "Parsed pillars response is not a JSON object."
  end.

Section Recoverer.

(** [json.loads] as the interpreter at hand runs it: the value it returns
    or the exception it raises, whatever the interpreter's limits and
    whatever place the text is in. *)
Variable loads : string -> pyval + loads_error.

(** [json_repair.loads]: the value it returns, or the text of the
    exception it raises. *)
Variable json_repair_loads : string -> pyval + string.

(** The text handed to the parsers. *)
Definition sanitize (str_content : string) : string :=
  fix_trailing_commas (strip_code_fences (strip str_content)).

(** Strict parse, then, after a [JSONDecodeError], repair of the whole
    text, then repair of the brace-delimited part: the value obtained, or the
    text of the exception that leaves the function, which is the
    [RuntimeError] raised here or what [json.loads] raised besides a
    [JSONDecodeError]. *)
Definition parse_or_repair (raw : string) : pyval + string :=
  match loads raw with
  | inl pillars => inl pillars
  | inr (OtherError exc) => inr exc
  | inr (JSONDecodeError first_err) =>
      match json_repair_loads raw with
      | inl pillars => inl pillars
      | inr repair_err =>
          match search_object raw with
          | Some group0 =>
              match json_repair_loads group0 with
              | inl pillars => inl pillars
              | inr _ => inr (failed_to_parse first_err repair_err)
              end
          | None => inr (failed_to_parse first_err repair_err)
          end
      end
  end.

(** The value the handling of [content] arrives at, before its shape is
    checked: the [dict] itself, or what the parsers make of the text. *)
Definition recovered (c : content) : pyval + string :=
  match c with
  | ContentDict d => inl (PDict d)
  | ContentOther str_content => parse_or_repair (sanitize str_content)
  end.

(** [_call_openrouter_for_pillars], from the point where [content] has
    been read out of the response: the pillars returned, or the text of
    the exception raised. *)
Definition _call_openrouter_for_pillars (c : content) : pydict + string :=
  match recovered c with
  | inl pillars => check_pillars pillars
  | inr msg => inr msg
  end.

End Recoverer.

(* ================================================================== *)
(** * processors/validator.py: the summary and the statistics *)
(* ================================================================== *)

(** The text of the [AttributeError] raised when [name] is read from a
    value that has no such attribute. *)
Definition type_name (v : pyval) : string :=
  match v with
  | PNone => "NoneType"
  | PBool _ => "bool"
  | PInt _ => "int"
  | PFloat _ => "float"
  | PStr _ => "str"
  | PList _ => "list"
  | PDict _ => "dict"
  end.

Definition attribute_error (v : pyval) (name : string) : string :=
  "'" ++ type_name v ++ "' object has no attribute '" ++ name ++ "'".

(** The dictionary [ValidationReport.get_summary] returns, by its three
    keys. *)
Record Summary : Type := mkSummary {
  summary_is_valid : bool;
  error_count : nat;
  summary_errors : list ErrorDetails
}.

(** [ValidationReport.get_summary] *)
Definition get_summary (self : ValidationReport) : Summary :=
  mkSummary (is_valid self) (List.length (errors self)) (errors self).

(** [len(xs)] of a list of the validated model. *)
Definition len (v : pyval) : pyval :=
  match v with PList l => PInt (Z.of_nat (List.length l)) | _ => PInt 0 end.

(** [NarrativeValidator.get_validation_stats]: the dictionary returned, or
    the text of the [AttributeError] raised when a report said to be valid
    carries no data.  The data of a report, when there is one, is a
    validated model, all of whose attributes are there. *)
Definition get_validation_stats (self : NarrativeValidator) : pydict + string :=
  match last_report self with
  | None => inl [("status", PStr "no_valid_data")]
  | Some report =>
      if negb (is_valid report) then inl [("status", PStr "no_valid_data")]
      else
        match data report with
        | None => inr (attribute_error PNone "brand_identity_core")
        | Some validated =>
            let data := match validated with PDict d => d | _ => [] end in
            let brand_identity_core := attr_model "brand_identity_core" data in
            let autonomous_character_seed := attr_model "autonomous_character_seed" data in
            let target_audience_context := attr_model "target_audience_context" data in
            let tone_guardrails := attr_model "tone_guardrails" brand_identity_core in
            inl [ ("status", PStr "valid");
                  ("product_name", attr "product_name" brand_identity_core);
                  ("character_name",
                   attr "name" (attr_model "base_persona" autonomous_character_seed));
                  ("target_persona", attr "persona_code" target_audience_context);
                  ("proof_points_count",
                   len (attr "proof_points"
                          (attr_model "strategic_narrative_framework" data)));
                  ("allowed_tones", len (attr "allowed" tone_guardrails));
                  ("forbidden_tones", len (attr "forbidden" tone_guardrails));
                  ("slang_count",
                   len (attr "slang_whitelist"
                          (attr_model "language_model" target_audience_context)));
                  ("autonomy_level",
                   attr "autonomy_level"
                     (attr_model "evolution_parameters" autonomous_character_seed)) ]
        end
  end.

(* ================================================================== *)
(** * process_narrative.py: stamping and writing the pillars *)
(* ================================================================== *)

(** Exceptions are results here too: a step answers [inl] of its value or
    [inr] of the text of the exception it raises, and a failed step ends
    the run. *)
Definition bind {A B : Type} (m : A + string) (f : A -> B + string) : B + string :=
  match m with
  | inl a => f a
  | inr exc => inr exc
  end.

Notation "'do' x <- m ; f" := (bind m (fun x => f))
  (at level 10, x name, m at level 100, f at level 200).

(** [d[key]]; the text of a [KeyError] is the [repr] of the key. *)
Definition getitem (key : string) (d : pydict) : pyval + string :=
  match dict_get key d with
  | Some v => inl v
  | None => inr ("'" ++ key ++ "'")%string
  end.

(** [d.setdefault(k, v)] *)
Definition setdefault (k : string) (v : pyval) (d : pydict) : pydict :=
  if dict_has k d then d else dict_set k v d.

(** What is handed to [json.dump] for each of the four files. *)
Record PillarFiles : Type := mkFiles {
  output_pillar2 : pyval;
  output_pillar3 : pyval;
  output_pillar4 : pyval;
  raw_pillars_response : pyval
}.

(** How a run of [run_narrative_pipeline] ends once the input file has
    been read: the files are written, or an error is printed (what
    [print_error] is given) and the function returns, or an exception
    leaves the function. *)
Inductive pipeline_run : Type :=
| Written (files : PillarFiles)
| Reported (printed : string)
| Raised (exc : string).

Section Pipeline.

Variable loads : string -> pyval + loads_error.
Variable json_repair_loads : string -> pyval + string.

(** Whether the [float] read from a literal equals zero. *)
Variable float_is_zero : string -> bool.

(** [bool(v)] *)
Definition truthy (v : pyval) : bool :=
  match v with
  | PNone => false
  | PBool b => b
  | PInt z => negb (z =? 0)%Z
  | PFloat literal => negb (float_is_zero literal)
  | PStr s => negb (String.eqb s "")
  | PList items => match items with [] => false | _ => true end
  | PDict entries => match entries with [] => false | _ => true end
  end.

(** [_stamp_meta], the inner function of [run_narrative_pipeline] and of
    [generate_pillars_from_data] (which differ in what they stamp as the
    source: the path of the input file, or the [source_input] argument).
    The block and its [meta] are updated in place; they are parts of
    [pillars], which is how the caller below sees the update. *)
Definition _stamp_meta (source_input timestamp : string)
  (block : pyval) (generated_for : string) : pyval + string :=
  match block with
  | PDict b =>
      let got := match dict_get "meta" b with Some m => m | None => PNone end in
      let meta := if truthy got then got else PDict [] in
      match meta with
      | PDict m =>
          let m := setdefault "generated_for" (PStr generated_for) m in
          let m := setdefault "source_input" (PStr source_input) m in
          let m := setdefault "generation_timestamp" (PStr timestamp) m in
          let m := setdefault "schema_version"
                     (match dict_get "schema_version" m with
                      | Some v => v
                      | None => PStr "2.1.0"
                      end) m in
          inl (PDict (dict_set "meta" (PDict m) b))
      | _ => inr (attribute_error meta "setdefault")
      end
  | _ => inr (attribute_error block "get")
  end.

(** The three calls of [_stamp_meta] and what is written afterwards.  Each
    call changes the block held by [pillars], so that the raw response
    written last holds the stamped blocks. *)
Definition stamp_pillars (source_input timestamp : string) (pillars : pydict)
  : PillarFiles + string :=
  do block <- getitem "pillar2" pillars;
  do pillar2 <- _stamp_meta source_input timestamp block
                  "Pillar 2 (Hook Intelligence System)";
  let pillars := dict_set "pillar2" pillar2 pillars in
  do block <- getitem "pillar3" pillars;
  do pillar3 <- _stamp_meta source_input timestamp block
                  "Pillar 3 (Logic & Script Context)";
  let pillars := dict_set "pillar3" pillar3 pillars in
  do block <- getitem "pillar4" pillars;
  do pillar4 <- _stamp_meta source_input timestamp block
                  "Pillar 4 (Visual Production & QA)";
  let pillars := dict_set "pillar4" pillar4 pillars in
  inl (mkFiles pillar2 pillar3 pillar4 (PDict pillars)).

(** [generate_pillars_from_data], from the [content] of the response to
    what is handed to [json.dump]: an exception of the call or of the
    stamping leaves the function. *)
Definition generate_pillars_from_data (c : content) (source_input timestamp : string)
  : PillarFiles + string :=
  do pillars <- _call_openrouter_for_pillars loads json_repair_loads c;
  stamp_pillars source_input timestamp pillars.

(** [run_narrative_pipeline], likewise: an exception of the call is caught
    and printed, one of the stamping is not. *)
Definition run_narrative_pipeline (c : content) (input_file timestamp : string)
  : pipeline_run :=
  match _call_openrouter_for_pillars loads json_repair_loads c with
  | inr exc => Reported ("Pillar generation via OpenRouter failed: " ++ exc)%string
  | inl pillars =>
      match stamp_pillars input_file timestamp pillars with
      | inl files => Written files
      | inr exc => Raised exc
      end
  end.

End Pipeline.

(* ================================================================== *)
(** * ui_helpers.py *)
(* ================================================================== *)

(** The session state of the form, by the names of its keys, as
    [initialize_session_state] and the widgets of the form fill it: a text
    input holds a [str], a dynamic list a list of [str], and the social
    setting a [str] or [None].  [load_session_from_dict] copies into the
    session whatever an uploaded document holds at these places, which can
    be a value of another type; a session filled that way is not a value of
    this type, and nothing below is said of it. *)
Record Session : Type := mkSession {
  meta_project_name : string;
  meta_version : string;
  meta_input_by : string;
  meta_timestamp : string;
  brand_product_name : string;
  brand_archetype : string;
  brand_philosophy : string;
  brand_allowed_tones : list string;
  brand_forbidden_tones : list string;
  world_description : string;
  world_consensus : string;
  enemy_name : string;
  enemy_manifestation : string;
  enemy_why_fight : string;
  change_what_new : string;
  change_mechanism : string;
  promised_vision : string;
  promised_payoff : string;
  transformation_from_state : string;
  transformation_to_state : string;
  proof_points : list string;
  character_name : string;
  character_role : string;
  character_demographics : string;
  product_relation : string;
  social_setting : option string;
  lore_belief : string;
  lore_style : string;
  lore_obsessions : list string;
  lore_affliction : string;
  lore_aspiration : string;
  evolution_autonomy : string;
  evolution_memory : string;
  evolution_hallucination : string;
  audience_code : string;
  audience_pain_points : list string;
  audience_slang : list string;
  audience_references : list string
}.

(** [initialize_session_state] on a session that has none of the keys yet,
    as when the application starts: the fields of the form (the keys of the
    interface itself, such as the current section and the previews, are
    read by nothing here and are left out).  [now] is what
    [datetime.now().isoformat()] gives. *)
Definition initialize_session_state (now : string) : Session :=
  mkSession
    (* meta_project_name *)
    "Launch Campaign Q1"
    (* meta_version *)
    "1.0"
    (* meta_input_by *)
    ""
    (* meta_timestamp *)
    now
    (* brand_product_name *)
    "FocusFlow"
    (* brand_archetype *)
    ""
    (* brand_philosophy *)
    ""
    (* brand_allowed_tones *)
    []
    (* brand_forbidden_tones *)
    []
    (* world_description *)
    ("Dunia di mana kesibukan dianggap sebagai produktivitas. Notifikasi "
     ++ "tidak pernah berhenti.")%string
    (* world_consensus *)
    ("Jika kalender penuh dan selalu sibuk, berarti kamu produktif dan "
     ++ "berharga.")%string
    (* enemy_name *)
    "The Distraction Economy"
    (* enemy_manifestation *)
    ("Notifikasi chat, email masuk tanpa henti, meeting dadakan, dan social "
     ++ "media yang terus menarik perhatian.")%string
    (* enemy_why_fight *)
    ("Karena seluruh model bisnisnya dibangun dari fokus kita yang hancur "
     ++ "dan energi kita yang habis.")%string
    (* change_what_new *)
    "AI-driven Deep Work protection."
    (* change_mechanism *)
    ("FocusFlow memblokir distraksi, mengatur blok Deep Work, dan menjaga "
     ++ "energi dengan ritme kerja yang sehat.")%string
    (* promised_vision *)
    "Keseimbangan hidup di mana pekerjaan selesai tepat waktu tanpa lembur."
    (* promised_payoff *)
    ("Rasa tenang, jam kerja yang manusiawi, dan ruang untuk hidup di luar "
     ++ "pekerjaan.")%string
    (* transformation_from_state *)
    ("Anxious, Reactive, & Overwhelmed. Cemas dan selalu bereaksi dadakan "
     ++ "terhadap semua permintaan.")%string
    (* transformation_to_state *)
    ("Intentional, Calm, & In Control. Bekerja dengan sengaja, tenang, dan "
     ++ "memegang kendali atas kalender dan energinya.")%string
    (* proof_points *)
    [""]
    (* character_name *)
    "Sarah"
    (* character_role *)
    "Senior Marketing Associate"
    (* character_demographics *)
    "28 tahun, tinggal di Jakarta Selatan, bekerja di tech startup."
    (* product_relation *)
    "The Stumbler"
    (* social_setting *)
    (Some ("Open-plan office yang berisik, penuh meeting mendadak dan budaya "
        ++ "'ASAP'.")%string)
    (* lore_belief *)
    ("Untuk bisa dianggap berharga, dia harus selalu sibuk dan tidak boleh "
     ++ "terlihat santai.")%string
    (* lore_style *)
    ("Overthinking, penuh self-criticism, tapi diam-diam sangat terstruktur "
     ++ "di dalam kepala.")%string
    (* lore_obsessions *)
    ["Promosi jabatan"; "Perform di mata atasan"; "Time management dan produktivitas"]
    (* lore_affliction *)
    ("Imposter Syndrome akut. Dia merasa harus bekerja 12 jam sehari hanya "
     ++ "untuk membuktikan bahwa dia 'pantas' berada di posisinya. Dia takut "
     ++ "jika dia istirahat, orang akan sadar dia tidak secerdas itu.")%string
    (* lore_aspiration *)
    ("Mendapatkan promosi menjadi 'Marketing Manager' dalam 3 bulan ke "
     ++ "depan tanpa harus masuk rumah sakit karena tipes (burnout).")%string
    (* evolution_autonomy *)
    "Medium"
    (* evolution_memory *)
    ""
    (* evolution_hallucination *)
    ""
    (* audience_code *)
    ""
    (* audience_pain_points *)
    [""]
    (* audience_slang *)
    [""]
    (* audience_references *)
    [""].

(** [[t for t in items if t.strip()]] *)
Definition non_blank (items : list string) : list string :=
  filter (fun t => negb (String.eqb (strip t) "")) items.

(** [build_input_dict_from_session] *)
Definition build_input_dict_from_session (session_state : Session) : pydict :=
  [ ("meta", PDict
       [ ("project_name", PStr (meta_project_name session_state));
         ("version", PStr (meta_version session_state));
         ("input_by", PStr (meta_input_by session_state));
         ("timestamp", PStr (meta_timestamp session_state)) ]);
    ("brand_identity_core", PDict
       [ ("product_name", PStr (brand_product_name session_state));
         ("archetype", PStr (brand_archetype session_state));
         ("core_philosophy", PStr (brand_philosophy session_state));
         ("tone_guardrails", PDict
            [ ("allowed",
               PList (map PStr (non_blank (brand_allowed_tones session_state))));
              ("forbidden",
               PList (map PStr (non_blank (brand_forbidden_tones session_state)))) ]) ]);
    ("strategic_narrative_framework", PDict
       [ ("comment", PStr "User input from Streamlit UI");
         ("the_world_status_quo", PDict
            [ ("description", PStr (world_description session_state));
              ("consensus_reality", PStr (world_consensus session_state)) ]);
         ("the_enemy", PDict
            [ ("name", PStr (enemy_name session_state));
              ("manifestation", PStr (enemy_manifestation session_state));
              ("why_fight_it", PStr (enemy_why_fight session_state)) ]);
         ("the_change_vehicle", PDict
            [ ("what_is_new", PStr (change_what_new session_state));
              ("mechanism", PStr (change_mechanism session_state)) ]);
         ("the_promised_land", PDict
            [ ("vision", PStr (promised_vision session_state));
              ("emotional_payoff", PStr (promised_payoff session_state)) ]);
         ("transformation_thesis", PDict
            [ ("from_state", PStr (transformation_from_state session_state));
              ("to_state", PStr (transformation_to_state session_state)) ]);
         ("proof_points", PList (map PStr (non_blank (proof_points session_state)))) ]);
    ("autonomous_character_seed", PDict
       [ ("comment", PStr "Character with autonomous evolution capability");
         ("base_persona", PDict
            [ ("name", PStr (character_name session_state));
              ("role", PStr (character_role session_state));
              ("demographics", PStr (character_demographics session_state));
              ("product_relation", PStr (product_relation session_state));
              ("social_setting",
               match social_setting session_state with
               | Some s => if String.eqb s "" then PNone else PStr s
               | None => PNone
               end) ]);
         ("lore_seed", PDict
            [ ("central_belief", PStr (lore_belief session_state));
              ("internal_monologue_style", PStr (lore_style session_state));
              ("obsession_topics",
               PList (map PStr (non_blank (lore_obsessions session_state))));
              ("affliction", PStr (lore_affliction session_state));
              ("aspiration", PStr (lore_aspiration session_state)) ]);
         ("evolution_parameters", PDict
            [ ("autonomy_level", PStr (evolution_autonomy session_state));
              ("memory_retention", PStr (evolution_memory session_state));
              ("hallucination_permission",
               PStr (evolution_hallucination session_state)) ]) ]);
    ("target_audience_context", PDict
       [ ("persona_code", PStr (audience_code session_state));
         ("pain_points",
          PList (map PStr (non_blank (audience_pain_points session_state))));
         ("language_model", PDict
            [ ("slang_whitelist",
               PList (map PStr (non_blank (audience_slang session_state))));
              ("cultural_references",
               PList (map PStr (non_blank (audience_references session_state)))) ]) ]) ].

(** The warning of [check_tone_overlap].  Its text is a warning sign, the
    words "Warning: Tones appear in both lists: " and the overlap joined by
    ", "; it is kept by its overlap, the sign being a character outside the
    range of the strings here. *)
Inductive tone_warning : Type :=
| TonesInBothLists (overlap : list string).

(** [check_tone_overlap] *)
Definition check_tone_overlap (session_state : Session) : option tone_warning :=
  let allowed_set :=
    make_set (map (fun t => strip (lower t))
                (non_blank (brand_allowed_tones session_state))) in
  let forbidden_set :=
    make_set (map (fun t => strip (lower t))
                (non_blank (brand_forbidden_tones session_state))) in
  let overlap := set_inter allowed_set forbidden_set in
  match overlap with
  | [] => None
  | _ => Some (TonesInBothLists overlap)
  end.

(** [bool(s)] of a [str] and of a list, and [any(p.strip() for p in items)]. *)
Definition filled (s : string) : bool := negb (String.eqb s "").

Definition any_item (items : list string) : bool :=
  match items with [] => false | _ => true end.

Definition any_non_blank (items : list string) : bool :=
  existsb (fun p => filled (strip p)) items.

(** [get_section_completion] *)
Definition get_section_completion (session_state : Session) : list (string * bool) :=
  [ ("Project Info",
     filled (meta_project_name session_state) &&
     filled (meta_input_by session_state));
    ("Brand Identity",
     filled (brand_product_name session_state) &&
     filled (brand_archetype session_state) &&
     filled (brand_philosophy session_state) &&
     any_item (brand_allowed_tones session_state) &&
     any_item (brand_forbidden_tones session_state));
    ("Strategic Narrative",
     filled (world_description session_state) &&
     filled (enemy_name session_state) &&
     filled (promised_vision session_state) &&
     any_non_blank (proof_points session_state) &&
     filled (transformation_from_state session_state) &&
     filled (transformation_to_state session_state));
    ("Character Seed",
     filled (character_name session_state) &&
     filled (character_role session_state) &&
     filled (lore_belief session_state) &&
     any_non_blank (lore_obsessions session_state) &&
     filled (lore_affliction session_state) &&
     filled (lore_aspiration session_state) &&
     filled (product_relation session_state));
    ("Target Audience",
     filled (audience_code session_state) &&
     any_non_blank (audience_pain_points session_state) &&
     any_non_blank (audience_slang session_state)) ].

Section UiValidation.

Variable fromisoformat : string -> bool.

(** [validate_input_data]: a fresh validator each time. *)
Definition validate_input_data (data_dict : pydict) : ValidationReport :=
  fst (fst (validate_from_dict fromisoformat new_validator data_dict)).

End UiValidation.

(* ================================================================== *)
(** * processors/transformers.py and processors/distributor.py *)
(* ================================================================== *)

(** The functions below take validated models; a model is the dictionary
    of its attributes, read with [attr], [attr_str], [attr_list] and
    [attr_model]. *)

Open Scope string_scope.

(** [sep.join(items)] *)
Fixpoint join (sep : string) (items : list string) : string :=
  match items with
  | [] => ""
  | [x] => x
  | x :: rest => x ++ sep ++ join sep rest
  end.

(** The line break of the f-strings, and [f'"{p}"']. *)
Definition line_break : string := String "010"%char EmptyString.

Definition in_quotes (p : string) : string :=
  String "034"%char EmptyString ++ p ++ String "034"%char EmptyString.

(** [PromptBuilder.build_system_prompt] *)
Definition build_system_prompt (character framework brand audience : pydict) : string :=
  let persona := attr_model "base_persona" character in
  let lore := attr_model "lore_seed" character in
  let evolution := attr_model "evolution_parameters" character in
  let enemy := attr_model "the_enemy" framework in
  let allowed := join ", " (attr_list "allowed" (attr_model "tone_guardrails" brand)) in
  let forbidden := join ", " (attr_list "forbidden" (attr_model "tone_guardrails" brand)) in
  let obsessions := join ", " (attr_list "obsession_topics" lore) in
  let pain_points_str :=
    join ", " (map in_quotes (firstn 3 (attr_list "pain_points" audience))) in
  let slang :=
    join ", " (attr_list "slang_whitelist" (attr_model "language_model" audience)) in
  let prompt_parts :=
    [ "You are " ++ attr_str "name" persona ++ ", " ++ attr_str "role" persona ++ ". "
        ++ attr_str "demographics" persona;
      line_break ++ "Your Core Belief: " ++ attr_str "central_belief" lore;
      line_break ++ "Your Mission: Fight against " ++ attr_str "name" enemy ++ " - "
        ++ attr_str "manifestation" enemy ++ " " ++ attr_str "why_fight_it" enemy;
      line_break ++ "Your Voice: " ++ allowed ++ "." ++ line_break ++ "NEVER use: " ++ forbidden ++ ".";
      line_break ++ "Your Internal Monologue: " ++ attr_str "internal_monologue_style" lore;
      line_break ++ "Your Obsessions: " ++ obsessions ++ ".";
      line_break ++ "When creating content, always reference:";
      "- The Enemy: " ++ attr_str "name" enemy;
      "- The Promised Land: "
        ++ attr_str "vision" (attr_model "the_promised_land" framework);
      "- Proof: " ++ join " | " (firstn 3 (attr_list "proof_points" framework));
      line_break ++ "Speak to: " ++ attr_str "persona_code" audience ++ " - those with "
        ++ pain_points_str ++ ".";
      line_break ++ "Use their language: " ++ slang ++ ".";
      line_break ++ "[System]: Autonomy Level = " ++ attr_str "autonomy_level" evolution
        ++ " | Memory = " ++ attr_str "memory_retention" evolution
        ++ " | Imagination = " ++ attr_str "hallucination_permission" evolution ] in
  join line_break prompt_parts.

(** [build_full_system_prompt] *)
Definition build_full_system_prompt (validated_input : pydict) : string :=
  build_system_prompt
    (attr_model "autonomous_character_seed" validated_input)
    (attr_model "strategic_narrative_framework" validated_input)
    (attr_model "brand_identity_core" validated_input)
    (attr_model "target_audience_context" validated_input).

(** [VoiceEngineBuilder.build_voice_engine] *)
Definition build_voice_engine (brand character audience : pydict) : pydict :=
  let blacklist_base :=
    [ "Semangat Pagi"; "Financial Freedom (terlalu jauh)"; "Mindset Sukses";
      "Ayo Kawan"; "Solusi Terbaik" ] in
  let vocabulary_blacklist :=
    (blacklist_base ++ attr_list "forbidden" (attr_model "tone_guardrails" brand))%list in
  [ ("syntax_constraints", PList
       [ PStr "Gunakan kalimat pendek-pendek (maksimal 12 kata per napas).";
         PStr "Gunakan tanda kurung (...) untuk 'internal thought' atau pikiran intrusif.";
         PStr "JANGAN gunakan tanda seru (!) untuk semangat. Gunakan hanya untuk kemarahan/kaget." ]);
    ("vocabulary_whitelist", attr "slang_whitelist" (attr_model "language_model" audience));
    ("vocabulary_blacklist", PList (map PStr vocabulary_blacklist));
    ("tone_modifiers", PDict
       [ ("sarcasm_level", PStr "High (8/10)");
         ("optimism_level", PStr "Low (2/10) - Masih skeptis");
         ("paranoia_level", PStr "Medium (5/10) - Curiga pada diskon") ]) ].

(** [NarrativeStateMachine.build_state_machine] *)
Definition build_state_machine (framework character : pydict) : pydict :=
  [ ("current_phase", PStr "PHASE_1_THE_WAKE_UP_CALL");
    ("allowed_narrative_goals", PList
       [ PStr "Mengeluh tentang gaji yang cepat habis.";
         PStr "Menyadari pola belanja impulsif.";
         PStr ("Marah pada " ++ attr_str "name" (attr_model "the_enemy" framework) ++ ".") ]);
    ("forbidden_narrative_goals", PList
       [ PStr "Memberikan solusi finansial ahli.";
         PStr "Mengajarkan cara investasi saham.";
         PStr "Menjadi sukses tiba-tiba." ]);
    ("brand_integration_rule",
     PStr "LEVEL_0_AMBIENT (Produk hanya boleh disebut sebagai 'alat bantu', bukan pahlawan penyelamat hidup. Jangan hard selling.)") ].

(** [OrlicFrameworkImplementation.build_framework_implementation] *)
Definition build_framework_implementation (framework : pydict) : pydict :=
  let the_world_status_quo := attr_model "the_world_status_quo" framework in
  let the_enemy := attr_model "the_enemy" framework in
  [ ("identified_enemy", attr "name" the_enemy);
    ("world_view", attr "description" the_world_status_quo);
    ("script_structure_template", PList
       [ PDict [ ("sequence", PInt 1);
                 ("type", PStr "THE_WORLD (Hook)");
                 ("instruction",
                  PStr ("Mulai dengan observasi sinis tentang: "
                        ++ attr_str "consensus_reality" the_world_status_quo)) ];
         PDict [ ("sequence", PInt 2);
                 ("type", PStr "THE_ENEMY (Conflict)");
                 ("instruction",
                  PStr ("Tunjukkan bagaimana " ++ attr_str "manifestation" the_enemy)) ];
         PDict [ ("sequence", PInt 3);
                 ("type", PStr "THE_CHANGE (Realization)");
                 ("instruction",
                  PStr ("Momen 'Glitch': "
                        ++ attr_str "what_is_new"
                             (attr_model "the_change_vehicle" framework))) ] ]) ].

(** [TruthTerminalLoreEngine.build_lore_engine] *)
Definition build_lore_engine (character : pydict) : pydict :=
  [ ("active_obsessions", attr "obsession_topics" (attr_model "lore_seed" character));
    ("memory_buffer", PList
       [ PStr "Trauma: Minggu lalu gagal bayar tagihan tepat waktu.";
         PStr "Insight: Teman kantor yang gayanya hedon ternyata hutangnya banyak." ]);
    ("hallucination_guidance",
     attr "hallucination_permission" (attr_model "evolution_parameters" character)) ].

(** [AgentConfigGenerator.generate_pillar3_config]; [now] is what
    [datetime.now().isoformat()] gives. *)
Definition generate_pillar3_config (now : string) (validated_input : pydict) : pydict :=
  let brand := attr_model "brand_identity_core" validated_input in
  let framework := attr_model "strategic_narrative_framework" validated_input in
  let character := attr_model "autonomous_character_seed" validated_input in
  let audience := attr_model "target_audience_context" validated_input in
  let persona := attr_model "base_persona" character in
  let role_def :=
    "Kamu adalah " ++ attr_str "name" persona ++ ", " ++ attr_str "role" persona ++ ". "
    ++ attr_str "demographics" persona in
  [ ("meta", PDict
       [ ("generated_for", PStr "Pillar 3 (AI Scriptwriter Agent)");
         ("source_input", PStr "NarrativeGenesisInput_v2.0");
         ("generation_timestamp", PStr now) ]);
    ("agent_system_prompt_config", PDict
       [ ("role_definition", PStr role_def);
         ("voice_engine", PDict (build_voice_engine brand character audience)) ]);
    ("narrative_state_machine", PDict (build_state_machine framework character));
    ("orlic_framework_implementation", PDict (build_framework_implementation framework));
    ("truth_terminal_lore_engine", PDict (build_lore_engine character)) ].

(** The [content_generation_params] of the dictionary that
    [AgentConfigGenerator.generate_scriptwriter_config] returns. *)
Definition content_generation_params (validated_input : pydict) : pydict :=
  let character := attr_model "autonomous_character_seed" validated_input in
  let evolution_parameters := attr_model "evolution_parameters" character in
  [ ("remember_past_scripts", PBool true);
    ("allow_character_evolution",
     PBool (String.eqb (attr_str "autonomy_level" evolution_parameters) "High"));
    ("use_cumulative_memory",
     PBool (contains "cumulative"
              (lower (attr_str "memory_retention" evolution_parameters))));
    ("can_imagine_scenarios",
     PBool (contains "allowed"
              (lower (attr_str "hallucination_permission" evolution_parameters))));
    ("must_cite_proof", PBool true);
    ("always_reference_enemy", PBool true);
    ("always_point_to_promised_land", PBool true) ].

Open Scope list_scope.

(* ================================================================== *)
(** * Vocabulary of the statements, and sample inputs *)
(* ================================================================== *)

(** The keys a recovered object must have. *)
Definition required_keys : list string := ["pillar2"; "pillar3"; "pillar4"].

(** The error of the last repair attempt made on [raw] when every attempt
    fails: that of the brace-delimited part when there is one, that of the
    whole text otherwise. *)
Definition last_repair_error (json_repair_loads : string -> pyval + string)
  (raw : string) : option string :=
  match json_repair_loads raw with
  | inl _ => None
  | inr repair_err =>
      match search_object raw with
      | Some group0 =>
          match json_repair_loads group0 with
          | inl _ => None
          | inr substring_err => Some substring_err
          end
      | None => Some repair_err
      end
  end.

(** Whether every character of [s] is whitespace. *)
Fixpoint all_space (s : string) : bool :=
  match s with
  | EmptyString => true
  | String c r => isspace c && all_space r
  end.

(** A closing brace or bracket. *)
Definition is_closer (c : ascii) : bool :=
  Ascii.eqb c "}"%char || Ascii.eqb c "]"%char.

(** A double quote, a line break, and a text between double quotes. *)
Definition dq : string := String "034"%char EmptyString.
Definition nl : string := String "010"%char EmptyString.
Definition quoted (s : string) : string := (dq ++ s ++ dq)%string.

(** Strict JSON with the three keys, one of whose string values holds a
    comma followed by a closing brace:
    [{"pillar2": {"note": "a,}"}, "pillar3": {}, "pillar4": {}}]. *)
Definition strict_json_sample : string :=
  ("{" ++ quoted "pillar2" ++ ": {" ++ quoted "note" ++ ": " ++ quoted "a,}" ++ "}, "
   ++ quoted "pillar3" ++ ": {}, " ++ quoted "pillar4" ++ ": {}}")%string.

(** What lies between the braces of an object with the three keys and two
    trailing commas:
    ["pillar2": {"a": [1, 2, ]}, "pillar3": {}, "pillar4": {},]. *)
Definition trailing_comma_sample : string :=
  (quoted "pillar2" ++ ": {" ++ quoted "a" ++ ": [1, 2, ]}, "
   ++ quoted "pillar3" ++ ": {}, " ++ quoted "pillar4" ++ ": {},")%string.

(** An object with the three keys, up to its closing brace:
    [{"pillar2": {}, "pillar3": {}, "pillar4": {}]. *)
Definition open_object_sample : string :=
  ("{" ++ quoted "pillar2" ++ ": {}, " ++ quoted "pillar3" ++ ": {}, "
   ++ quoted "pillar4" ++ ": {}")%string.

(** A stand-in for [json_repair.loads] that fails on every text. *)
Definition failing_repair (s : string) : pyval + string :=
  inr "repair of the whole text failed".

(** [s * n] *)
Fixpoint copies (n : nat) (s : string) : string :=
  match n with
  | O => EmptyString
  | S n' => (s ++ copies n' s)%string
  end.

(** A payload between a fence line and a closing fence line. *)
Definition fenced (body : string) : string :=
  ("```json" ++ nl ++ body ++ nl ++ "```")%string.

(** An object text with the three keys and a trailing comma, whose first
    value is an integer of [digits] digits:
    [{"pillar2": 11...1, "pillar3": {}, "pillar4": {},}]. *)
Definition long_integer_sample (digits : nat) : string :=
  ("{" ++ quoted "pillar2" ++ ": " ++ copies digits "1" ++ ", "
   ++ quoted "pillar3" ++ ": {}, " ++ quoted "pillar4" ++ ": {},}")%string.

(** The text of the [ValueError] of an integer of 4301 digits. *)
Definition int_limit_error : string :=
  ("Exceeds the limit (4300 digits) for integer string conversion: "
   ++ "value has 4301 digits; use sys.set_int_max_str_digits() to increase the limit")%string.

(** A stray character, then an object that holds arrays nested deeper than
    the interpreter has stack for: [x{"a":[[[...[}], with 3000 opening
    brackets. *)
Definition deep_sample : string :=
  ("x{" ++ quoted "a" ++ ":" ++ copies 3000 "[" ++ "}")%string.

(** The [RecursionError] of the interpreter, as a Python call and as the
    decoder of [json] word it. *)
Definition recursion_error : string := "maximum recursion depth exceeded".
Definition recursion_error_in_decoder : string :=
  (recursion_error ++ " while decoding a JSON array from a unicode string")%string.

(** What [json_repair.loads] answers on [deep_sample] and on its
    brace-delimited part.  The library runs [json.loads] first and goes on
    to its own parser after a [JSONDecodeError] only.  On the part, which
    opens with its brace, [json.loads] enters the arrays and the interpreter
    ends it; that [RecursionError] leaves the library.  On the whole text
    [json.loads] stops at the stray character with a [JSONDecodeError], and
    the parser of the library, which calls itself for each array, is ended
    by the interpreter as well. *)
Definition deep_repair (s : string) : pyval + string :=
  if startswith s "{" then inr recursion_error_in_decoder
  else inr recursion_error.

(** A string as a [str] field takes it in. *)
Definition stripped (strip_ws : bool) (x : string) : string :=
  if strip_ws then strip x else x.

(** The violations of the schema a value can commit, one constructor for
    each constraint: the type of a field, the least length of a string or
    of a list, the choices of a literal, the presence of a required field,
    the [ValueError] of a field validator (which sees only a value that has
    passed the checks of its type) and of a model validator (which sees
    only a model all of whose fields have passed).  A violation inside a
    field of a model is a violation of the model, under the name of the
    field, whatever the other fields do.  [violates s t v e] reads: under
    the whitespace setting [s], [v] violates [t], and [e] describes the
    violation. *)
Inductive violates : bool -> ftype -> pyval -> ErrorDetails -> Prop :=
| string_expected s n check v :
    (forall x, v <> PStr x) ->
    violates s (FStr n check) v (mkError "string_type" [] Standard v)
| optional_string_expected s v :
    v <> PNone -> (forall x, v <> PStr x) ->
    violates s FOptStr v (mkError "string_type" [] Standard v)
| string_too_short s n check x :
    String.length (stripped s x) < n ->
    violates s (FStr n check) (PStr x)
      (mkError "string_too_short" [] Standard (PStr x))
| field_validator_raises s n check x text :
    n <= String.length (stripped s x) ->
    check (stripped s x) = Some text ->
    violates s (FStr n check) (PStr x)
      (mkError "value_error" [] (ValueError text) (PStr x))
| list_expected s n check v :
    (forall l, v <> PList l) ->
    violates s (FListStr n check) v (mkError "list_type" [] Standard v)
| item_string_expected s n check items i x :
    nth_error items i = Some x ->
    (forall y, x <> PStr y) ->
    violates s (FListStr n check) (PList items)
      (mkError "string_type" [Idx i] Standard x)
| list_too_short s n check xs :
    List.length xs < n ->
    violates s (FListStr n check) (PList (map PStr xs))
      (mkError "too_short" [] Standard (PList (map PStr xs)))
| list_validator_raises s n check xs text :
    n <= List.length xs ->
    check (map (stripped s) xs) = Some text ->
    violates s (FListStr n check) (PList (map PStr xs))
      (mkError "value_error" [] (ValueError text) (PList (map PStr xs)))
| literal_expected s choices v :
    (forall x, v = PStr x -> ~ In x choices) ->
    violates s (FLiteral choices) v (mkError "literal_error" [] Standard v)
| model_expected s strip_here fields after v :
    (forall d, v <> PDict d) ->
    violates s (FModel strip_here fields after) v
      (mkError "model_type" [] Standard v)
| field_missing s strip_here fields after d name ty :
    In (name, ty) fields ->
    dict_get name d = None ->
    default_of ty = None ->
    violates s (FModel strip_here fields after) (PDict d)
      (mkError "missing" [Key name] Standard (PDict d))
| field_violates s strip_here fields after d name ty x e :
    In (name, ty) fields ->
    dict_get name d = Some x ->
    violates strip_here ty x e ->
    violates s (FModel strip_here fields after) (PDict d)
      (with_outer_location (Key name) e)
| model_validator_raises s strip_here fields after d self text :
    walk (validate strip_here) d fields = ([], self) ->
    after self = Some text ->
    violates s (FModel strip_here fields after) (PDict d)
      (mkError "value_error" [] (ValueError text) (PDict d)).





Fixpoint distinct (names : list string) : bool :=
  match names with
  | [] => true
  | n :: rest => negb (mem n rest) && distinct rest
  end.

(** No model of the schema declares a name twice. *)
Fixpoint well_formed (t : ftype) : bool :=
  match t with
  | FModel _ fields _ =>
      distinct (map fst fields) && forallb (fun f => well_formed (snd f)) fields
  | _ => true
  end.

(** [declares s t p s' t']: in the schema [t] (itself under the whitespace
    setting [s]) the location [p] holds a field of type [t'], under the
    setting [s'] of the model that declares it. *)
Inductive declares : bool -> ftype -> location -> bool -> ftype -> Prop :=
| declares_here s t : declares s t [] s t
| declares_under s strip_here fields after name ty p s' t' :
    In (name, ty) fields ->
    declares strip_here ty p s' t' ->
    declares s (FModel strip_here fields after) (Key name :: p) s' t'.

(** The errors one field contributes to the walk over a model. *)
Definition field_errors (validate_field : ftype -> pyval -> outcome) (d : pydict)
  (f : string * ftype) : list ErrorDetails :=
  match dict_get (fst f) d with
  | None =>
      match default_of (snd f) with
      | Some _ => []
      | None => [mkError "missing" [Key (fst f)] Standard (PDict d)]
      end
  | Some x => map (with_outer_location (Key (fst f))) (errors_of (validate_field (snd f) x))
  end.


(** The error [e], moved under the location [p]. *)
Definition relocate (p : location) (e : ErrorDetails) : ErrorDetails :=
  mkError (err_type e) (p ++ err_loc e) (err_msg e) (err_input e).

(** Where the document holds the hallucination permission. *)
Definition hallucination_place : location :=
  [ Key "autonomous_character_seed"; Key "evolution_parameters";
    Key "hallucination_permission" ].

(** The value a document holds at a location made of field names. *)
Fixpoint value_at (p : location) (v : pyval) : option pyval :=
  match p with
  | [] => Some v
  | Key name :: p' =>
      match v with
      | PDict d =>
          match dict_get name d with
          | Some x => value_at p' x
          | None => None
          end
      | _ => None
      end
  | Idx _ :: _ => None
  end.

(** The [str] fields of a schema, each with its location and its
    [min_length]. *)
Fixpoint string_fields (t : ftype) : list (location * nat) :=
  match t with
  | FStr n _ => [([], n)]
  | FModel _ fields _ =>
      flat_map (fun f => map (fun pn => (Key (fst f) :: fst pn, snd pn))
                           (string_fields (snd f))) fields
  | _ => []
  end.

(** A document that passes validation, given its project name, its
    autonomy level, its forbidden tones (the allowed ones are "Raw" and
    "Warm") and the entries of its brand identity that come before the
    archetype. *)
Definition strs (l : list string) : pyval := PList (map PStr l).

Definition sample_meta (project_name : string) : pydict :=
  [ ("project_name", PStr project_name); ("version", PStr "1.0");
    ("input_by", PStr "editor"); ("timestamp", PStr "2024-01-15T10:30:00Z") ].

Definition sample_document (project_name autonomy_level : string)
  (forbidden : list string) (brand_head : pydict) : pydict :=
  [ ("meta", PDict (sample_meta project_name));
    ("brand_identity_core", PDict
       (brand_head ++
        [ ("archetype", PStr "Rebel"); ("core_philosophy", PStr "Question everything");
          ("tone_guardrails", PDict
             [ ("allowed", strs ["Raw"; "Warm"]); ("forbidden", strs forbidden) ]) ]));
    ("strategic_narrative_framework", PDict
       [ ("the_world_status_quo", PDict
            [ ("description", PStr "d"); ("consensus_reality", PStr "c") ]);
         ("the_enemy", PDict
            [ ("name", PStr "n"); ("manifestation", PStr "m"); ("why_fight_it", PStr "w") ]);
         ("the_change_vehicle", PDict
            [ ("what_is_new", PStr "n"); ("mechanism", PStr "m") ]);
         ("the_promised_land", PDict
            [ ("vision", PStr "v"); ("emotional_payoff", PStr "e") ]);
         ("transformation_thesis", PDict
            [ ("from_state", PStr "f"); ("to_state", PStr "t") ]);
         ("proof_points", strs ["Ten thousand users in a month"]) ]);
    ("autonomous_character_seed", PDict
       [ ("base_persona", PDict
            [ ("name", PStr "Raka"); ("role", PStr "barista");
              ("demographics", PStr "24, Jakarta, in debt");
              ("product_relation", PStr "The Skeptic") ]);
         ("lore_seed", PDict
            [ ("central_belief", PStr "b"); ("internal_monologue_style", PStr "s");
              ("obsession_topics", strs ["coffee"]); ("affliction", PStr "a");
              ("aspiration", PStr "a") ]);
         ("evolution_parameters", PDict
            [ ("autonomy_level", PStr autonomy_level); ("memory_retention", PStr "m");
              ("hallucination_permission", PStr "Limited") ]) ]);
    ("target_audience_context", PDict
       [ ("persona_code", PStr "GENZ_JKT"); ("pain_points", strs ["gaji kecil"]);
         ("language_model", PDict
            [ ("slang_whitelist", strs ["gabut"]);
              ("cultural_references", strs ["warkop"]) ]) ]) ].

(** A document that allows the tone "Raw" and forbids the tone "RAW", with
    its brand identity and its tone guardrails. *)
Definition overlap_tones : pydict :=
  [ ("allowed", strs ["Raw"; "Warm"]); ("forbidden", strs ["RAW"]) ].

Definition overlap_brand : pydict :=
  [ ("product_name", PStr "Genesis");
    ("archetype", PStr "Rebel"); ("core_philosophy", PStr "Question everything");
    ("tone_guardrails", PDict overlap_tones) ].

Definition overlap_document : pydict :=
  sample_document "Genesis" "Low" ["RAW"] [("product_name", PStr "Genesis")].

(** A stand-in for [datetime.fromisoformat] that accepts the timestamp of
    the sample document (after its "Z" has become "+00:00") and nothing
    else. *)
Definition fromisoformat_sample (s : string) : bool :=
  String.eqb s "2024-01-15T10:30:00+00:00".

(** The report of a call of [validate_from_dict]. *)
Definition report_of {A B : Type} (r : ValidationReport * A * B) : ValidationReport :=
  fst (fst r).

(** A comma that [fix_trailing_commas] is written for: one followed by
    optional whitespace and a closing brace or bracket. *)
Definition trailing_comma (raw : string) : Prop :=
  exists pre ws c post,
    raw = (pre ++ String "," (ws ++ String c post))%string /\
    all_space ws = true /\ is_closer c = true.

(** [s] without its commas. *)
Fixpoint without_commas (s : string) : string :=
  match s with
  | EmptyString => EmptyString
  | String c r => if Ascii.eqb c ","%char then without_commas r
                  else String c (without_commas r)
  end.

(** An entry the slang whitelist takes: not blank, at most 50 characters. *)
Definition slang_ok (slang : string) : Prop :=
  all_space slang = false /\ String.length slang <= 50.

(** A field that is not a model. *)
Definition is_leaf (t : ftype) : bool :=
  match t with FModel _ _ _ => false | _ => true end.

(** The leaves of a schema: where each one is, and the whitespace setting
    it is validated under. *)
Fixpoint leaf_settings (s : bool) (t : ftype) : list (location * bool) :=
  match t with
  | FModel strip_here fields _ =>
      flat_map (fun f => map (fun ps => (Key (fst f) :: fst ps, snd ps))
                           (leaf_settings strip_here (snd f))) fields
  | _ => [([], s)]
  end.

(** The sections of the document: the fields of its root model. *)
Definition sections (fromisoformat : string -> bool) : list (string * ftype) :=
  match NarrativeGenesisInput fromisoformat with
  | FModel _ fields _ => fields
  | _ => []
  end.

(** The validator after a call of [validate_from_dict]. *)
Definition validator_after {A B : Type} (r : A * NarrativeValidator * B) : NarrativeValidator :=
  snd (fst r).

(** The type declared at a place of a schema, with the whitespace setting
    it is validated under. *)
Fixpoint field_at (s : bool) (t : ftype) (p : location) : option (bool * ftype) :=
  match p with
  | [] => Some (s, t)
  | Key name :: p' =>
      match t with
      | FModel strip_here fields _ =>
          match lookup_field name fields with
          | Some ty => field_at strip_here ty p'
          | None => None
          end
      | _ => None
      end
  | Idx _ :: _ => None
  end.

(** The [meta] of a block, when it is an object. *)
Definition meta_of (block : pydict) : pydict :=
  match dict_get "meta" block with Some (PDict m) => m | _ => [] end.

(** What [_stamp_meta] fills in for a key the [meta] of a block lacks. *)
Definition stamp_default (source_input timestamp generated_for key : string) : option pyval :=
  if String.eqb key "generated_for" then Some (PStr generated_for)
  else if String.eqb key "source_input" then Some (PStr source_input)
  else if String.eqb key "generation_timestamp" then Some (PStr timestamp)
  else if String.eqb key "schema_version" then Some (PStr "2.1.0")
  else None.

(** A block [_stamp_meta] can work on: an object whose [meta], if it has
    one that counts as true, is an object. *)
Definition stampable (float_is_zero : string -> bool) (block : pyval) : bool :=
  match block with
  | PDict b =>
      match dict_get "meta" b with
      | Some (PDict _) => true
      | Some m => negb (truthy float_is_zero m)
      | None => true
      end
  | _ => false
  end.

(** A stand-in for the zero test of a [float]: the literal has no digit
    from 1 to 9 before its exponent (a literal that underflows is not
    told apart). *)
Fixpoint no_digit_but_zero (literal : string) : bool :=
  match literal with
  | EmptyString => true
  | String c r =>
      if Ascii.eqb c "e"%char || Ascii.eqb c "E"%char then true
      else if is_digit c && negb (Ascii.eqb c "0"%char) then false
      else if Ascii.eqb c "N"%char || Ascii.eqb c "I"%char then false
      else no_digit_but_zero r
  end.

(** A block with a [meta] of its own, which sets the version and leaves
    the time of generation null; and a response whose second block has no
    [meta] and whose third has one that counts as false. *)
Definition sample_block : pydict :=
  [ ("meta", PDict [ ("schema_version", PStr "3.0"); ("generation_timestamp", PNone) ]);
    ("hooks", PList [PStr "h1"]) ].

Definition sample_pillars : pydict :=
  [ ("pillar2", PDict sample_block);
    ("pillar3", PDict [("logic", PStr "l")]);
    ("pillar4", PDict [("meta", PFloat "0.0")]);
    ("notes", PStr "n") ].

(** A value that has the shape a type asks for: strings where strings are
    declared, lists of strings where lists are, and objects that have an
    entry of the right shape for every field without a default. *)
Fixpoint conforms (t : ftype) (v : pyval) : Prop :=
  match t with
  | FStr _ _ => exists s, v = PStr s
  | FOptStr => v = PNone \/ exists s, v = PStr s
  | FListStr _ _ => exists xs, v = PList (map PStr xs)
  | FLiteral _ => exists s, v = PStr s
  | FModel _ fields _ =>
      exists d, v = PDict d /\
        (fix all (fs : list (string * ftype)) : Prop :=
           match fs with
           | [] => True
           | (name, ty) :: rest =>
               match dict_get name d with
               | Some x => conforms ty x
               | None => default_of ty <> None
               end /\ all rest
           end) fields
  end.

(** The errors a value of the right shape can still draw. *)
Definition content_errors : list string :=
  ["string_too_short"; "too_short"; "literal_error"; "value_error"].

(** Where the document holds the slang whitelist and the tone guardrails. *)
Definition slang_place : location :=
  [ Key "target_audience_context"; Key "language_model"; Key "slang_whitelist" ].

Definition tone_place : location :=
  [ Key "brand_identity_core"; Key "tone_guardrails" ].

(** A session as the form starts with, filled in where the form starts
    empty; the name of the author is left empty. *)
Definition sample_session : Session :=
  mkSession "Launch Campaign Q1" "1.0" "" "2024-01-15T10:30:00Z"
    "FocusFlow" "The Rebel" "Deep work is a right" ["Raw"; " "; "Warm"] ["Corporate"]
    "A world of noise" "Busy means productive"
    "The Distraction Economy" "Notifications" "It feeds on focus"
    "Deep work protection" "Blocks distraction"
    "Work done on time" "Calm"
    "Anxious" "In control"
    ["Ten thousand users in a month"; ""]
    "Sarah" "Senior Marketing Associate" "28, Jakarta" "The Stumbler" (Some "")
    "Busy is worthy" "Overthinking" ["Promotion"] "Imposter syndrome" "Manager in 3 months"
    "Medium" "Cumulative" "Limited"
    "GENZ_JKT" ["gaji kecil"] ["gabut"] ["warkop"].

(** A session whose tone lists overlap for the form but not for the
    schema: the allowed tone has a space in front. *)
Definition spaced_tone_session : Session :=
  mkSession "Launch Campaign Q1" "1.0" "" "2024-01-15T10:30:00Z"
    "FocusFlow" "The Rebel" "Deep work is a right" [" Raw"] ["raw"]
    "A world of noise" "Busy means productive"
    "The Distraction Economy" "Notifications" "It feeds on focus"
    "Deep work protection" "Blocks distraction"
    "Work done on time" "Calm"
    "Anxious" "In control"
    ["Ten thousand users in a month"]
    "Sarah" "Senior Marketing Associate" "28, Jakarta" "The Stumbler" None
    "Busy is worthy" "Overthinking" ["Promotion"] "Imposter syndrome" "Manager in 3 months"
    "Medium" "Cumulative" "Limited"
    "GENZ_JKT" ["gaji kecil"] ["gabut"] ["warkop"].

(** The places of the document that [generate_pillar3_config] reads. *)
Definition pillar3_reads : list location :=
  [ [Key "brand_identity_core"; Key "tone_guardrails"; Key "forbidden"];
    [Key "target_audience_context"; Key "language_model"; Key "slang_whitelist"];
    [Key "autonomous_character_seed"; Key "base_persona"; Key "name"];
    [Key "autonomous_character_seed"; Key "base_persona"; Key "role"];
    [Key "autonomous_character_seed"; Key "base_persona"; Key "demographics"];
    [Key "autonomous_character_seed"; Key "lore_seed"; Key "obsession_topics"];
    [Key "autonomous_character_seed"; Key "evolution_parameters";
     Key "hallucination_permission"];
    [Key "strategic_narrative_framework"; Key "the_enemy"; Key "name"];
    [Key "strategic_narrative_framework"; Key "the_enemy"; Key "manifestation"];
    [Key "strategic_narrative_framework"; Key "the_world_status_quo"; Key "description"];
    [Key "strategic_narrative_framework"; Key "the_world_status_quo";
     Key "consensus_reality"];
    [Key "strategic_narrative_framework"; Key "the_change_vehicle"; Key "what_is_new"] ].

(** The value at a place, [None] standing for no value. *)
Definition read (p : location) (d : pydict) : pyval :=
  match value_at p (PDict d) with Some x => x | None => PNone end.

(** The places of the document that [_perform_business_logic_checks]
    reads, and the warnings printed by a call of [validate_from_dict]. *)
Definition checks_reads : list location :=
  [ [Key "brand_identity_core"; Key "archetype"];
    [Key "brand_identity_core"; Key "tone_guardrails"; Key "allowed"];
    [Key "strategic_narrative_framework"; Key "proof_points"];
    [Key "autonomous_character_seed"; Key "base_persona"; Key "demographics"];
    [Key "target_audience_context"; Key "pain_points"] ].

Definition warnings_of {A : Type} (r : A * list string) : list string := snd r.

(* ================================================================== *)
(** * Facts about strings *)
(* ================================================================== *)

(** [lit] occurs in [v] as a substring. *)
Definition occurs_in (lit v : string) : Prop :=
  exists pre post, v = (pre ++ lit ++ post)%string.

Lemma append_nil_r (s : string) : (s ++ "")%string = s.
Proof. induction s; simpl; congruence. Qed.

Lemma append_assoc (a b c : string) : ((a ++ b) ++ c = a ++ (b ++ c))%string.
Proof. induction a; simpl; congruence. Qed.

Lemma length_append (a b : string) :
  String.length (a ++ b) = String.length a + String.length b.
Proof. induction a; simpl; auto. Qed.

Lemma prefix_append (p r : string) : prefix p (p ++ r) = true.
Proof.
  induction p as [|c p IH]; simpl.
  - destruct r; reflexivity.
  - destruct (ascii_dec c c); [exact IH | congruence].
Qed.

Lemma prefix_inv (p s : string) : prefix p s = true -> exists r, s = (p ++ r)%string.
Proof.
  revert s; induction p as [|c p IH]; intros s H.
  - exists s; reflexivity.
  - destruct s as [|x s]; simpl in H; [discriminate|].
    destruct (ascii_dec c x) as [->|]; [|discriminate].
    destruct (IH _ H) as [r ->]. exists r; reflexivity.
Qed.

Lemma contains_unfold (needle hay : string) :
  contains needle hay =
  if prefix needle hay then true
  else match hay with
       | EmptyString => false
       | String _ r => contains needle r
       end.
Proof. destruct hay; reflexivity. Qed.

Lemma contains_occurs (needle hay : string) :
  contains needle hay = true <-> occurs_in needle hay.
Proof.
  split.
  - induction hay as [|c hay IH]; rewrite contains_unfold;
      destruct (prefix needle _) eqn:P; intros H.
    + apply prefix_inv in P as [r ->]. exists "", r; reflexivity.
    + discriminate.
    + apply prefix_inv in P as [r ->]. exists "", r; reflexivity.
    + destruct (IH H) as (pre & post & ->). exists (String c pre), post; reflexivity.
  - intros (pre & post & ->). induction pre as [|c pre IH]; simpl "++"%string.
    + rewrite contains_unfold, prefix_append; reflexivity.
    + rewrite contains_unfold. destruct (prefix needle _); [reflexivity | exact IH].
Qed.

Lemma occurs_in_suffix (a b v : string) : occurs_in (a ++ b) v -> occurs_in b v.
Proof.
  intros (pre & post & ->). exists (pre ++ a)%string, post.
  now rewrite !append_assoc.
Qed.

(** Both sides of an equation between concatenations, brought to the same
    right-nested form. *)
Ltac same_text :=
  repeat first [rewrite append_assoc | rewrite append_nil_r | progress simpl];
  reflexivity.

Lemma rstrip_snoc (s : string) (c : ascii) :
  rstrip (s ++ String c "") = if isspace c then rstrip s else (s ++ String c "")%string.
Proof.
  induction s as [|a s IH]; simpl.
  - destruct (isspace c); reflexivity.
  - rewrite IH. destruct (isspace c); [reflexivity|].
    destruct s; reflexivity.
Qed.

Lemma strip_fixed (a c : ascii) (m : string) :
  isspace a = false -> isspace c = false ->
  strip (String a m ++ String c "") = (String a m ++ String c "")%string.
Proof.
  intros Ha Hc. unfold strip. rewrite rstrip_snoc, Hc. simpl. now rewrite Ha.
Qed.

Lemma find_append (a b : string) (c : ascii) :
  find a c = None ->
  find (a ++ String c b) c = Some (String.length a).
Proof.
  induction a as [|x a IH]; simpl.
  - now rewrite Ascii.eqb_refl.
  - destruct (Ascii.eqb x c); [discriminate|].
    destruct (find a c); [discriminate|]. intros _. now rewrite IH.
Qed.

Lemma slice_from_append (a b : string) :
  slice_from (String.length a) (a ++ b) = b.
Proof. induction a; simpl; [destruct b; reflexivity | assumption]. Qed.

Lemma slice_to_append (a b : string) :
  slice_to (String.length a) (a ++ b) = a.
Proof. induction a; simpl; [destruct b; reflexivity | congruence]. Qed.

Lemma drop_last_append (a b : string) :
  drop_last (String.length b) (a ++ b) = a.
Proof.
  unfold drop_last. rewrite length_append.
  replace (String.length a + String.length b - String.length b) with (String.length a) by lia.
  apply slice_to_append.
Qed.

Lemma endswith_unfold (s p : string) :
  endswith s p =
  if String.eqb s p then true
  else match s with
       | EmptyString => false
       | String _ r => endswith r p
       end.
Proof. destruct s; reflexivity. Qed.

Lemma endswith_append (a p : string) : endswith (a ++ p) p = true.
Proof.
  induction a as [|x a IH]; simpl "++"%string; rewrite endswith_unfold.
  - now rewrite String.eqb_refl.
  - destruct (String.eqb _ p); [reflexivity | exact IH].
Qed.

Lemma endswith_inv (s p : string) :
  endswith s p = true -> exists pre, s = (pre ++ p)%string.
Proof.
  induction s as [|x s IH]; rewrite endswith_unfold;
    destruct (String.eqb _ p) eqn:E; intros H.
  - apply String.eqb_eq in E as <-. exists "". reflexivity.
  - discriminate.
  - apply String.eqb_eq in E as <-. exists "". reflexivity.
  - destruct (IH H) as [pre ->]. exists (String x pre). reflexivity.
Qed.

Lemma snoc_inj (a b : string) (c d : ascii) :
  (a ++ String c "" = b ++ String d "")%string -> c = d.
Proof.
  revert b; induction a as [|x a IH]; intros [|y b] H; simpl in H.
  - congruence.
  - destruct b; discriminate.
  - destruct a; discriminate.
  - injection H as _ H. eauto.
Qed.

Lemma endswith_other_last (s p : string) (c d : ascii) :
  c <> d -> endswith (s ++ String c "") (p ++ String d "") = false.
Proof.
  intros N. destruct (endswith _ _) eqn:E; [|reflexivity].
  apply endswith_inv in E as [pre E].
  rewrite <- append_assoc in E. apply snoc_inj in E. contradiction.
Qed.

Lemma is_closer_not_space (c : ascii) : is_closer c = true -> isspace c = false.
Proof.
  unfold is_closer. intros H. apply orb_prop in H as [H|H];
    apply Ascii.eqb_eq in H; subst; reflexivity.
Qed.

Lemma closing_follows_space (ws : string) (c : ascii) (post : string) :
  all_space ws = true -> is_closer c = true ->
  closing_follows (ws ++ String c post) = true.
Proof.
  intros W C. induction ws as [|x ws IH]; simpl.
  - rewrite (is_closer_not_space c C). exact C.
  - simpl in W. apply andb_prop in W as [Wx W]. rewrite Wx. now apply IH.
Qed.

Lemma closing_follows_comma (p w : string) :
  closing_follows (p ++ String "," w) = true -> closing_follows (p ++ w) = true.
Proof.
  induction p as [|x p IH]; simpl.
  - discriminate.
  - destruct (isspace x); [exact IH | auto].
Qed.

Lemma fix_trailing_commas_length (s : string) :
  String.length (fix_trailing_commas s) <= String.length s.
Proof.
  induction s as [|c s IH]; simpl; [lia|].
  destruct (_ && _); simpl; lia.
Qed.

(** A text that the repair leaves alone, with one comma put in before
    optional whitespace and a closing brace or bracket, is repaired to
    itself. *)
Lemma fix_trailing_commas_inserted (pre ws : string) (c : ascii) (post : string) :
  all_space ws = true -> is_closer c = true ->
  fix_trailing_commas (pre ++ ws ++ String c post) = (pre ++ ws ++ String c post)%string ->
  fix_trailing_commas (pre ++ String "," (ws ++ String c post))
  = (pre ++ ws ++ String c post)%string.
Proof.
  intros W C. induction pre as [|x pre IH]; intros H.
  - simpl. rewrite (closing_follows_space ws c post W C). exact H.
  - simpl in H |- *.
    destruct (Ascii.eqb x "," && closing_follows (pre ++ ws ++ String c post)) eqn:M.
    + pose proof (fix_trailing_commas_length (pre ++ ws ++ String c post)) as L.
      rewrite H in L. simpl in L. lia.
    + injection H as H.
      assert (M' : Ascii.eqb x "," && closing_follows (pre ++ String "," (ws ++ String c post))
                   = false).
      { destruct (Ascii.eqb x ","); [|reflexivity]. simpl in *.
        destruct (closing_follows (pre ++ String "," _)) eqn:E; [|reflexivity].
        apply closing_follows_comma in E. congruence. }
      rewrite M'. f_equal. now apply IH.
Qed.

(* ================================================================== *)
(** * The hallucination-permission rule *)
(* ================================================================== *)

Lemma validate_hallucination_accepts (v : string) :
  validate_hallucination v = None <->
  exists lit, In lit valid_values /\ occurs_in lit v.
Proof.
  unfold validate_hallucination.
  destruct (existsb _ valid_values) eqn:E; simpl.
  - split; [intros _ | reflexivity].
    apply existsb_exists in E as (lit & Hin & Hc).
    exists lit; split; [exact Hin | now apply contains_occurs].
  - split; [discriminate|]. intros (lit & Hin & Ho).
    assert (existsb (fun valid => contains valid v) valid_values = true).
    { apply existsb_exists. exists lit; split; [exact Hin | now apply contains_occurs]. }
    congruence.
Qed.

(** C10.  The acceptance condition of [validate_hallucination] is that
    "Allowed" or "Limited" occurs in the value, with the case as written: a
    value in which "Not Allowed" occurs has "Allowed" in it, so the check
    against the three literals equals the check against the two, and a
    value that has the words in lower case only is refused. *)
Theorem hallucination_check_reduces_to_two_literals :
  (forall v, occurs_in "Not Allowed" v -> occurs_in "Allowed" v) /\
  (forall v, existsb (fun valid => contains valid v) valid_values
             = contains "Allowed" v || contains "Limited" v) /\
  (forall v, validate_hallucination v = None <->
             occurs_in "Allowed" v \/ occurs_in "Limited" v) /\
  validate_hallucination "allowed" <> None /\
  validate_hallucination "not allowed, limited" <> None.
Proof.
  assert (N : forall v, occurs_in "Not Allowed" v -> occurs_in "Allowed" v).
  { intros v. apply (occurs_in_suffix "Not " "Allowed"). }
  assert (B : forall v, existsb (fun valid => contains valid v) valid_values
                        = contains "Allowed" v || contains "Limited" v).
  { intros v. unfold valid_values. cbn [existsb].
    destruct (contains "Allowed" v) eqn:A; [reflexivity|].
    destruct (contains "Not Allowed" v) eqn:NA.
    - apply contains_occurs, N, contains_occurs in NA. congruence.
    - cbn. now rewrite orb_false_r. }
  split; [exact N|]. split; [exact B|]. split; [|split; discriminate].
  intros v. unfold validate_hallucination. rewrite B.
  rewrite <- !contains_occurs.
  destruct (contains "Allowed" v), (contains "Limited" v); cbn;
    split; intros H; try reflexivity; try discriminate; auto;
    destruct H; discriminate.
Qed.

(* ================================================================== *)
(** * The fuel of the decoder *)
(* ================================================================== *)

Lemma skip_ws_length (s : string) : String.length (skip_ws s) <= String.length s.
Proof.
  induction s as [|c s IH]; simpl; [lia|].
  destruct (json_ws c); simpl; lia.
Qed.

Lemma after_char_length (c : ascii) (s r : string) :
  after_char c s = Some r -> String.length s = S (String.length r).
Proof.
  destruct s as [|x s]; simpl; [discriminate|].
  destruct (Ascii.eqb x c); [now intros [= ->] | discriminate].
Qed.

Lemma push_char_inl (c : ascii) (x : (string * string) + parse_error)
  (t r : string) :
  push_char c x = inl (t, r) -> exists t', x = inl (t', r).
Proof.
  destruct x as [[t' r']|e]; simpl; [|discriminate].
  intros [= _ ->]. eauto.
Qed.

Lemma push_char_fuel (c : ascii) (x : (string * string) + parse_error) :
  x <> inr OutOfFuel -> push_char c x <> inr OutOfFuel.
Proof. destruct x as [[t r]|e]; simpl; [discriminate | auto]. Qed.

Lemma scanstring_facts (begin n : nat) :
  forall s, String.length s <= n ->
            scanstring begin s <> inr OutOfFuel /\
            forall t r, scanstring begin s = inl (t, r) ->
                        String.length r < String.length s.
Proof.
  induction n as [|n IH]; intros s Hn.
  - destruct s; simpl in *; [|lia]. split; [discriminate | intros; discriminate].
  - destruct s as [|c r]; [split; [discriminate | intros; discriminate]|].
    simpl in Hn. cbn [scanstring].
    destruct (Ascii.eqb c "034").
    { split; [discriminate|]. intros t r' [= _ <-]. simpl. lia. }
    destruct (Ascii.eqb c "\").
    + destruct r as [|e r1]; [split; [discriminate | intros; discriminate]|].
      simpl in Hn.
      destruct (Ascii.eqb e "u").
      * destruct r1 as [|h1 [|h2 [|h3 [|h4 [|x r2]]]]];
          try (split; [discriminate | intros; discriminate]).
        simpl in Hn.
        destruct (hex4 h1 h2 h3 h4); [|split; [discriminate | intros; discriminate]].
        destruct (_ <? _)%N; [|split; [discriminate | intros; discriminate]].
        destruct (IH (String x r2)) as [F L]; [simpl; lia|]. split.
        -- now apply push_char_fuel.
        -- intros t r' H. apply push_char_inl in H as [t' H].
           apply L in H. simpl in *. lia.
      * destruct (unescape e); [|split; [discriminate | intros; discriminate]].
        destruct (IH r1) as [F L]; [lia|]. split.
        -- now apply push_char_fuel.
        -- intros t r' H. apply push_char_inl in H as [t' H].
           apply L in H. simpl. lia.
    + destruct (_ <? _)%N; [split; [discriminate | intros; discriminate]|].
      destruct (IH r) as [F L]; [lia|]. split.
      * now apply push_char_fuel.
      * intros t r' H. apply push_char_inl in H as [t' H].
        apply L in H. simpl. lia.
Qed.

Lemma scanstring_length (begin : nat) (s t r : string) :
  scanstring begin s = inl (t, r) -> String.length r < String.length s.
Proof. apply (scanstring_facts begin (String.length s) s (le_n _)). Qed.

Lemma scanstring_fuel (begin : nat) (s : string) : scanstring begin s <> inr OutOfFuel.
Proof. apply (scanstring_facts begin (String.length s) s (le_n _)). Qed.

Lemma span_digits_length (s : string) :
  String.length (snd (span_digits s)) <= String.length s.
Proof.
  induction s as [|c s IH]; simpl; [lia|].
  destruct (is_digit c); [|simpl; lia].
  destruct (span_digits s); simpl in *. lia.
Qed.

Lemma scan_integer_length (s i r : string) :
  scan_integer s = Some (i, r) -> String.length r < String.length s.
Proof.
  destruct s as [|c s]; simpl; [discriminate|].
  destruct (is_digit c); [|discriminate].
  destruct (Ascii.eqb c "0").
  - intros [= _ <-]. lia.
  - pose proof (span_digits_length s) as L.
    destruct (span_digits s). intros [= _ <-]. simpl in L. lia.
Qed.

Lemma scan_frac_length (s : string) :
  String.length (snd (scan_frac s)) <= String.length s.
Proof.
  unfold scan_frac. destruct (after_char "." s) as [r|] eqn:A; [|simpl; lia].
  apply after_char_length in A. pose proof (span_digits_length r) as L.
  destruct (span_digits r) as [[|d ds] r']; simpl in *; lia.
Qed.

Lemma scan_exp_length (s : string) :
  String.length (snd (scan_exp s)) <= String.length s.
Proof.
  unfold scan_exp. destruct s as [|e r]; [simpl; lia|].
  destruct (_ || _); [|simpl; lia].
  assert (H : forall esign r1, String.length r1 <= String.length r ->
            String.length
              (snd match span_digits r1 with
                   | (EmptyString, _) => (EmptyString, String e r)
                   | (ds, r2) => (String e (esign ++ ds), r2)
                   end) <= String.length (String e r)).
  { intros esign r1 H1. pose proof (span_digits_length r1) as L.
    destruct (span_digits r1) as [[|d ds] r2]; simpl in *; lia. }
  destruct (after_char "+" r) as [r'|] eqn:P.
  - apply H. apply after_char_length in P. lia.
  - destruct (after_char "-" r) as [r'|] eqn:M.
    + apply H. apply after_char_length in M. lia.
    + apply H. lia.
Qed.

Lemma scan_number_facts (s : string) (res : (pyval * string) + parse_error) :
  scan_number s = Some res ->
  res <> inr OutOfFuel /\
  forall v r, res = inl (v, r) -> String.length r < String.length s.
Proof.
  unfold scan_number.
  assert (H : forall sign s1, String.length s1 <= String.length s ->
            match scan_integer s1 with
            | None => None
            | Some (integer, s2) =>
                let (frac, s3) := scan_frac s2 in
                let (exp, s4) := scan_exp s3 in
                match frac, exp with
                | EmptyString, EmptyString =>
                    if (max_str_digits <? String.length integer)%nat
                    then Some (inr (IntTooLong (String.length integer)))
                    else Some (inl (PInt (if String.eqb sign "-" then - decimal 0 integer
                                          else decimal 0 integer), s4))
                | _, _ => Some (inl (PFloat (sign ++ integer ++ frac ++ exp), s4))
                end
            end = Some res ->
            res <> inr OutOfFuel /\
            forall v r, res = inl (v, r) -> String.length r < String.length s).
  { intros sign s1 H1.
    destruct (scan_integer s1) as [[integer s2]|] eqn:I; [|discriminate].
    apply scan_integer_length in I.
    pose proof (scan_frac_length s2) as F. destruct (scan_frac s2) as [frac s3].
    pose proof (scan_exp_length s3) as E. destruct (scan_exp s3) as [exp s4].
    simpl in F, E.
    destruct frac, exp; try destruct (_ <? _)%nat; intros [= <-];
      (split; [discriminate | intros v r [= _ <-]; lia]). }
  destruct (after_char "-" s) as [r'|] eqn:M.
  - apply H. apply after_char_length in M. lia.
  - apply H. lia.
Qed.

Lemma after_word_length (w s r : string) :
  after_word w s = Some r -> String.length s = String.length w + String.length r.
Proof.
  revert s; induction w as [|a w IH]; intros s; simpl.
  - now intros [= ->].
  - destruct s as [|b s]; [discriminate|].
    destruct (Ascii.eqb a b); [|discriminate].
    intros H. apply IH in H. simpl. lia.
Qed.

Lemma scan_atom_facts (s : string) :
  scan_atom s <> inr OutOfFuel /\
  forall v r, scan_atom s = inl (v, r) -> String.length r < String.length s.
Proof.
  unfold scan_atom.
  repeat match goal with
         | |- context [after_word ?w s] =>
             let A := fresh "A" in
             destruct (after_word w s) eqn:A;
             [apply after_word_length in A; simpl in A;
              split; [discriminate | intros v r [= _ <-]; lia] |]
         | |- context [scan_number s] =>
             let N := fresh "N" in
             destruct (scan_number s) as [res|] eqn:N;
             [exact (scan_number_facts _ _ N) |]
         end.
  split; [discriminate | intros; discriminate].
Qed.

(** What a successful scan leaves is shorter than what it was given. *)
Lemma scan_consumes (fuel : nat) :
  (forall s v r, scan_value fuel s = inl (v, r) -> String.length r < String.length s) /\
  (forall s acc v r, scan_members fuel s acc = inl (v, r) ->
                     String.length r < String.length s) /\
  (forall s acc v r, scan_elements fuel s acc = inl (v, r) ->
                     String.length r < String.length s).
Proof.
  induction fuel as [|fuel (IHv & IHm & IHe)];
    [repeat split; intros; discriminate|].
  split; [|split].
  - intros s v r. cbn [scan_value].
    destruct (after_char "034" s) as [r0|] eqn:Q.
    { apply after_char_length in Q.
      destruct (scanstring _ r0) as [[t rest]|e] eqn:S; [|discriminate].
      apply scanstring_length in S. intros [= _ <-]. lia. }
    destruct (after_char "{" s) as [r0|] eqn:B.
    { apply after_char_length in B. pose proof (skip_ws_length r0) as W.
      destruct (after_char "}" (skip_ws r0)) as [rest|] eqn:C.
      - apply after_char_length in C. intros [= _ <-]. lia.
      - intros H. apply IHm in H. lia. }
    destruct (after_char "[" s) as [r0|] eqn:K.
    { apply after_char_length in K. pose proof (skip_ws_length r0) as W.
      destruct (after_char "]" (skip_ws r0)) as [rest|] eqn:C.
      - apply after_char_length in C. intros [= _ <-]. lia.
      - intros H. apply IHe in H. lia. }
    apply scan_atom_facts.
  - intros s acc v r. cbn [scan_members].
    destruct (after_char "034" s) as [r0|] eqn:Q; [|discriminate].
    apply after_char_length in Q.
    destruct (scanstring _ r0) as [[key r1]|e] eqn:S; [|discriminate].
    apply scanstring_length in S. pose proof (skip_ws_length r1) as W1.
    destruct (after_char ":" (skip_ws r1)) as [r2|] eqn:C; [|discriminate].
    apply after_char_length in C. pose proof (skip_ws_length r2) as W2.
    destruct (scan_value fuel (skip_ws r2)) as [[value r3]|e] eqn:V; [|discriminate].
    apply IHv in V. pose proof (skip_ws_length r3) as W3.
    destruct (after_char "}" (skip_ws r3)) as [rest|] eqn:E.
    { apply after_char_length in E. intros [= _ <-]. lia. }
    destruct (after_char "," (skip_ws r3)) as [r4|] eqn:M; [|discriminate].
    apply after_char_length in M. pose proof (skip_ws_length r4) as W4.
    intros H. apply IHm in H. lia.
  - intros s acc v r. cbn [scan_elements].
    destruct (scan_value fuel s) as [[value r1]|e] eqn:V; [|discriminate].
    apply IHv in V. pose proof (skip_ws_length r1) as W1.
    destruct (after_char "]" (skip_ws r1)) as [rest|] eqn:E.
    { apply after_char_length in E. intros [= _ <-]. lia. }
    destruct (after_char "," (skip_ws r1)) as [r2|] eqn:M; [|discriminate].
    apply after_char_length in M. pose proof (skip_ws_length r2) as W2.
    intros H. apply IHe in H. lia.
Qed.

(** With fuel above twice the length of the text the scan does not run out
    of it. *)
Lemma scan_has_fuel (fuel : nat) :
  (forall s, 2 * String.length s + 1 <= fuel -> scan_value fuel s <> inr OutOfFuel) /\
  (forall s acc, 2 * String.length s + 1 <= fuel ->
                 scan_members fuel s acc <> inr OutOfFuel) /\
  (forall s acc, 2 * String.length s + 2 <= fuel ->
                 scan_elements fuel s acc <> inr OutOfFuel).
Proof.
  induction fuel as [|fuel (IHv & IHm & IHe)]; [repeat split; intros; lia|].
  split; [|split].
  - intros s F. cbn [scan_value].
    destruct (after_char "034" s) as [r0|] eqn:Q.
    { pose proof (scanstring_fuel (String.length s) r0) as S.
      destruct (scanstring _ r0) as [[t rest]|e]; [discriminate | congruence]. }
    destruct (after_char "{" s) as [r0|] eqn:B.
    { apply after_char_length in B. pose proof (skip_ws_length r0) as W.
      destruct (after_char "}" (skip_ws r0)); [discriminate|].
      apply IHm. lia. }
    destruct (after_char "[" s) as [r0|] eqn:K.
    { apply after_char_length in K. pose proof (skip_ws_length r0) as W.
      destruct (after_char "]" (skip_ws r0)); [discriminate|].
      apply IHe. lia. }
    apply scan_atom_facts.
  - intros s acc F. cbn [scan_members].
    destruct (after_char "034" s) as [r0|] eqn:Q; [|discriminate].
    apply after_char_length in Q.
    pose proof (scanstring_fuel (String.length s) r0) as SF.
    destruct (scanstring _ r0) as [[key r1]|e] eqn:S; [|congruence].
    apply scanstring_length in S. pose proof (skip_ws_length r1) as W1.
    destruct (after_char ":" (skip_ws r1)) as [r2|] eqn:C; [|discriminate].
    apply after_char_length in C. pose proof (skip_ws_length r2) as W2.
    assert (VF : scan_value fuel (skip_ws r2) <> inr OutOfFuel) by (apply IHv; lia).
    destruct (scan_value fuel (skip_ws r2)) as [[value r3]|e] eqn:V; [|congruence].
    apply scan_consumes in V. pose proof (skip_ws_length r3) as W3.
    destruct (after_char "}" (skip_ws r3)); [discriminate|].
    destruct (after_char "," (skip_ws r3)) as [r4|] eqn:M; [|discriminate].
    apply after_char_length in M. pose proof (skip_ws_length r4) as W4.
    apply IHm. lia.
  - intros s acc F. cbn [scan_elements].
    assert (VF : scan_value fuel s <> inr OutOfFuel) by (apply IHv; lia).
    destruct (scan_value fuel s) as [[value r1]|e] eqn:V; [|congruence].
    apply scan_consumes in V. pose proof (skip_ws_length r1) as W1.
    destruct (after_char "]" (skip_ws r1)); [discriminate|].
    destruct (after_char "," (skip_ws r1)) as [r2|] eqn:M; [|discriminate].
    apply after_char_length in M. pose proof (skip_ws_length r2) as W2.
    apply IHe. lia.
Qed.

(** [json_loads] gives the decoder all the fuel it needs: it reports no
    error but those of the decoder. *)
Lemma json_loads_has_fuel (s : string) :
  scan_value (2 * String.length (skip_ws s) + 2) (skip_ws s) <> inr OutOfFuel.
Proof. apply scan_has_fuel. lia. Qed.

Lemma json_loads_never_out_of_fuel (s : string) :
  json_loads s <> inr (OtherError "out of fuel").
Proof.
  unfold json_loads. pose proof (json_loads_has_fuel s) as F.
  destruct (scan_value _ (skip_ws s)) as [[value rest]|e].
  - destruct (skip_ws rest); discriminate.
  - destruct e; try discriminate. congruence.
Qed.

(* ================================================================== *)
(** * The shape check of the recovered value *)
(* ================================================================== *)

Lemma check_keys_none (keys : list string) (d : pydict) :
  check_keys keys d = None <-> forall key, In key keys -> dict_has key d = true.
Proof.
  induction keys as [|k keys IH]; simpl.
  - split; [intros _ key [] | reflexivity].
  - destruct (dict_has k d) eqn:E; simpl.
    + rewrite IH. split.
      * intros H key [<- | Hin]; auto.
      * intros H key Hin. apply H. now right.
    + split; [discriminate|]. intros H.
      specialize (H k (or_introl eq_refl)). congruence.
Qed.

Lemma check_keys_some (keys : list string) (d : pydict) (msg : string) :
  check_keys keys d = Some msg ->
  exists key, In key keys /\ dict_has key d = false /\
              msg = ("Missing '" ++ key ++ "' in pillars response.")%string.
Proof.
  induction keys as [|k keys IH]; simpl; [discriminate|].
  destruct (dict_has k d) eqn:E; simpl.
  - intros H. destruct (IH H) as (key & Hin & Hk & ->).
    exists key. auto.
  - intros [= <-]. exists k. auto.
Qed.

Section RecovererFacts.

Variable loads : string -> pyval + loads_error.
Variable json_repair_loads : string -> pyval + string.


(** C1.  The call returns pillars only when the recovered value is a [dict]
    that has all of [pillar2], [pillar3] and [pillar4], and then returns
    that [dict] itself; a recovered value that is no [dict] raises "Parsed
    pillars response is not a JSON object."; a [dict] that lacks one of the
    keys raises the error that names a key it lacks; the strict JSON array
    [[1, 2]] is refused as not an object. *)
Theorem recovery_postcondition (c : content) :
  (forall d,
      _call_openrouter_for_pillars loads json_repair_loads c = inl d <->
      recovered loads json_repair_loads c = inl (PDict d) /\
      forall key, In key required_keys -> dict_has key d = true) /\
  (forall v,
      recovered loads json_repair_loads c = inl v ->
      (forall d, v <> PDict d) ->
      _call_openrouter_for_pillars loads json_repair_loads c
      = inr "Parsed pillars response is not a JSON object.") /\
  (forall d,
      recovered loads json_repair_loads c = inl (PDict d) ->
      (exists key, In key required_keys /\ dict_has key d = false) ->
      exists key,
        In key required_keys /\ dict_has key d = false /\
        _call_openrouter_for_pillars loads json_repair_loads c
        = inr ("Missing '" ++ key ++ "' in pillars response.")%string) /\
  (forall msg,
      recovered loads json_repair_loads c = inr msg ->
      _call_openrouter_for_pillars loads json_repair_loads c = inr msg) /\
  _call_openrouter_for_pillars json_loads json_repair_loads (ContentOther "[1, 2]")
  = inr "Parsed pillars response is not a JSON object.".
Proof.
  unfold _call_openrouter_for_pillars, required_keys.
  split; [|split; [|split; [|split]]].
  - intros d; split.
    + intros H. destruct (recovered _ _ c) as [v|msg]; [|discriminate].
      destruct v; unfold check_pillars in H; try discriminate.
      destruct (check_keys _ entries) eqn:E; [discriminate|].
      injection H as <-. split; [reflexivity | now apply check_keys_none].
    + intros [-> H]. unfold check_pillars. apply check_keys_none in H. now rewrite H.
  - intros v -> H. destruct v; try reflexivity. now destruct (H entries).
  - intros d -> (key & Hin & Hk). unfold check_pillars.
    destruct (check_keys _ d) eqn:E.
    + apply check_keys_some in E as (k & Hk1 & Hk2 & ->). exists k. auto.
    + exfalso. assert (dict_has key d = true) by (eapply check_keys_none; eauto).
      congruence.
  - now intros msg ->.
  - reflexivity.
Qed.

(** C8 (amended).  When the strict parse fails with a [JSONDecodeError],
    the repair of the whole text fails, and the repair of the brace-delimited
    part (if the text has one) fails as well, the call raises one error
    whose text holds the error of the strict parse and the error of the
    repair of the whole text.  That is the error of the last attempt when
    the text has no brace-delimited part.  This holds whatever [json.loads]
    and [json_repair.loads] answer. *)
Theorem exhaustion_reports_strict_and_whole_text_repair_errors
  (str_content first_err repair_err : string)
  (Hstrict : loads (sanitize str_content) = inr (JSONDecodeError first_err))
  (Hrepair : json_repair_loads (sanitize str_content) = inr repair_err)
  (Hpart : forall group0, search_object (sanitize str_content) = Some group0 ->
                          exists e, json_repair_loads group0 = inr e) :
  let msg := ("Failed to parse/repair JSON from OpenRouter response. "
              ++ "Original error: " ++ first_err
              ++ "; repair error: " ++ repair_err)%string in
  _call_openrouter_for_pillars loads json_repair_loads (ContentOther str_content) = inr msg /\
  occurs_in first_err msg /\
  occurs_in repair_err msg /\
  (search_object (sanitize str_content) = None ->
   last_repair_error json_repair_loads (sanitize str_content) = Some repair_err).
Proof.
  intros msg. split; [|split; [|split]].
  - unfold _call_openrouter_for_pillars, recovered, parse_or_repair.
    rewrite Hstrict, Hrepair.
    destruct (search_object (sanitize str_content)) as [g|] eqn:S.
    + destruct (Hpart g eq_refl) as [e ->]. reflexivity.
    + reflexivity.
  - exists "Failed to parse/repair JSON from OpenRouter response. Original error: ",
      ("; repair error: " ++ repair_err)%string.
    reflexivity.
  - exists ("Failed to parse/repair JSON from OpenRouter response. Original error: "
            ++ first_err ++ "; repair error: ")%string, "".
    subst msg. rewrite append_nil_r.
    change (?a ++ ?b ++ ?c ++ ?d)%string with (a ++ (b ++ (c ++ d)))%string.
    now rewrite !append_assoc.
  - intros S. unfold last_repair_error. now rewrite Hrepair, S.
Qed.

(** C3.  What the code does with the strict JSON text
    [{"pillar2": {"note": "a,}"}, "pillar3": {}, "pillar4": {}}], which has
    exactly the three keys: the strict parse of the text has the note
    ["a,}"], the pillars returned have the note ["a}"].  The repair of
    trailing commas runs on the whole text before the strict parse and does
    not tell a comma inside a string from one outside. *)
Theorem strict_json_sample_is_altered :
  json_loads strict_json_sample
  = inl (PDict [("pillar2", PDict [("note", PStr "a,}")]);
                ("pillar3", PDict []); ("pillar4", PDict [])]) /\
  _call_openrouter_for_pillars json_loads json_repair_loads
    (ContentOther strict_json_sample)
  = inl [("pillar2", PDict [("note", PStr "a}")]);
         ("pillar3", PDict []); ("pillar4", PDict [])].
Proof. split; reflexivity. Qed.

(** X26.  A text that does not open with a fence and that the repair of
    trailing commas leaves as it is goes to [json.loads] as it is, stripped;
    what that returns is what the call checks and returns, and what that
    raises besides a [JSONDecodeError] is what the call raises.  The repair
    library is consulted after a [JSONDecodeError] only. *)
Lemma recovery_keeps_untouched_strict_json (str_content : string) :
  startswith (strip str_content) "```" = false ->
  fix_trailing_commas (strip str_content) = strip str_content ->
  sanitize str_content = strip str_content /\
  (forall d,
      loads (strip str_content) = inl (PDict d) ->
      (forall key, In key required_keys -> dict_has key d = true) ->
      _call_openrouter_for_pillars loads json_repair_loads (ContentOther str_content)
      = inl d) /\
  (forall pillars,
      loads (strip str_content) = inl pillars ->
      _call_openrouter_for_pillars loads json_repair_loads (ContentOther str_content)
      = check_pillars pillars) /\
  (forall exc,
      loads (strip str_content) = inr (OtherError exc) ->
      _call_openrouter_for_pillars loads json_repair_loads (ContentOther str_content)
      = inr exc).
Proof.
  intros F U.
  assert (S : sanitize str_content = strip str_content).
  { unfold sanitize, strip_code_fences. now rewrite F, U. }
  split; [exact S|].
  unfold _call_openrouter_for_pillars, recovered, parse_or_repair. rewrite S.
  split; [|split].
  - intros d J K. rewrite J.
    unfold check_pillars. apply check_keys_none in K. unfold required_keys in K.
    now rewrite K.
  - now intros pillars ->.
  - now intros exc ->.
Qed.

Lemma strip_code_fences_fenced (info inner tail : string) :
  find info "010"%char = None ->
  tail = "" \/ tail = (nl ++ "```")%string ->
  strip_code_fences (strip ("```" ++ info ++ nl ++ ("{" ++ inner ++ "}") ++ tail))
  = ("{" ++ inner ++ "}")%string.
Proof.
  intros Hinfo Htail.
  set (body := ("{" ++ inner ++ "}")%string).
  assert (Hbody : body = (String "{" inner ++ String "}" "")%string) by reflexivity.
  assert (Hfind : forall rest,
             find (("```" ++ info) ++ String "010" rest) "010"
             = Some (String.length ("```" ++ info)%string)).
  { intros rest. apply find_append. simpl. now rewrite Hinfo. }
  assert (Hstrip : strip ("```" ++ info ++ nl ++ body ++ tail)
                   = ("```" ++ info ++ nl ++ body ++ tail)%string).
  { destruct Htail as [-> | ->].
    - rewrite append_nil_r, Hbody.
      replace ("```" ++ info ++ nl ++ String "{" inner ++ String "}" "")%string
        with (String "`" ("``" ++ info ++ nl ++ String "{" inner) ++ String "}" "")%string
        by same_text.
      now apply strip_fixed.
    - replace ("```" ++ info ++ nl ++ body ++ nl ++ "```")%string
        with (String "`" ("``" ++ info ++ nl ++ body ++ nl ++ "``") ++ String "`" "")%string
        by same_text.
      now apply strip_fixed. }
  rewrite Hstrip. unfold strip_code_fences.
  replace (startswith ("```" ++ info ++ nl ++ body ++ tail) "```") with true
    by (symmetry; apply prefix_append).
  replace ("```" ++ info ++ nl ++ body ++ tail)%string
    with (("```" ++ info) ++ String "010" (body ++ tail))%string
    by same_text.
  rewrite Hfind.
  replace (String.length ("```" ++ info) + 1)
    with (String.length (("```" ++ info) ++ nl)) by (rewrite length_append; reflexivity).
  replace ((("```" ++ info) ++ String "010" (body ++ tail)))%string
    with ((("```" ++ info) ++ nl) ++ body ++ tail)%string
    by same_text.
  rewrite slice_from_append.
  destruct Htail as [-> | ->].
  - rewrite append_nil_r, Hbody.
    assert (E : endswith (String "{" inner ++ String "}" "") "```" = false)
      by (apply (endswith_other_last (String "{" inner) "``" "}" "`"); discriminate).
    now rewrite E.
  - replace (body ++ nl ++ "```")%string with ((body ++ nl) ++ "```")%string
      by same_text.
    rewrite endswith_append.
    assert (D : drop_last 3 ((body ++ nl) ++ "```") = (body ++ nl)%string)
      by apply (drop_last_append (body ++ nl) "```").
    rewrite D.
    unfold strip. unfold nl. rewrite rstrip_snoc.
    change (isspace "010") with true. cbv iota.
    rewrite Hbody, rstrip_snoc. reflexivity.
Qed.

(** C7.  A payload made of a fence line (three backquotes and anything up
    to the line break), an object text between braces, and possibly a
    closing fence line: the fences are stripped, and what is parsed is the
    object text with its trailing commas dropped.  When that is strict JSON
    for an object with the three keys, the call returns the object.  In
    particular, when the object text is strict JSON for such an object
    (which the repair would leave alone) but for one comma put in before a
    closing brace or bracket, the comma is removed and the call returns the
    object. *)
Theorem fence_and_trailing_comma_recovery
  (info inner tail : string)
  (Hinfo : find info "010"%char = None)
  (Htail : tail = "" \/ tail = (nl ++ "```")%string) :
  let body := ("{" ++ inner ++ "}")%string in
  let payload := ("```" ++ info ++ nl ++ body ++ tail)%string in
  sanitize payload = fix_trailing_commas body /\
  (forall d,
      loads (fix_trailing_commas body) = inl (PDict d) ->
      (forall key, In key required_keys -> dict_has key d = true) ->
      _call_openrouter_for_pillars loads json_repair_loads (ContentOther payload) = inl d) /\
  (forall pre ws c post d,
      body = (pre ++ String "," (ws ++ String c post))%string ->
      all_space ws = true ->
      is_closer c = true ->
      fix_trailing_commas (pre ++ ws ++ String c post) = (pre ++ ws ++ String c post)%string ->
      loads (pre ++ ws ++ String c post) = inl (PDict d) ->
      (forall key, In key required_keys -> dict_has key d = true) ->
      sanitize payload = (pre ++ ws ++ String c post)%string /\
      _call_openrouter_for_pillars loads json_repair_loads (ContentOther payload) = inl d).
Proof.
  intros body payload.
  assert (S : sanitize payload = fix_trailing_commas body).
  { unfold sanitize, payload, body. now rewrite strip_code_fences_fenced. }
  assert (R : forall d,
             loads (fix_trailing_commas body) = inl (PDict d) ->
             (forall key, In key required_keys -> dict_has key d = true) ->
             _call_openrouter_for_pillars loads json_repair_loads (ContentOther payload) = inl d).
  { intros d Hjson Hkeys.
    unfold _call_openrouter_for_pillars, recovered, parse_or_repair.
    rewrite S, Hjson. unfold check_pillars.
    apply check_keys_none in Hkeys. unfold required_keys in Hkeys.
    now rewrite Hkeys. }
  split; [exact S|]. split; [exact R|].
  intros pre ws c post d Hbody Hws Hc Hfix Hjson Hkeys.
  assert (F : fix_trailing_commas body = (pre ++ ws ++ String c post)%string).
  { rewrite Hbody. now apply fix_trailing_commas_inserted. }
  split; [now rewrite S|].
  apply R; [now rewrite F | exact Hkeys].
Qed.

End RecovererFacts.

Lemma exhaustion_reports_strict_and_whole_text_repair_errors_witness :
  _call_openrouter_for_pillars json_loads failing_repair (ContentOther "no json here")
  = inr ("Failed to parse/repair JSON from OpenRouter response. "
         ++ "Original error: Expecting value: line 1 column 1 (char 0)"
         ++ "; repair error: repair of the whole text failed")%string.
Proof.
  apply (exhaustion_reports_strict_and_whole_text_repair_errors json_loads failing_repair
           "no json here" "Expecting value: line 1 column 1 (char 0)"
           "repair of the whole text failed").
  - reflexivity.
  - reflexivity.
  - intros group0 H. discriminate H.
Defined.

(** C8, as stated, fails.  On [deep_sample] the strict parse fails at the
    stray character, the repair of the whole text fails, the brace-delimited
    part is found and its repair fails with an error of its own, that of
    the decoder: that last error is not in the text of the error raised,
    which ends with the error of the repair of the whole text. *)
Lemma exhaustion_last_error_counterexample :
  json_loads (sanitize deep_sample)
  = inr (JSONDecodeError "Expecting value: line 1 column 1 (char 0)") /\
  (exists repair_err,
      deep_repair (sanitize deep_sample) = inr repair_err /\
      repair_err <> recursion_error_in_decoder) /\
  search_object (sanitize deep_sample) = Some (slice_from 1 deep_sample) /\
  deep_repair (slice_from 1 deep_sample) = inr recursion_error_in_decoder /\
  last_repair_error deep_repair (sanitize deep_sample) = Some recursion_error_in_decoder /\
  exists msg,
    _call_openrouter_for_pillars json_loads deep_repair (ContentOther deep_sample) = inr msg /\
    occurs_in "Expecting value: line 1 column 1 (char 0)" msg /\
    contains recursion_error_in_decoder msg = false /\
    ~ occurs_in recursion_error_in_decoder msg.
Proof.
  split; [vm_compute; reflexivity|].
  split; [exists recursion_error; split; [vm_compute; reflexivity | discriminate]|].
  split; [vm_compute; reflexivity|].
  split; [vm_compute; reflexivity|].
  split; [vm_compute; reflexivity|].
  eexists. split; [vm_compute; reflexivity|].
  split; [apply contains_occurs; vm_compute; reflexivity|].
  split; [vm_compute; reflexivity|].
  intros O. apply contains_occurs in O. vm_compute in O. discriminate O.
Qed.

Lemma fence_and_trailing_comma_recovery_witness :
  (exists text, json_loads (open_object_sample ++ ",}") = inr (JSONDecodeError text)) /\
  _call_openrouter_for_pillars json_loads failing_repair
    (ContentOther ("```" ++ "json" ++ nl ++ (open_object_sample ++ ",}") ++ nl ++ "```"))
  = inl [("pillar2", PDict []); ("pillar3", PDict []); ("pillar4", PDict [])].
Proof.
  split; [eexists; vm_compute; reflexivity|].
  assert (Hinfo : find "json" "010"%char = None) by reflexivity.
  assert (Htail : (nl ++ "```")%string = "" \/ (nl ++ "```")%string = (nl ++ "```")%string)
    by (right; reflexivity).
  pose proof (fence_and_trailing_comma_recovery json_loads failing_repair "json"
                (slice_from 1 open_object_sample ++ ",") (nl ++ "```") Hinfo Htail) as T.
  cbv zeta in T. destruct T as (_ & _ & T).
  apply (T open_object_sample "" "}"%char "").
  - vm_compute; reflexivity.
  - reflexivity.
  - reflexivity.
  - vm_compute; reflexivity.
  - vm_compute; reflexivity.
  - intros key [<- | [<- | [<- | []]]]; vm_compute; reflexivity.
Defined.

(** C7, as stated, fails.  A fenced object text with the three keys and a
    trailing comma is recovered when its first value is an integer of four
    digits.  With 4301 digits the text is as well formed, but the decoder
    refuses the integer with a [ValueError]; that is no [JSONDecodeError],
    no repair is tried, and the [ValueError] leaves the call, whatever the
    repair library would have answered. *)
Lemma fenced_long_integer_is_not_recovered :
  sanitize (fenced (long_integer_sample 4301))
  = ("{" ++ quoted "pillar2" ++ ": " ++ copies 4301 "1" ++ ", "
     ++ quoted "pillar3" ++ ": {}, " ++ quoted "pillar4" ++ ": {}}")%string /\
  _call_openrouter_for_pillars json_loads failing_repair
    (ContentOther (fenced (long_integer_sample 4)))
  = inl [("pillar2", PInt 1111); ("pillar3", PDict []); ("pillar4", PDict [])] /\
  json_loads (sanitize (fenced (long_integer_sample 4301)))
  = inr (OtherError int_limit_error) /\
  forall json_repair_loads,
    _call_openrouter_for_pillars json_loads json_repair_loads
      (ContentOther (fenced (long_integer_sample 4301)))
    = inr int_limit_error.
Proof.
  assert (J : json_loads (sanitize (fenced (long_integer_sample 4301)))
              = inr (OtherError int_limit_error)) by (vm_compute; reflexivity).
  split; [vm_compute; reflexivity|].
  split; [vm_compute; reflexivity|].
  split; [exact J|].
  intros json_repair_loads.
  unfold _call_openrouter_for_pillars, recovered, parse_or_repair.
  now rewrite J.
Qed.

(** The same with two trailing commas, one before a bracket and one before
    the closing brace. *)
Example two_trailing_commas_are_repaired :
  _call_openrouter_for_pillars json_loads failing_repair
    (ContentOther ("```" ++ "json" ++ nl ++ ("{" ++ trailing_comma_sample ++ "}")
                   ++ (nl ++ "```")))
  = inl [("pillar2", PDict [("a", PList [PInt 1; PInt 2])]);
         ("pillar3", PDict []); ("pillar4", PDict [])].
Proof. vm_compute. reflexivity. Qed.

(* ================================================================== *)
(** * Validation of list items *)
(* ================================================================== *)

Lemma validate_str_cases (s : bool) (x : pyval) :
  (exists y, x = PStr y /\ validate_str s x = Valid (PStr (stripped s y))) \/
  ((forall y, x <> PStr y) /\
   validate_str s x = Invalid [mkError "string_type" [] Standard x]).
Proof.
  destruct x; try (right; split; [intros y; discriminate | reflexivity]).
  left. eexists; split; reflexivity.
Qed.

Lemma validate_items_cons (s : bool) (i : nat) (x : pyval) (r : list pyval) :
  validate_items s i (x :: r) =
  match x with
  | PStr y => (fst (validate_items s (S i) r),
               stripped s y :: snd (validate_items s (S i) r))
  | _ => (mkError "string_type" [Idx i] Standard x :: fst (validate_items s (S i) r),
          snd (validate_items s (S i) r))
  end.
Proof.
  simpl. destruct (validate_items s (S i) r) as [es ss].
  destruct x; reflexivity.
Qed.

Lemma items_errors_in (s : bool) (items : list pyval) :
  forall i0 i x,
    nth_error items i = Some x -> (forall y, x <> PStr y) ->
    In (mkError "string_type" [Idx (i0 + i)] Standard x)
       (fst (validate_items s i0 items)).
Proof.
  induction items as [|a items IH]; intros i0 i x Hn Hx.
  - destruct i; discriminate.
  - rewrite validate_items_cons. destruct i as [|i]; simpl in Hn.
    + injection Hn as ->. rewrite Nat.add_0_r.
      destruct x; try (left; reflexivity). now destruct (Hx s0).
    + specialize (IH (S i0) i x Hn Hx).
      replace (i0 + S i) with (S i0 + i) by lia.
      destruct a; simpl; auto.
Qed.

Lemma items_errors_inv (s : bool) (items : list pyval) :
  forall i0 e,
    In e (fst (validate_items s i0 items)) ->
    exists i x, nth_error items i = Some x /\ (forall y, x <> PStr y) /\
                e = mkError "string_type" [Idx (i0 + i)] Standard x.
Proof.
  induction items as [|a items IH]; intros i0 e H.
  - destruct H.
  - rewrite validate_items_cons in H.
    assert (R : In e (fst (validate_items s (S i0) items)) ->
                exists i x, nth_error (a :: items) i = Some x /\
                            (forall y, x <> PStr y) /\
                            e = mkError "string_type" [Idx (i0 + i)] Standard x).
    { intros H'. destruct (IH _ _ H') as (i & x & Hn & Hx & ->).
      exists (S i), x. repeat split; auto. f_equal. f_equal. f_equal. lia. }
    destruct a; simpl in H; try (destruct H as [<- | H]; [|now apply R]);
      try now apply R.
    all: eexists 0, _; repeat split; try reflexivity; try (intros y; discriminate);
      now rewrite Nat.add_0_r.
Qed.

Lemma items_of_strings (s : bool) (xs : list string) (i0 : nat) :
  validate_items s i0 (map PStr xs) = ([], map (stripped s) xs).
Proof.
  revert i0; induction xs as [|x xs IH]; intros i0; [reflexivity|].
  cbn [map]. rewrite validate_items_cons, IH. reflexivity.
Qed.

Lemma items_all_strings (s : bool) (items : list pyval) :
  forall i0, fst (validate_items s i0 items) = [] ->
             exists xs, items = map PStr xs.
Proof.
  induction items as [|a items IH]; intros i0 H.
  - exists []; reflexivity.
  - rewrite validate_items_cons in H. destruct a; try discriminate.
    simpl in H. destruct (IH _ H) as [xs ->]. exists (s0 :: xs); reflexivity.
Qed.

(* ================================================================== *)
(** * Reported errors and violations *)
(* ================================================================== *)

Lemma ftype_nested_ind (P : ftype -> Prop) :
  (forall n check, P (FStr n check)) ->
  P FOptStr ->
  (forall n check, P (FListStr n check)) ->
  (forall choices, P (FLiteral choices)) ->
  (forall strip_here fields after,
      Forall (fun f => P (snd f)) fields -> P (FModel strip_here fields after)) ->
  forall t, P t.
Proof.
  intros HS HO HL HC HM. fix IH 1.
  intros [n c| |n c|cs|s fs a];
    [apply HS | apply HO | apply HL | apply HC | ].
  apply HM. induction fs as [|[name ty] fs IHfs]; constructor.
  - apply IH.
  - exact IHfs.
Qed.

Lemma walk_errors (vf : ftype -> pyval -> outcome) (d : pydict)
  (fs : list (string * ftype)) :
  fst (walk vf d fs) = flat_map (field_errors vf d) fs.
Proof.
  induction fs as [|[name ty] fs IH]; [reflexivity|].
  cbn [walk flat_map]. destruct (walk vf d fs) as [es vals].
  cbn [fst] in IH. subst es.
  unfold field_errors. cbn [fst snd].
  destruct (dict_get name d) as [x|].
  - destruct (vf ty x); reflexivity.
  - destruct (default_of ty); reflexivity.
Qed.

Lemma validate_model (s strip_here : bool) (fields : list (string * ftype))
  (after : pydict -> option fstring) (d : pydict) :
  validate s (FModel strip_here fields after) (PDict d) =
  match flat_map (field_errors (validate strip_here) d) fields with
  | [] =>
      match after (snd (walk (validate strip_here) d fields)) with
      | Some text => Invalid [mkError "value_error" [] (ValueError text) (PDict d)]
      | None => Valid (PDict (snd (walk (validate strip_here) d fields)))
      end
  | es => Invalid es
  end.
Proof.
  rewrite <- walk_errors. simpl.
  destruct (walk (validate strip_here) d fields) as [[|e es] self]; reflexivity.
Qed.

Lemma validate_invalid_nonempty (s : bool) (t : ftype) (v : pyval) (es : list ErrorDetails) :
  validate s t v = Invalid es -> es <> [].
Proof.
  destruct t; simpl.
  - destruct v; simpl; try (intros [= <-]; discriminate).
    destruct (_ <? _)%nat; [intros [= <-]; discriminate|].
    destruct (check _); [intros [= <-]|]; discriminate.
  - destruct v; simpl; try (intros [= <-]; discriminate); discriminate.
  - destruct v; try (intros [= <-]; discriminate).
    destruct (validate_items s 0 items) as [[|e es'] ss].
    + destruct (_ <? _)%nat; [intros [= <-]; discriminate|].
      destruct (check _); [intros [= <-]|]; discriminate.
    + intros [= <-]; discriminate.
  - destruct v; try (intros [= <-]; discriminate).
    destruct (mem _ _); [discriminate | intros [= <-]; discriminate].
  - destruct v; try (intros [= <-]; discriminate).
    destruct (walk _ _ _) as [[|e es'] self].
    + destruct (after self); [intros [= <-]|]; discriminate.
    + intros [= <-]; discriminate.
Qed.

Lemma mem_In (x : string) (xs : list string) : mem x xs = true <-> In x xs.
Proof.
  unfold mem. rewrite existsb_exists. split.
  - intros (y & Hin & E). apply String.eqb_eq in E. now subst.
  - intros H. exists x. split; [exact H | apply String.eqb_refl].
Qed.

Lemma violation_reported (s : bool) (t : ftype) (v : pyval) (e : ErrorDetails) :
  violates s t v e -> In e (errors_of (validate s t v)).
Proof.
  induction 1.
  - destruct v; simpl; auto. now destruct (H s0).
  - destruct v; simpl; try (now left); [now destruct H | now destruct (H0 s0)].
  - simpl. fold (stripped s x). apply Nat.ltb_lt in H. rewrite H. now left.
  - simpl. fold (stripped s x).
    assert (L : (String.length (stripped s x) <? n)%nat = false) by (apply Nat.ltb_ge; lia).
    rewrite L, H0. now left.
  - destruct v; simpl; auto. now destruct (H items).
  - simpl. pose proof (items_errors_in s items 0 i x H H0) as I. simpl in I.
    destruct (validate_items s 0 items) as [[|e0 es] ss]; [destruct I | exact I].
  - simpl. rewrite items_of_strings, length_map.
    apply Nat.ltb_lt in H. rewrite H. now left.
  - simpl. rewrite items_of_strings, length_map.
    assert (L : (List.length xs <? n)%nat = false) by (apply Nat.ltb_ge; lia).
    rewrite L, H0. now left.
  - destruct v; simpl; auto.
    destruct (mem s0 choices) eqn:M; [|now left].
    apply mem_In in M. now destruct (H s0 eq_refl).
  - destruct v; simpl; auto. now destruct (H entries).
  - rewrite validate_model.
    assert (I : In (mkError "missing" [Key name] Standard (PDict d))
                  (flat_map (field_errors (validate strip_here) d) fields)).
    { apply in_flat_map. exists (name, ty). split; [assumption|].
      unfold field_errors. simpl. rewrite H0, H1. now left. }
    destruct (flat_map _ fields); [destruct I | exact I].
  - rewrite validate_model.
    assert (I : In (with_outer_location (Key name) e)
                  (flat_map (field_errors (validate strip_here) d) fields)).
    { apply in_flat_map. exists (name, ty). split; [assumption|].
      unfold field_errors. simpl. rewrite H0. now apply in_map. }
    destruct (flat_map _ fields); [destruct I | exact I].
  - simpl. rewrite H, H0. now left.
Qed.

Lemma reported_violation (t : ftype) :
  forall s v e, In e (errors_of (validate s t v)) -> violates s t v e.
Proof.
  induction t as [n check| |n check|choices|strip_here fields after IH]
    using ftype_nested_ind; intros s v e H.
  - destruct v; simpl in H; try (destruct H as [<-|[]]; constructor; intros; discriminate).
    fold (stripped s s0) in H.
    destruct (_ <? _)%nat eqn:L.
    + destruct H as [<-|[]]. constructor. now apply Nat.ltb_lt.
    + destruct (check (stripped s s0)) eqn:C; [|destruct H].
      destruct H as [<-|[]]. constructor; [apply Nat.ltb_ge in L; lia | exact C].
  - destruct v; simpl in H; try destruct H as [<-|[]]; try destruct H;
      constructor; intros; discriminate.
  - destruct v; simpl in H; try (destruct H as [<-|[]]; constructor; intros; discriminate).
    destruct (validate_items s 0 items) as [[|e0 es] ss] eqn:V.
    + destruct (items_all_strings s items 0) as [xs ->]; [now rewrite V|].
      rewrite items_of_strings in V. injection V as <-.
      rewrite length_map in H.
      destruct (_ <? _)%nat eqn:L.
      * destruct H as [<-|[]]. constructor. now apply Nat.ltb_lt.
      * destruct (check (map (stripped s) xs)) eqn:C; [|destruct H].
        destruct H as [<-|[]]. constructor; [apply Nat.ltb_ge in L; lia | exact C].
    + simpl in H. assert (I : In e (fst (validate_items s 0 items))) by now rewrite V.
      apply items_errors_inv in I as (i & x & Hn & Hx & ->). simpl.
      now constructor.
  - destruct v; simpl in H; try (destruct H as [<-|[]]; constructor; intros; discriminate).
    destruct (mem s0 choices) eqn:M; [destruct H|].
    destruct H as [<-|[]]. constructor. intros x [= <-] Hin.
    apply mem_In in Hin. congruence.
  - destruct v; try (simpl in H; destruct H as [<-|[]]; constructor; intros; discriminate).
    rewrite validate_model in H.
    destruct (flat_map _ fields) as [|e0 es] eqn:F.
    + destruct (after _) eqn:A; [|destruct H].
      destruct H as [<-|[]].
      apply model_validator_raises with (self := snd (walk (validate strip_here) entries fields));
        [|exact A].
      rewrite <- walk_errors in F.
      destruct (walk (validate strip_here) entries fields); simpl in *; now subst.
    + assert (I : In e (flat_map (field_errors (validate strip_here) entries) fields))
        by (rewrite F; exact H).
      apply in_flat_map in I as ([name ty] & Hin & He).
      unfold field_errors in He. simpl in He.
      destruct (dict_get name entries) as [x|] eqn:G.
      * apply in_map_iff in He as (e' & <- & He').
        rewrite Forall_forall in IH.
        apply field_violates with (ty := ty) (x := x); auto.
        apply (IH (name, ty) Hin). exact He'.
      * destruct (default_of ty) eqn:D; [destruct He|].
        destruct He as [<-|[]]. now apply field_missing with (ty := ty).
Qed.

(* ================================================================== *)
(** * The order of the errors *)
(* ================================================================== *)







Section FieldsSorted.

Variables (strip_here : bool) (fields : list (string * ftype))
          (after : pydict -> option fstring) (d : pydict).

Let T := FModel strip_here fields after.


End FieldsSorted.


(* ================================================================== *)
(** * The validation report *)
(* ================================================================== *)

Lemma map_report_error (es : list ErrorDetails) : map report_error es = es.
Proof.
  induction es as [|[ty l m i] es IH]; simpl; [reflexivity|].
  now rewrite IH.
Qed.

Lemma report_errors (fromisoformat : string -> bool) (self : NarrativeValidator)
  (data : pydict) :
  errors (report_of (validate_from_dict fromisoformat self data))
  = errors_of (validate false (NarrativeGenesisInput fromisoformat) (PDict data)) /\
  is_valid (report_of (validate_from_dict fromisoformat self data))
  = match validate false (NarrativeGenesisInput fromisoformat) (PDict data) with
    | Valid _ => true
    | Invalid _ => false
    end.
Proof.
  unfold report_of, validate_from_dict.
  destruct (validate false _ _); simpl; [auto|].
  now rewrite map_report_error.
Qed.

(** The errors of a report are the violations of the document, and the
    report is invalid exactly when there is one. *)
Lemma report_collects_violations (fromisoformat : string -> bool)
  (self : NarrativeValidator) (data : pydict) :
  (forall e, violates false (NarrativeGenesisInput fromisoformat) (PDict data) e <->
             In e (errors (report_of (validate_from_dict fromisoformat self data)))) /\
  (is_valid (report_of (validate_from_dict fromisoformat self data)) = false <->
   exists e, violates false (NarrativeGenesisInput fromisoformat) (PDict data) e).
Proof.
  destruct (report_errors fromisoformat self data) as [E V].
  split.
  - intros e. rewrite E. split; [apply violation_reported | apply reported_violation].
  - rewrite V. destruct (validate false _ _) as [value|es] eqn:R.
    + split; [discriminate|]. intros [e He].
      apply violation_reported in He. rewrite R in He. destruct He.
    + split; [|reflexivity]. intros _.
      destruct es as [|e es]; [now apply validate_invalid_nonempty in R|].
      exists e. apply reported_violation. rewrite R. now left.
Qed.


(** C4.  The errors of the report are exactly the violations of the
    document: every violation, wherever it sits and whatever else is wrong,
    has its error in the report, with its type, its location, its message
    and its input; the report is invalid as soon as there is one.  A
    document that lacks [product_name], has the autonomy level "Extreme"
    and forbids the tone "RAW" while it allows "Raw" is reported with these
    three errors. *)
Theorem aggregate_error_collection (fromisoformat : string -> bool)
  (self : NarrativeValidator) (data : pydict) :
  (forall e, violates false (NarrativeGenesisInput fromisoformat) (PDict data) e <->
             In e (errors (report_of (validate_from_dict fromisoformat self data)))) /\
  (is_valid (report_of (validate_from_dict fromisoformat self data)) = false <->
   exists e, violates false (NarrativeGenesisInput fromisoformat) (PDict data) e) /\
  (let report :=
     report_of (validate_from_dict fromisoformat_sample self
                  (sample_document "Genesis" "Extreme" ["RAW"] [])) in
   is_valid report = false /\
   map (fun e => (err_type e, err_loc e, err_msg e)) (errors report)
   = [ ("missing", [Key "brand_identity_core"; Key "product_name"], Standard);
       ("value_error", [Key "brand_identity_core"; Key "tone_guardrails"],
        ValueError [Lit "Tone guardrails overlap detected: "; ReprSet ["raw"];
                    Lit ". A tone cannot be both allowed and forbidden."]);
       ("literal_error",
        [Key "autonomous_character_seed"; Key "evolution_parameters";
         Key "autonomy_level"], Standard) ]).
Proof.
  destruct (report_collects_violations fromisoformat self data) as [Hiff Hvalid].
  split; [exact Hiff|]. split; [exact Hvalid|].
  split; reflexivity.
Qed.


(* ================================================================== *)
(** * Tone guardrails *)
(* ================================================================== *)

Lemma violates_model_inv (s strip_here : bool) (fields : list (string * ftype))
  (after : pydict -> option fstring) (d : pydict) (e : ErrorDetails) :
  violates s (FModel strip_here fields after) (PDict d) e ->
  (exists name ty, In (name, ty) fields /\ dict_get name d = None /\
                   e = mkError "missing" [Key name] Standard (PDict d)) \/
  (exists name ty x e', In (name, ty) fields /\ dict_get name d = Some x /\
                        violates strip_here ty x e' /\
                        e = with_outer_location (Key name) e') \/
  (exists self text, walk (validate strip_here) d fields = ([], self) /\
                     after self = Some text /\
                     e = mkError "value_error" [] (ValueError text) (PDict d)).
Proof.
  intros H. inversion H; subst.
  - match goal with Hn : forall d0, PDict d <> PDict d0 |- _ => now destruct (Hn d) end.
  - left. eauto.
  - right. left. eauto 8.
  - right. right. eauto.
Qed.

(** A violation located under the field [name] of a model whose input has
    an entry for [name] is a violation of that entry. *)
Lemma violates_under (s strip_here : bool) (fields : list (string * ftype))
  (after : pydict -> option fstring) (d : pydict) (e : ErrorDetails)
  (name : string) (p : location) (x : pyval) :
  violates s (FModel strip_here fields after) (PDict d) e ->
  err_loc e = Key name :: p ->
  dict_get name d = Some x ->
  exists ty e', In (name, ty) fields /\ violates strip_here ty x e' /\ err_loc e' = p.
Proof.
  intros H L G. apply violates_model_inv in H
    as [(n & ty & Hin & Hn & ->) | [(n & ty & y & e' & Hin & Hy & Hv & ->) | (self & text & _ & _ & ->)]];
    simpl in L.
  - injection L as -> _. congruence.
  - injection L as -> <-. exists ty, e'. replace x with y by congruence. auto.
  - discriminate.
Qed.

Lemma make_set_In (x : string) (l : list string) : In x (make_set l) <-> In x l.
Proof.
  induction l as [|a l IH]; simpl; [tauto|].
  destruct (mem a l) eqn:M.
  - rewrite IH. split; [auto|]. intros [<-|H]; [now apply mem_In | exact H].
  - simpl. rewrite IH. tauto.
Qed.

Lemma overlap_In (allowed forbidden : list string) (x : string) :
  In x (set_inter (make_set (map lower allowed)) (make_set (map lower forbidden))) <->
  exists a f, In a allowed /\ In f forbidden /\ lower a = x /\ lower f = x.
Proof.
  unfold set_inter. rewrite filter_In, mem_In, !make_set_In, !in_map_iff. split.
  - intros [(a & <- & Ha) (f & Hf & Hfin)]. exists a, f. auto.
  - intros (a & f & Ha & Hf & <- & E). split; eauto.
Qed.

Lemma map_as_str (l : list string) : map as_str (map PStr l) = l.
Proof. induction l; simpl; congruence. Qed.

Lemma map_stripped_false (l : list string) : map (stripped false) l = l.
Proof. induction l; simpl; congruence. Qed.

Lemma tone_lists_valid (l : list string) :
  l <> [] ->
  validate false (FListStr 1 no_check) (PList (map PStr l)) = Valid (PList (map PStr l)).
Proof.
  intros H. simpl. rewrite items_of_strings, length_map, map_stripped_false.
  destruct l; [contradiction | reflexivity].
Qed.

Lemma tone_walk (tones : pydict) (allowed forbidden : list string) (self : pydict) :
  dict_get "allowed" tones = Some (PList (map PStr allowed)) ->
  dict_get "forbidden" tones = Some (PList (map PStr forbidden)) ->
  walk (validate false) tones
    [("allowed", FListStr 1 no_check); ("forbidden", FListStr 1 no_check)] = ([], self) ->
  check_no_overlap self = check_no_overlap_lists allowed forbidden.
Proof.
  intros Ha Hf. cbn [walk]. rewrite Ha, Hf.
  destruct (validate false (FListStr 1 no_check) (PList (map PStr forbidden))) as [vf|ef] eqn:Vf;
    destruct (validate false (FListStr 1 no_check) (PList (map PStr allowed))) as [va|ea] eqn:Va.
  - intros [= <-].
    assert (va = PList (map PStr allowed) /\ vf = PList (map PStr forbidden)) as [-> ->].
    { simpl in Va, Vf. rewrite items_of_strings, length_map, map_stripped_false in Va, Vf.
      destruct (_ <? _)%nat in Va; [discriminate|].
      destruct (_ <? _)%nat in Vf; [discriminate|].
      unfold no_check in *. split; congruence. }
    unfold check_no_overlap, attr_list, attr. simpl. now rewrite !map_as_str.
  - intros [= E _]. apply validate_invalid_nonempty in Va.
    destruct ea; [contradiction | discriminate].
  - intros [= E _]. apply validate_invalid_nonempty in Vf.
    destruct ef; [contradiction | discriminate].
  - intros [= E _]. apply validate_invalid_nonempty in Va.
    destruct ea; [contradiction | discriminate].
Qed.

Lemma tone_walk_valid (tones : pydict) (allowed forbidden : list string) :
  dict_get "allowed" tones = Some (PList (map PStr allowed)) ->
  dict_get "forbidden" tones = Some (PList (map PStr forbidden)) ->
  allowed <> [] -> forbidden <> [] ->
  walk (validate false) tones
    [("allowed", FListStr 1 no_check); ("forbidden", FListStr 1 no_check)]
  = ([], [("allowed", PList (map PStr allowed)); ("forbidden", PList (map PStr forbidden))]).
Proof.
  intros Ha Hf Na Nf. cbn [walk]. rewrite Ha, Hf.
  now rewrite !tone_lists_valid.
Qed.

(** C2.  For a document whose tone guardrails hold the string lists
    [allowed] and [forbidden]: the overlap the validator computes is the set
    of the lower-cased strings the two lists share; when there is such a
    string, the report is invalid and holds, at the location of the tone
    guardrails, a [value_error] whose message shows the overlap; when there
    is none, [check_no_overlap] raises nothing and the report has no error
    at that location. *)
Theorem tone_overlap_invariant (fromisoformat : string -> bool)
  (self : NarrativeValidator) (data brand tones : pydict)
  (allowed forbidden : list string)
  (Hbrand : dict_get "brand_identity_core" data = Some (PDict brand))
  (Htones : dict_get "tone_guardrails" brand = Some (PDict tones))
  (Hallowed : dict_get "allowed" tones = Some (PList (map PStr allowed)))
  (Hforbidden : dict_get "forbidden" tones = Some (PList (map PStr forbidden))) :
  let overlap := set_inter (make_set (map lower allowed)) (make_set (map lower forbidden)) in
  let place := [Key "brand_identity_core"; Key "tone_guardrails"] in
  let report := report_of (validate_from_dict fromisoformat self data) in
  (forall x, In x overlap <->
             exists a f, In a allowed /\ In f forbidden /\ lower a = x /\ lower f = x) /\
  ((exists a f, In a allowed /\ In f forbidden /\ lower a = lower f) ->
   is_valid report = false /\
   In (mkError "value_error" place
         (ValueError [Lit "Tone guardrails overlap detected: "; ReprSet overlap;
                      Lit ". A tone cannot be both allowed and forbidden."])
         (PDict tones))
      (errors report)) /\
  ((~ exists a f, In a allowed /\ In f forbidden /\ lower a = lower f) ->
   check_no_overlap_lists allowed forbidden = None /\
   forall e, In e (errors report) -> err_loc e <> place).
Proof.
  intros overlap place report.
  destruct (report_collects_violations fromisoformat self data) as (Hiff & Hvalid).
  fold report in Hiff, Hvalid.
  split; [apply overlap_In|]. split.
  - intros (a & f & Ha & Hf & E).
    assert (Hin : In (lower a) overlap).
    { apply overlap_In. exists a, f. auto. }
    assert (V : violates false (NarrativeGenesisInput fromisoformat) (PDict data)
                  (mkError "value_error" place
                     (ValueError [Lit "Tone guardrails overlap detected: "; ReprSet overlap;
                                  Lit ". A tone cannot be both allowed and forbidden."])
                     (PDict tones))).
    { apply (field_violates false true _ _ data "brand_identity_core" BrandIdentityCore
               (PDict brand)
               (mkError "value_error" [Key "tone_guardrails"] _ (PDict tones)));
        [simpl; tauto | exact Hbrand |].
      apply (field_violates true false _ _ brand "tone_guardrails" ToneGuardrails
               (PDict tones)
               (mkError "value_error" [] _ (PDict tones)));
        [simpl; tauto | exact Htones |].
      eapply model_validator_raises.
      - apply (tone_walk_valid tones allowed forbidden Hallowed Hforbidden).
        + intros ->. destruct Ha.
        + intros ->. destruct Hf.
      - unfold check_no_overlap, attr_list, attr. simpl. rewrite !map_as_str.
        unfold check_no_overlap_lists. fold overlap.
        destruct overlap; [destruct Hin | reflexivity]. }
    split; [apply Hvalid; eauto | now apply Hiff].
  - intros N.
    assert (O : overlap = []).
    { destruct overlap as [|x l] eqn:E; [reflexivity|]. exfalso. apply N.
      assert (I : In x overlap) by (rewrite E; now left).
      apply overlap_In in I as (a & f & Ha & Hf & <- & E'). eauto. }
    assert (C : check_no_overlap_lists allowed forbidden = None).
    { unfold check_no_overlap_lists. fold overlap. now rewrite O. }
    split; [exact C|].
    intros e He L. apply Hiff in He.
    destruct (violates_under _ _ _ _ _ _ _ _ _ He L Hbrand) as (ty & e1 & Hin1 & V1 & L1).
    simpl in Hin1.
    destruct Hin1 as [[=]|[[= <-]|[[=]|[[=]|[[=]|[]]]]]].
    destruct (violates_under _ _ _ _ _ _ _ _ _ V1 L1 Htones) as (ty & e2 & Hin2 & V2 & L2).
    simpl in Hin2.
    destruct Hin2 as [[=]|[[=]|[[=]|[[= <-]|[]]]]].
    apply violates_model_inv in V2
      as [(n & ty & _ & _ & ->) | [(n & ty & y & e' & _ & _ & _ & ->) | (self' & text & W & A & ->)]];
      try discriminate.
    rewrite (tone_walk tones allowed forbidden self' Hallowed Hforbidden W) in A.
    congruence.
Qed.

(* ================================================================== *)
(** * Least lengths *)
(* ================================================================== *)

Lemma violates_at (s : bool) (t : ftype) (p : location) (s' : bool) (t' : ftype) :
  declares s t p s' t' ->
  forall v x e, value_at p v = Some x -> violates s' t' x e ->
                violates s t v (relocate p e).
Proof.
  induction 1 as [s t|s strip_here fields after name ty p s' t' Hin D IH];
    intros v x e Hv Hx.
  - simpl in Hv. injection Hv as ->. now destruct e.
  - simpl in Hv. destruct v; try discriminate.
    destruct (dict_get name entries) as [y|] eqn:G; [|discriminate].
    apply (field_violates s strip_here fields after entries name ty y (relocate p e));
      eauto.
Qed.

Lemma string_fields_declares (t : ftype) :
  forall s p n, In (p, n) (string_fields t) ->
                exists s' check, declares s t p s' (FStr n check).
Proof.
  induction t as [m check| |m check|choices|strip_here fields after IH]
    using ftype_nested_ind; intros s p n H; simpl in H; try destruct H.
  - injection H as <- <-. exists s, check. constructor.
  - destruct H.
  - apply in_flat_map in H as ([name ty] & Hin & H).
    apply in_map_iff in H as ([q k] & [= <- <-] & Hq). simpl in *.
    rewrite Forall_forall in IH.
    destruct (IH (name, ty) Hin strip_here q k Hq) as (s' & check & D).
    exists s', check. econstructor; eauto.
Qed.

(** C6 (amended).  Every [str] field of the document is declared with
    [min_length=1], but for the four fields of [Meta], which are declared
    without a constraint; a field declared with a least length refuses the
    empty string, wherever it sits, with a [string_too_short] error at its
    location; the [Meta] fields [project_name], [version] and [input_by]
    raise no error on any string at all. *)
Theorem min_length_rejects_empty_but_meta_is_unconstrained
  (fromisoformat : string -> bool) (self : NarrativeValidator) (data : pydict) :
  let root := NarrativeGenesisInput fromisoformat in
  let report := report_of (validate_from_dict fromisoformat self data) in
  (forall p n, In (p, n) (string_fields root) ->
               (n = 0 /\ exists name, p = [Key "meta"; Key name]) \/
               (n = 1 /\ forall name, p <> [Key "meta"; Key name])) /\
  (forall p n, In (p, S n) (string_fields root) ->
               value_at p (PDict data) = Some (PStr "") ->
               is_valid report = false /\
               In (mkError "string_too_short" p Standard (PStr "")) (errors report)) /\
  (forall meta name v,
      In name ["project_name"; "version"; "input_by"] ->
      dict_get "meta" data = Some (PDict meta) ->
      dict_get name meta = Some (PStr v) ->
      forall e, In e (errors report) -> err_loc e <> [Key "meta"; Key name]).
Proof.
  intros root report.
  destruct (report_collects_violations fromisoformat self data) as (Hiff & Hvalid).
  fold root report in Hiff, Hvalid.
  split; [|split].
  - intros p n H. simpl in H.
    repeat (destruct H as [H|H];
            [injection H as <- <-;
             first [left; split; [reflexivity | eexists; reflexivity]
                   | right; split; [reflexivity | intros name; discriminate]] |]).
    destruct H.
  - intros p n Hin Hv.
    destruct (string_fields_declares root false p (S n) Hin) as (s' & check & D).
    assert (V : violates false root (PDict data)
                  (mkError "string_too_short" p Standard (PStr ""))).
    { pose proof (violates_at _ _ _ _ _ D (PDict data) (PStr "")
                    (mkError "string_too_short" [] Standard (PStr "")) Hv) as R.
      unfold relocate in R. simpl in R. rewrite app_nil_r in R. apply R.
      constructor. destruct s'; simpl; lia. }
    split; [apply Hvalid; eauto | now apply Hiff].
  - intros meta name v Hname Hmeta Hv e He L. apply Hiff in He.
    destruct (violates_under _ _ _ _ _ _ _ _ _ He L Hmeta) as (ty & e1 & Hin1 & V1 & L1).
    simpl in Hin1.
    destruct Hin1 as [[= <-]|[[=]|[[=]|[[=]|[[=]|[]]]]]].
    destruct (violates_under _ _ _ _ _ _ _ _ _ V1 L1 Hv) as (ty & e2 & Hin2 & V2 & L2).
    assert (T : ty = FStr 0 no_check).
    { simpl in Hin2, Hname.
      destruct Hname as [<-|[<-|[<-|[]]]];
        destruct Hin2 as [[=]|[[=]|[[=]|[[=]|[]]]]]; congruence. }
    subst ty. inversion V2; subst.
    + match goal with Hn : forall x, PStr v <> PStr x |- _ => now destruct (Hn v) end.
    + lia.
    + discriminate.
Qed.

(** C6, as stated, fails: a document whose [project_name] is the empty
    string passes validation. *)
Lemma empty_project_name_is_accepted :
  let data := sample_document "" "Low" ["Cold"] [("product_name", PStr "Genesis")] in
  let report := report_of (validate_from_dict fromisoformat_sample new_validator data) in
  value_at [Key "meta"; Key "project_name"] (PDict data) = Some (PStr "") /\
  strip "" = "" /\
  is_valid report = true /\
  errors report = [].
Proof. repeat split; reflexivity. Qed.

Lemma tone_overlap_invariant_witness :
  (exists a f, In a ["Raw"; "Warm"] /\ In f ["RAW"] /\ lower a = lower f) /\
  is_valid (report_of (validate_from_dict fromisoformat_sample new_validator
                         overlap_document)) = false.
Proof.
  assert (O : exists a f, In a ["Raw"; "Warm"] /\ In f ["RAW"] /\ lower a = lower f).
  { exists "Raw", "RAW". split; [left; reflexivity|]. split; [left; reflexivity|].
    vm_compute. reflexivity. }
  split; [exact O|].
  assert (Hb : dict_get "brand_identity_core" overlap_document = Some (PDict overlap_brand))
    by (vm_compute; reflexivity).
  assert (Ht : dict_get "tone_guardrails" overlap_brand = Some (PDict overlap_tones))
    by (vm_compute; reflexivity).
  assert (Ha : dict_get "allowed" overlap_tones = Some (PList (map PStr ["Raw"; "Warm"])))
    by (vm_compute; reflexivity).
  assert (Hf : dict_get "forbidden" overlap_tones = Some (PList (map PStr ["RAW"])))
    by (vm_compute; reflexivity).
  pose proof (tone_overlap_invariant fromisoformat_sample new_validator
                overlap_document overlap_brand overlap_tones
                ["Raw"; "Warm"] ["RAW"] Hb Ht Ha Hf) as T.
  cbv zeta in T. destruct T as (_ & T & _).
  exact (proj1 (T O)).
Defined.

(* ================================================================== *)
(** * The hallucination permission in the document *)
(* ================================================================== *)

Lemma hallucination_permission_declared (fromisoformat : string -> bool) :
  declares false (NarrativeGenesisInput fromisoformat) hallucination_place
    false (FStr 1 validate_hallucination).
Proof.
  unfold hallucination_place, NarrativeGenesisInput.
  apply declares_under with (ty := AutonomousCharacterSeed); [simpl; tauto|].
  apply declares_under with (ty := EvolutionParameters); [simpl; tauto|].
  apply declares_under with (ty := FStr 1 validate_hallucination); [simpl; tauto|].
  constructor.
Qed.

(** C5.  A non-empty [hallucination_permission] passes the validation of
    its field exactly when one of the literals "Allowed", "Not Allowed",
    "Limited" occurs in it.  In a document that holds such a value, the
    report has the [ValueError] of [validate_hallucination] at the location
    of the field exactly when none of them occurs in the value, and has no
    error at that location exactly when one does.  "Allowed, but only for
    dystopian outcomes" passes and "Sometimes maybe" is refused. *)
Theorem hallucination_permission_substring_rule
  (fromisoformat : string -> bool) (self : NarrativeValidator) (data : pydict)
  (v : string)
  (Hv : v <> "")
  (Hat : value_at hallucination_place (PDict data) = Some (PStr v)) :
  let accepted := exists lit, In lit ["Allowed"; "Not Allowed"; "Limited"] /\ occurs_in lit v in
  let report := report_of (validate_from_dict fromisoformat self data) in
  field_type EvolutionParameters "hallucination_permission"
  = Some (FStr 1 validate_hallucination) /\
  (validate false (FStr 1 validate_hallucination) (PStr v) = Valid (PStr v) <-> accepted) /\
  (~ accepted <->
   In (mkError "value_error" hallucination_place
         (ValueError [Lit "hallucination_permission must contain one of: ";
                      ReprList ["Allowed"; "Not Allowed"; "Limited"]])
         (PStr v))
      (errors report)) /\
  (accepted <-> forall e, In e (errors report) -> err_loc e <> hallucination_place) /\
  validate false (FStr 1 validate_hallucination)
    (PStr "Allowed, but only for dystopian outcomes")
  = Valid (PStr "Allowed, but only for dystopian outcomes") /\
  validate false (FStr 1 validate_hallucination) (PStr "Sometimes maybe")
  = Invalid [mkError "value_error" []
               (ValueError [Lit "hallucination_permission must contain one of: ";
                            ReprList ["Allowed"; "Not Allowed"; "Limited"]])
               (PStr "Sometimes maybe")].
Proof.
  intros accepted report.
  assert (L : (String.length v <? 1)%nat = false).
  { destruct v; [congruence | reflexivity]. }
  pose proof (validate_hallucination_accepts v) as A.
  unfold valid_values in A. fold accepted in A.
  destruct (report_collects_violations fromisoformat self data) as [Hiff _].
  fold report in Hiff.
  assert (Refused : ~ accepted ->
            validate_hallucination v
            = Some [Lit "hallucination_permission must contain one of: ";
                    ReprList ["Allowed"; "Not Allowed"; "Limited"]]).
  { intros N. destruct (validate_hallucination v) eqn:E.
    - unfold validate_hallucination in E.
      destruct (negb _); [injection E as <-; reflexivity | discriminate].
    - exfalso. apply N, A. reflexivity. }
  assert (Located : forall e, In e (errors report) -> err_loc e = hallucination_place ->
                              ~ accepted).
  { intros e He Le. apply Hiff in He.
    unfold hallucination_place in Hat, Le. simpl in Hat.
    destruct (dict_get "autonomous_character_seed" data) as [[| | | | | |d1]|] eqn:G1;
      try discriminate.
    destruct (dict_get "evolution_parameters" d1) as [[| | | | | |d2]|] eqn:G2;
      try discriminate.
    destruct (dict_get "hallucination_permission" d2) as [x|] eqn:G3; [|discriminate].
    injection Hat as ->.
    destruct (violates_under _ _ _ _ _ _ _ _ _ He Le G1) as (t1 & e1 & I1 & V1 & L1).
    simpl in I1. destruct I1 as [[=]|[[=]|[[=]|[[= <-]|[[=]|[]]]]]].
    destruct (violates_under _ _ _ _ _ _ _ _ _ V1 L1 G2) as (t2 & e2 & I2 & V2 & L2).
    simpl in I2. destruct I2 as [[=]|[[=]|[[=]|[[= <-]|[]]]]].
    destruct (violates_under _ _ _ _ _ _ _ _ _ V2 L2 G3) as (t3 & e3 & I3 & V3 & L3).
    simpl in I3. destruct I3 as [[=]|[[=]|[[= <-]|[]]]].
    inversion V3; subst.
    - match goal with Hn : forall x, PStr v <> PStr x |- _ => now destruct (Hn v) end.
    - simpl in *. destruct v; [congruence | simpl in *; lia].
    - simpl in *. intros Acc. apply A in Acc. congruence. }
  split; [reflexivity|]. split; [|split; [|split; [|split; reflexivity]]].
  - simpl. rewrite L. split.
    + destruct (validate_hallucination v) eqn:E; [discriminate|]. intros _. now apply A.
    + intros Acc. apply A in Acc. now rewrite Acc.
  - split.
    + intros N. apply Hiff.
      pose proof (violates_at _ _ _ _ _ (hallucination_permission_declared fromisoformat)
                    (PDict data) (PStr v)
                    (mkError "value_error" []
                       (ValueError [Lit "hallucination_permission must contain one of: ";
                                    ReprList ["Allowed"; "Not Allowed"; "Limited"]])
                       (PStr v)) Hat) as R.
      apply R. constructor; simpl.
      * destruct v; [congruence | simpl; lia].
      * now apply Refused.
    + intros He. now apply (Located _ He).
  - split.
    + intros Acc e He Le. now apply (Located e He Le).
    + intros H. destruct (validate_hallucination v) eqn:E; [|now apply A].
      exfalso.
      assert (N : ~ accepted) by (intros Acc; apply A in Acc; congruence).
      apply (H (mkError "value_error" hallucination_place
                  (ValueError [Lit "hallucination_permission must contain one of: ";
                               ReprList ["Allowed"; "Not Allowed"; "Limited"]])
                  (PStr v))); [|reflexivity].
      apply Hiff.
      pose proof (violates_at _ _ _ _ _ (hallucination_permission_declared fromisoformat)
                    (PDict data) (PStr v)
                    (mkError "value_error" []
                       (ValueError [Lit "hallucination_permission must contain one of: ";
                                    ReprList ["Allowed"; "Not Allowed"; "Limited"]])
                       (PStr v)) Hat) as R.
      apply R. constructor; simpl.
      * destruct v; [congruence | simpl; lia].
      * rewrite E. now apply Refused.
Qed.

Lemma hallucination_permission_substring_rule_witness :
  validate false (FStr 1 validate_hallucination) (PStr "Limited") = Valid (PStr "Limited") <->
  exists lit, In lit ["Allowed"; "Not Allowed"; "Limited"] /\ occurs_in lit "Limited".
Proof.
  assert (Hv : "Limited" <> "") by discriminate.
  assert (Hat : value_at hallucination_place
                  (PDict (sample_document "Genesis" "Low" ["Cold"]
                            [("product_name", PStr "Genesis")]))
                = Some (PStr "Limited")) by (vm_compute; reflexivity).
  pose proof (hallucination_permission_substring_rule fromisoformat_sample new_validator
                (sample_document "Genesis" "Low" ["Cold"] [("product_name", PStr "Genesis")])
                "Limited" Hv Hat) as T.
  cbv zeta in T. destruct T as (_ & T & _). exact T.
Defined.

(* ================================================================== *)
(** * More on strings *)
(* ================================================================== *)

Lemma all_space_rstrip (s : string) : all_space s = true -> rstrip s = "".
Proof.
  induction s as [|c r IH]; simpl; [reflexivity|].
  intros H. apply andb_true_iff in H as [Hc Hr]. now rewrite (IH Hr), Hc.
Qed.

Lemma rstrip_empty (s : string) : rstrip s = "" -> all_space s = true.
Proof.
  induction s as [|c r IH]; simpl; [reflexivity|].
  destruct (rstrip r) eqn:E.
  - destruct (isspace c); [intros _; now rewrite IH | discriminate].
  - discriminate.
Qed.

Lemma lstrip_space (w s : string) : all_space w = true -> lstrip (w ++ s) = lstrip s.
Proof.
  induction w as [|c r IH]; simpl; [reflexivity|].
  intros H. apply andb_true_iff in H as [Hc Hr]. now rewrite Hc, IH.
Qed.

Lemma lstrip_empty (s : string) : lstrip s = "" -> all_space s = true.
Proof.
  induction s as [|c r IH]; simpl; [reflexivity|].
  destruct (isspace c); [exact IH | discriminate].
Qed.

(** A text is blank, for [strip], exactly when all its characters are
    whitespace. *)
Lemma strip_empty (s : string) : strip s = "" <-> all_space s = true.
Proof.
  unfold strip. split.
  - intros H. apply lstrip_empty in H.
    destruct (rstrip s) as [|c r] eqn:E; [now apply rstrip_empty|].
    (* the text left by [rstrip] ends with a character that is no space *)
    exfalso. clear -E H.
    revert c r E H. induction s as [|x t IH]; simpl; [discriminate|].
    intros c r E H. destruct (rstrip t) as [|y u] eqn:Et.
    + destruct (isspace x) eqn:Ex; [discriminate|].
      inversion E; subst. simpl in H. now rewrite Ex in H.
    + inversion E; subst. simpl in H. apply andb_true_iff in H as [_ H].
      exact (IH _ _ eq_refl H).
  - intros H. now rewrite (all_space_rstrip _ H).
Qed.

Lemma rstrip_space_r (a w : string) : all_space w = true -> rstrip (a ++ w) = rstrip a.
Proof.
  intros H. induction a as [|c r IH]; simpl.
  - now apply all_space_rstrip.
  - now rewrite IH.
Qed.

Lemma rstrip_space_l (w s : string) :
  all_space w = true ->
  rstrip (w ++ s) = match rstrip s with
                    | EmptyString => EmptyString
                    | t => (w ++ t)%string
                    end.
Proof.
  induction w as [|c r IH]; simpl.
  - intros _. now destruct (rstrip s).
  - intros H. apply andb_true_iff in H as [Hc Hr]. rewrite (IH Hr).
    destruct (rstrip s); [now rewrite Hc|].
    destruct r; reflexivity.
Qed.

(** [strip] sees nothing of the whitespace around a text. *)
Lemma strip_surrounded (w1 s w2 : string) :
  all_space w1 = true -> all_space w2 = true ->
  strip (w1 ++ s ++ w2) = strip s.
Proof.
  intros H1 H2. unfold strip.
  rewrite <- append_assoc, (rstrip_space_r _ _ H2), (rstrip_space_l _ _ H1).
  destruct (rstrip s); [reflexivity|]. now apply lstrip_space.
Qed.

(* ================================================================== *)
(** * More on the recovery of the response *)
(* ================================================================== *)

Section RecovererMore.

Variable loads : string -> pyval + loads_error.
Variable json_repair_loads : string -> pyval + string.

(** X1.  Whitespace around the content plays no part: the call answers on a
    text wrapped in whitespace as it answers on the text. *)
Theorem surrounding_whitespace_is_ignored (w1 str_content w2 : string)
  (H1 : all_space w1 = true) (H2 : all_space w2 = true) :
  sanitize (w1 ++ str_content ++ w2) = sanitize str_content /\
  _call_openrouter_for_pillars loads json_repair_loads (ContentOther (w1 ++ str_content ++ w2))
  = _call_openrouter_for_pillars loads json_repair_loads (ContentOther str_content).
Proof.
  assert (S : sanitize (w1 ++ str_content ++ w2) = sanitize str_content).
  { unfold sanitize. now rewrite strip_surrounded. }
  split; [exact S|].
  unfold _call_openrouter_for_pillars, recovered. now rewrite S.
Qed.

End RecovererMore.

Lemma closing_follows_inv (s : string) :
  closing_follows s = true ->
  exists ws c post, s = (ws ++ String c post)%string /\
                    all_space ws = true /\ is_closer c = true.
Proof.
  induction s as [|x r IH]; simpl; [discriminate|].
  destruct (isspace x) eqn:Ex.
  - intros H. destruct (IH H) as (ws & c & post & -> & A & C).
    exists (String x ws), c, post. simpl. now rewrite Ex, A.
  - intros H. exists "", x, r. simpl. repeat split. exact H.
Qed.

Lemma trailing_comma_head (r : string) :
  closing_follows r = true -> trailing_comma (String "," r).
Proof.
  intros H. destruct (closing_follows_inv _ H) as (ws & c & post & -> & A & C).
  now exists "", ws, c, post.
Qed.

Lemma trailing_comma_tail (x : ascii) (r : string) :
  trailing_comma r -> trailing_comma (String x r).
Proof.
  intros (pre & ws & c & post & -> & A & C). now exists (String x pre), ws, c, post.
Qed.

Lemma trailing_comma_inv (x : ascii) (r : string) :
  trailing_comma (String x r) ->
  (x = ","%char /\ closing_follows r = true) \/ trailing_comma r.
Proof.
  intros (pre & ws & c & post & E & A & C). destruct pre as [|y pre]; simpl in E.
  - inversion E; subst. left. split; [reflexivity|]. now apply closing_follows_space.
  - inversion E; subst. right. now exists pre, ws, c, post.
Qed.

Lemma find_none_no_comma (raw : string) :
  find raw ","%char = None -> ~ trailing_comma raw.
Proof.
  intros F (pre & ws & c & post & -> & _ & _).
  induction pre as [|y pre IH]; simpl in F.
  - discriminate.
  - destruct (Ascii.eqb y ","); [discriminate|].
    destruct (find (pre ++ String "," (ws ++ String c post)) ","); [discriminate|].
    now apply IH.
Qed.

(** X2.  The repair of trailing commas takes out commas and nothing else; it
    leaves a text as it is exactly when the text has no comma followed by
    optional whitespace and a closing brace or bracket; and it can leave
    such a comma behind, so that a second pass changes the text again. *)
Theorem fix_trailing_commas_drops_only_commas (raw : string) :
  without_commas (fix_trailing_commas raw) = without_commas raw /\
  (fix_trailing_commas raw = raw <-> ~ trailing_comma raw) /\
  (find raw ","%char = None -> fix_trailing_commas raw = raw) /\
  fix_trailing_commas (fix_trailing_commas "[1,,]") <> fix_trailing_commas "[1,,]".
Proof.
  assert (U : fix_trailing_commas raw = raw <-> ~ trailing_comma raw).
  { induction raw as [|x r IH]; simpl.
    - split; [|reflexivity]. intros _ (pre & ws & c & post & E & _).
      destruct pre; discriminate.
    - destruct (Ascii.eqb x ",") eqn:Ex; simpl.
      + apply Ascii.eqb_eq in Ex. subst x.
        destruct (closing_follows r) eqn:Cf.
        * split.
          -- intros E. exfalso. pose proof (fix_trailing_commas_length r) as L.
             rewrite E in L. simpl in L. lia.
          -- intros N. exfalso. apply N. now apply trailing_comma_head.
        * split.
          -- intros E N. inversion E as [E']. apply IH in E'.
             apply trailing_comma_inv in N as [[_ N] | N]; [congruence | auto].
          -- intros N. f_equal. apply IH. intros T. apply N. now apply trailing_comma_tail.
      + split.
        * intros E N. inversion E as [E']. apply IH in E'.
          apply trailing_comma_inv in N as [[N _] | N]; [|auto].
          subst x. discriminate.
        * intros N. f_equal. apply IH. intros T. apply N. now apply trailing_comma_tail. }
  split; [|split; [exact U | split]].
  - clear U. induction raw as [|x r IH]; simpl; [reflexivity|].
    destruct (Ascii.eqb x ",") eqn:Ex; simpl.
    + destruct (closing_follows r); simpl; [exact IH | now rewrite Ex, IH].
    + now rewrite Ex, IH.
  - intros F. apply U. now apply find_none_no_comma.
  - vm_compute. discriminate.
Qed.


Lemma upto_last_brace_none (s : string) :
  upto_last_brace s = None <-> find s "}"%char = None.
Proof.
  induction s as [|x r IH]; simpl; [tauto|].
  destruct (upto_last_brace r) eqn:U.
  - split; [discriminate|]. destruct (Ascii.eqb x "}"); [discriminate|].
    destruct (find r "}"); [discriminate|]. intros _.
    destruct IH as [_ IH]. specialize (IH eq_refl). discriminate.
  - destruct (Ascii.eqb x "}"); [split; discriminate|].
    destruct IH as [IH _]. rewrite (IH eq_refl). tauto.
Qed.

Lemma upto_last_brace_some (s p : string) :
  upto_last_brace s = Some p <->
  exists mid post, s = (mid ++ "}" ++ post)%string /\ p = (mid ++ "}")%string /\
                   find post "}"%char = None.
Proof.
  revert p. induction s as [|x r IH]; intros p; simpl.
  - split; [discriminate|]. intros (mid & post & E & _). destruct mid; discriminate.
  - destruct (upto_last_brace r) as [q|] eqn:U.
    + split.
      * intros E. inversion E; subst.
        destruct (proj1 (IH q) eq_refl) as (mid & post & -> & -> & F).
        now exists (String x mid), post.
      * intros (mid & post & E & -> & F). destruct mid as [|y mid]; simpl in E.
        -- inversion E; subst. apply upto_last_brace_none in F. congruence.
        -- inversion E; subst. simpl. f_equal. f_equal.
           assert (G : Some q = Some (mid ++ "}")%string) by (apply IH; exists mid, post; auto).
           congruence.
    + pose proof (proj1 (upto_last_brace_none r) U) as F.
      destruct (Ascii.eqb x "}") eqn:Ex.
      * apply Ascii.eqb_eq in Ex. subst x. split.
        -- intros E. inversion E; subst. now exists "", r.
        -- intros (mid & post & E & -> & G). destruct mid as [|y mid]; simpl in E.
           ++ reflexivity.
           ++ exfalso. inversion E; subst. clear -F.
              induction mid as [|z mid IH]; simpl in F; [discriminate|].
              destruct (Ascii.eqb z "}"); [discriminate|].
              destruct (find (mid ++ String "}" post) "}"); [discriminate | auto].
      * split; [discriminate|].
        intros (mid & post & E & -> & G). exfalso. destruct mid as [|y mid]; simpl in E.
        -- inversion E; subst. now rewrite Ascii.eqb_refl in Ex.
        -- inversion E; subst. clear -F.
           induction mid as [|z mid IH]; simpl in F; [discriminate|].
           destruct (Ascii.eqb z "}"); [discriminate|].
           destruct (find (mid ++ String "}" post) "}"); [discriminate | auto].
Qed.

Lemma find_occurrence (a b : string) (c : ascii) : find (a ++ String c b) c <> None.
Proof.
  induction a as [|y a IH]; simpl.
  - now rewrite Ascii.eqb_refl.
  - destruct (Ascii.eqb y c); [discriminate|].
    destruct (find (a ++ String c b) c); [discriminate | exact IH].
Qed.

Lemma find_none_cons (x : ascii) (r : string) (c : ascii) :
  find (String x r) c = None <-> x <> c /\ find r c = None.
Proof.
  simpl. destruct (Ascii.eqb x c) eqn:E.
  - apply Ascii.eqb_eq in E. split; [discriminate | intros [N _]; contradiction].
  - apply Ascii.eqb_neq in E. destruct (find r c); split; try discriminate; try tauto.
    intros [_ H]; discriminate.
Qed.

Lemma search_object_needs_closing (s : string) :
  find s "}"%char = None -> search_object s = None.
Proof.
  induction s as [|x r IH]; [reflexivity|].
  intros F. apply find_none_cons in F as [_ F]. simpl.
  rewrite (proj2 (upto_last_brace_none r) F), (IH F). now destruct (Ascii.eqb x "{").
Qed.

(** X3.  The extraction of the brace-delimited part runs from the first opening
    brace of the text to its last closing brace, and finds nothing exactly
    when no opening brace has a closing brace somewhere after it. *)
Theorem search_object_first_open_to_last_close (raw : string) :
  (forall group0,
      search_object raw = Some group0 <->
      exists pre mid post,
        raw = (pre ++ "{" ++ mid ++ "}" ++ post)%string /\
        group0 = ("{" ++ mid ++ "}")%string /\
        find pre "{"%char = None /\ find post "}"%char = None) /\
  (search_object raw = None <->
   forall pre mid post, raw <> (pre ++ "{" ++ mid ++ "}" ++ post)%string).
Proof.
  induction raw as [|x r [IH1 IH2]].
  - split.
    + intros g. split; [discriminate|].
      intros (pre & mid & post & E & _). destruct pre; discriminate.
    + split; [|reflexivity]. intros _ pre mid post E. destruct pre; discriminate.
  - cbn [search_object]. destruct (Ascii.eqb x "{") eqn:Ex.
    + apply Ascii.eqb_eq in Ex. subst x.
      assert (Hpre : forall pre t, String "{" r = (pre ++ String "{" t)%string ->
                                   find pre "{"%char = None -> pre = "" /\ r = t).
      { intros pre t E F. destruct pre as [|y pre]; simpl in E.
        - inversion E. auto.
        - inversion E; subst. simpl in F. discriminate. }
      destruct (upto_last_brace r) as [p|] eqn:U.
      * apply upto_last_brace_some in U as (mid & post & Er & Ep & F). split.
        -- intros g. split.
           ++ intros E. inversion E; subst g p. exists "", mid, post. subst r. auto.
           ++ intros (pre & mid' & post' & E & -> & Fp & Fq).
              destruct (Hpre _ _ E Fp) as [-> Er'].
              assert (G : upto_last_brace r = Some (mid' ++ "}")%string).
              { apply upto_last_brace_some. exists mid', post'. auto. }
              assert (G' : upto_last_brace r = Some p).
              { apply upto_last_brace_some. exists mid, post. auto. }
              rewrite G in G'. inversion G'. reflexivity.
        -- split; [discriminate|]. intros N. exfalso. apply (N "" mid post).
           simpl. now rewrite Er.
      * apply upto_last_brace_none in U. rewrite (search_object_needs_closing _ U).
        assert (N : forall pre mid post,
                   String "{" r <> (pre ++ "{" ++ mid ++ "}" ++ post)%string).
        { intros pre mid post E. destruct pre as [|y pre]; simpl in E; inversion E; subst r.
          - exact (find_occurrence _ _ _ U).
          - apply (find_occurrence (pre ++ String "{" mid) post "}"%char).
            now rewrite append_assoc. }
        split.
        -- intros g. split; [discriminate|].
           intros (pre & mid & post & E & _). exfalso. exact (N _ _ _ E).
        -- split; [intros _; exact N | reflexivity].
    + apply Ascii.eqb_neq in Ex. split.
      * intros g. rewrite IH1. split.
        -- intros (pre & mid & post & -> & -> & Fp & Fq).
           exists (String x pre), mid, post. repeat split; auto.
           apply find_none_cons. auto.
        -- intros (pre & mid & post & E & -> & Fp & Fq).
           destruct pre as [|y pre]; simpl in E; inversion E; subst; [contradiction|].
           apply find_none_cons in Fp as [_ Fp]. exists pre, mid, post. auto.
      * rewrite IH2. split.
        -- intros N pre mid post E.
           destruct pre as [|y pre]; simpl in E; inversion E; subst; [contradiction|].
           exact (N _ _ _ eq_refl).
        -- intros N pre mid post E. apply (N (String x pre) mid post). simpl. now rewrite E.
Qed.


Lemma json_loads_backquote (r : string) :
  json_loads (String "`" r)
  = inr (JSONDecodeError "Expecting value: line 1 column 1 (char 0)").
Proof.
  unfold json_loads. cbn [skip_ws json_ws]. cbn [String.length].
  replace (2 * S (String.length r) + 2) with (S (2 * String.length r + 3)) by lia.
  cbn [scan_value after_char Ascii.eqb Bool.eqb scan_atom after_word scan_number
       scan_integer is_digit ord N_of_ascii N_of_digits andb N.leb N.compare
       N.add N.mul Pos.compare Pos.compare_cont Pos.add Pos.mul raised String.length].
  now rewrite Nat.sub_diag.
Qed.

Lemma fix_trailing_commas_backquote (r : string) :
  fix_trailing_commas (String "`" r) = String "`" (fix_trailing_commas r).
Proof. reflexivity. Qed.

Lemma strip_backquote (r : string) : exists r', strip (String "`" r) = String "`" r'.
Proof.
  unfold strip. simpl. destruct (rstrip r); simpl; eauto.
Qed.

Section FenceFacts.

Variable loads : string -> pyval + loads_error.
Variable json_repair_loads : string -> pyval + string.

(** X4.  A fenced text without a line break keeps its opening fence (only a
    closing fence is taken off), so the strict parse fails on it with
    "Expecting value" at its first character and what the call answers is
    left to the repair stages. *)
Theorem one_line_fence_fails_the_strict_parse (str_content : string)
  (Hfence : startswith (strip str_content) "```" = true)
  (Hline : find (strip str_content) "010"%char = None) :
  (sanitize str_content = "" \/ exists r, sanitize str_content = String "`" r) /\
  json_loads (sanitize str_content)
  = inr (JSONDecodeError "Expecting value: line 1 column 1 (char 0)") /\
  recovered json_loads json_repair_loads (ContentOther str_content)
  = match json_repair_loads (sanitize str_content) with
    | inl pillars => inl pillars
    | inr repair_err =>
        match search_object (sanitize str_content) with
        | Some group0 =>
            match json_repair_loads group0 with
            | inl pillars => inl pillars
            | inr _ => inr (failed_to_parse "Expecting value: line 1 column 1 (char 0)"
                              repair_err)
            end
        | None => inr (failed_to_parse "Expecting value: line 1 column 1 (char 0)"
                         repair_err)
        end
    end.
Proof.
  assert (S : sanitize str_content = "" \/ exists r, sanitize str_content = String "`" r).
  { unfold sanitize, strip_code_fences. rewrite Hfence, Hline.
    unfold startswith in Hfence. apply prefix_inv in Hfence as [rest E].
    destruct (endswith (strip str_content) "```") eqn:En.
    - apply endswith_inv in En as [pre Ep]. rewrite Ep.
      assert (D : drop_last 3 (pre ++ "```") = pre) by apply (drop_last_append pre "```").
      rewrite D. destruct pre as [|y pre]; [left; reflexivity|].
      right. rewrite Ep in E. simpl in E. inversion E; subst y.
      destruct (strip_backquote pre) as [r' ->]. rewrite fix_trailing_commas_backquote. eauto.
    - right. rewrite E. simpl. eauto. }
  assert (J : json_loads (sanitize str_content)
              = inr (JSONDecodeError "Expecting value: line 1 column 1 (char 0)")).
  { destruct S as [-> | [r ->]]; [reflexivity | apply json_loads_backquote]. }
  split; [exact S | split; [exact J|]].
  unfold recovered, parse_or_repair. now rewrite J.
Qed.

End FenceFacts.

Lemma one_line_fence_fails_the_strict_parse_witness :
  json_loads (sanitize ("```{" ++ quoted "pillar2" ++ ": 1}```"))
  = inr (JSONDecodeError "Expecting value: line 1 column 1 (char 0)").
Proof.
  assert (F : startswith (strip ("```{" ++ quoted "pillar2" ++ ": 1}```")) "```" = true)
    by (vm_compute; reflexivity).
  assert (L : find (strip ("```{" ++ quoted "pillar2" ++ ": 1}```")) "010"%char = None)
    by (vm_compute; reflexivity).
  pose proof (one_line_fence_fails_the_strict_parse failing_repair _ F L) as T.
  exact (proj1 (proj2 T)).
Defined.

Lemma check_keys_first (keys : list string) (d : pydict) (msg : string) :
  check_keys keys d = Some msg ->
  exists pre key post,
    keys = pre ++ key :: post /\
    (forall k, In k pre -> dict_has k d = true) /\
    dict_has key d = false /\
    msg = ("Missing '" ++ key ++ "' in pillars response.")%string.
Proof.
  induction keys as [|k rest IH]; simpl; [discriminate|].
  destruct (dict_has k d) eqn:H; simpl.
  - intros E. destruct (IH E) as (pre & key & post & -> & A & B & ->).
    exists (k :: pre), key, post. repeat split; auto.
    intros k' [<- | I]; auto.
  - intros E. inversion E. exists [], k, rest. repeat split; auto.
Qed.

Section RecovererErrors.

Variable loads : string -> pyval + loads_error.
Variable json_repair_loads : string -> pyval + string.

(** X5.  The call raises one of four errors and no other: that the
    response is not an object, that one of the three keys is missing (the
    first one missing, in the order pillar2, pillar3, pillar4), or, for a
    text only, that parsing and repair have failed, with the error of the
    strict parse and that of the repair of the whole text, or what
    [json.loads] has raised on the sanitized text that is no
    [JSONDecodeError], as it is. *)
Theorem call_raises_one_of_four_errors (c : content) (exc : string) :
  _call_openrouter_for_pillars loads json_repair_loads c = inr exc ->
  exc = "Parsed pillars response is not a JSON object." \/
  (exists d pre key post,
      recovered loads json_repair_loads c = inl (PDict d) /\
      required_keys = pre ++ key :: post /\
      (forall k, In k pre -> dict_has k d = true) /\
      dict_has key d = false /\
      exc = ("Missing '" ++ key ++ "' in pillars response.")%string) \/
  (exists str_content first_err repair_err,
      c = ContentOther str_content /\
      loads (sanitize str_content) = inr (JSONDecodeError first_err) /\
      json_repair_loads (sanitize str_content) = inr repair_err /\
      exc = failed_to_parse first_err repair_err) \/
  (exists str_content,
      c = ContentOther str_content /\
      loads (sanitize str_content) = inr (OtherError exc)).
Proof.
  unfold _call_openrouter_for_pillars.
  destruct (recovered loads json_repair_loads c) as [v|e] eqn:R.
  - unfold check_pillars.
    destruct v as [| | | | | |d]; try (intros E; left; congruence).
    destruct (check_keys _ d) as [msg|] eqn:K; [|discriminate].
    apply check_keys_first in K as (pre & key & post & Ek & A & B & ->).
    intros E. inversion E. right. left. exists d, pre, key, post. auto.
  - intros E. inversion E; subst e. right. right.
    destruct c as [d|str_content]; [discriminate|].
    unfold recovered, parse_or_repair in R.
    destruct (loads (sanitize str_content)) as [v|[first_err|other]] eqn:J;
      [discriminate| |].
    + left.
      destruct (json_repair_loads (sanitize str_content)) as [v|repair_err] eqn:Rp;
        [discriminate|].
      exists str_content, first_err, repair_err.
      destruct (search_object (sanitize str_content)) as [g|].
      * destruct (json_repair_loads g); [discriminate|]. repeat split; congruence.
      * repeat split; congruence.
    + right. exists str_content. split; [reflexivity | congruence].
Qed.

End RecovererErrors.

Lemma call_raises_one_of_four_errors_witness :
  (exists key,
      In key required_keys /\
      _call_openrouter_for_pillars json_loads failing_repair
        (ContentDict [("pillar2", PDict []); ("pillar4", PDict [])])
      = inr ("Missing '" ++ key ++ "' in pillars response.")%string) /\
  json_loads (sanitize (long_integer_sample 4301)) = inr (OtherError int_limit_error).
Proof.
  assert (H : _call_openrouter_for_pillars json_loads failing_repair
                (ContentDict [("pillar2", PDict []); ("pillar4", PDict [])])
              = inr "Missing 'pillar3' in pillars response.") by reflexivity.
  assert (L : _call_openrouter_for_pillars json_loads failing_repair
                (ContentOther (long_integer_sample 4301))
              = inr int_limit_error) by (vm_compute; reflexivity).
  split.
  - pose proof (call_raises_one_of_four_errors json_loads failing_repair _ _ H) as T.
    destruct T as [T | [(d & pre & key & post & _ & K & _ & _ & E)
                       | [(s & e1 & e2 & C & _) | (s & C & _)]]].
    + discriminate T.
    + exists key. split; [rewrite K; apply in_elt | now rewrite <- E].
    + discriminate C.
    + discriminate C.
  - pose proof (call_raises_one_of_four_errors json_loads failing_repair _ _ L) as T.
    destruct T as [T | [(d & pre & key & post & R & _)
                       | [(s & e1 & e2 & C & J & _) | (s & C & J)]]].
    + vm_compute in T. discriminate T.
    + vm_compute in R. discriminate R.
    + injection C as <-. vm_compute in J. discriminate J.
    + injection C as <-. exact J.
Defined.

Lemma surrounding_whitespace_is_ignored_witness :
  _call_openrouter_for_pillars json_loads failing_repair
    (ContentOther (nl ++ (open_object_sample ++ "}") ++ "  "))
  = inl [("pillar2", PDict []); ("pillar3", PDict []); ("pillar4", PDict [])].
Proof.
  pose proof (surrounding_whitespace_is_ignored json_loads failing_repair nl
                (open_object_sample ++ "}") "  " eq_refl eq_refl) as T.
  destruct T as [_ T]. rewrite T. vm_compute. reflexivity.
Defined.

Lemma recovery_keeps_untouched_strict_json_witness :
  _call_openrouter_for_pillars json_loads failing_repair
    (ContentOther (open_object_sample ++ "}"))
  = inl [("pillar2", PDict []); ("pillar3", PDict []); ("pillar4", PDict [])].
Proof.
  assert (F : startswith (strip (open_object_sample ++ "}")) "```" = false)
    by (vm_compute; reflexivity).
  assert (U : fix_trailing_commas (strip (open_object_sample ++ "}"))
              = strip (open_object_sample ++ "}")) by (vm_compute; reflexivity).
  pose proof (recovery_keeps_untouched_strict_json json_loads failing_repair
                (open_object_sample ++ "}") F U) as (_ & T & _).
  apply T.
  - vm_compute. reflexivity.
  - intros key I. unfold required_keys in I. simpl in I.
    destruct I as [<- | [<- | [<- | []]]]; reflexivity.
Defined.

(* ================================================================== *)
(** * More on the schema *)
(* ================================================================== *)

Lemma strip_length_zero (s : string) :
  (String.eqb s "" || (String.length (strip s) =? 0)%nat)%bool = all_space s.
Proof.
  destruct (all_space s) eqn:A.
  - apply strip_empty in A. rewrite A. simpl. apply orb_true_r.
  - apply orb_false_iff. split.
    + apply String.eqb_neq. intros ->. discriminate.
    + apply Nat.eqb_neq. intros L.
      assert (E : strip s = "") by (destruct (strip s); [reflexivity | discriminate]).
      apply strip_empty in E. congruence.
Qed.

Lemma validate_slang_cons (slang : string) (rest : list string) :
  validate_slang (slang :: rest) =
  if all_space slang
  then Some [Lit "Slang whitelist cannot contain empty strings"]
  else if (50 <? String.length slang)%nat
       then Some [Lit "Slang entry too long: "; StrOf (slice_to 30 slang); Lit "..."]
       else validate_slang rest.
Proof.
  cbn [validate_slang]. now rewrite strip_length_zero.
Qed.

(** X6.  The slang whitelist passes exactly when none of its entries is blank
    or longer than 50 characters; otherwise the error is that of the first
    entry at fault, and a long entry is quoted by its first 30 characters. *)
Theorem validate_slang_accepts (v : list string) :
  (validate_slang v = None <-> Forall slang_ok v) /\
  (forall pre bad post,
      v = pre ++ bad :: post -> Forall slang_ok pre -> ~ slang_ok bad ->
      validate_slang v =
      Some (if all_space bad
            then [Lit "Slang whitelist cannot contain empty strings"]
            else [Lit "Slang entry too long: "; StrOf (slice_to 30 bad); Lit "..."])).
Proof.
  split.
  - induction v as [|slang rest IH]; [split; [constructor | reflexivity]|].
    rewrite validate_slang_cons. unfold slang_ok at 1.
    destruct (all_space slang) eqn:A.
    + split; [discriminate|]. intros F. inversion F as [|? ? [B _] _]; subst. congruence.
    + destruct (50 <? String.length slang)%nat eqn:L.
      * split; [discriminate|]. intros F. inversion F as [|? ? [_ B] _]; subst.
        apply Nat.ltb_lt in L. lia.
      * apply Nat.ltb_ge in L. rewrite IH. split.
        -- intros F. constructor; [split; [exact A | exact L] | exact F].
        -- intros F. now inversion F.
  - intros pre bad post -> Hpre Hbad. induction Hpre as [|x pre [Ax Lx] _ IH]; simpl app.
    + rewrite validate_slang_cons. destruct (all_space bad) eqn:A; [reflexivity|].
      destruct (50 <? String.length bad)%nat eqn:L; [reflexivity|].
      exfalso. apply Hbad. split; [exact A | now apply Nat.ltb_ge].
    + rewrite validate_slang_cons, Ax.
      assert (L : (50 <? String.length x)%nat = false) by now apply Nat.ltb_ge.
      now rewrite L.
Qed.

Lemma validate_slang_accepts_witness :
  validate_slang ["gabut"; "   "; "santuy"]
  = Some [Lit "Slang whitelist cannot contain empty strings"].
Proof.
  pose proof (proj2 (validate_slang_accepts ["gabut"; "   "; "santuy"])
                ["gabut"] "   " ["santuy"] eq_refl) as T.
  apply T.
  - constructor; [split; [reflexivity | simpl; lia] | constructor].
  - intros [A _]. vm_compute in A. discriminate.
Defined.

Lemma replace_absent (c : ascii) (by_ s : string) :
  find s c = None -> replace c by_ s = s.
Proof.
  induction s as [|x r IH]; [reflexivity|].
  intros F. apply find_none_cons in F as [N F]. simpl.
  apply Ascii.eqb_neq in N. now rewrite N, IH.
Qed.

Lemma replace_append (c : ascii) (by_ a b : string) :
  replace c by_ (a ++ b) = (replace c by_ a ++ replace c by_ b)%string.
Proof.
  induction a as [|x r IH]; [reflexivity|]. simpl.
  destruct (Ascii.eqb x c); rewrite IH; [now rewrite append_assoc | reflexivity].
Qed.

Lemma replace_join (c : ascii) (by_ : string) (parts : list string) :
  Forall (fun part => find part c = None) parts ->
  replace c by_ (join (String c "") parts) = join by_ parts.
Proof.
  induction parts as [|p rest IH]; [reflexivity|].
  intros F. inversion F as [|? ? Fp Fr]; subst.
  destruct rest as [|q rest'].
  - simpl. now apply replace_absent.
  - change (join (String c "") (p :: q :: rest'))
      with (p ++ String c "" ++ join (String c "") (q :: rest'))%string.
    change (join by_ (p :: q :: rest'))
      with (p ++ by_ ++ join by_ (q :: rest'))%string.
    rewrite replace_append, (replace_absent _ _ _ Fp).
    change (String c "" ++ join (String c "") (q :: rest'))%string
      with (String c (join (String c "") (q :: rest'))).
    cbn [replace]. rewrite Ascii.eqb_refl. now rewrite (IH Fr).
Qed.

(** Every text is pieces that hold no [c], joined by [c]. *)
Lemma split_at (c : ascii) (v : string) :
  exists parts,
    parts <> [] /\ v = join (String c "") parts /\
    Forall (fun part => find part c = None) parts.
Proof.
  induction v as [|x r (parts & NE & E & F)].
  - exists [""]. split; [discriminate|]. split; [reflexivity|].
    constructor; [reflexivity | constructor].
  - destruct parts as [|p rest]; [contradiction|].
    destruct (Ascii.eqb x c) eqn:X.
    + apply Ascii.eqb_eq in X. subst x. exists ("" :: p :: rest).
      split; [discriminate|]. split.
      * change (join (String c "") ("" :: p :: rest))
          with (String c (join (String c "") (p :: rest))).
        now rewrite <- E.
      * constructor; [reflexivity | exact F].
    + exists (String x p :: rest). split; [discriminate|].
      inversion F as [|? ? Fp Fr]; subst. split.
      * destruct rest as [|q rest']; reflexivity.
      * constructor; [|exact Fr]. simpl. rewrite X. now rewrite Fp.
Qed.

Section TimestampFacts.

Variable fromisoformat : string -> bool.

(** X7.  The timestamp check hands the text to [fromisoformat] with every
    capital Z turned into "+00:00", wherever it stands and however many
    there are: a text is the pieces between its Zs, joined by "Z", and what
    is parsed is the same pieces joined by "+00:00".  A text without a Z is
    parsed as it is, and one with a single Z with that Z replaced.  The
    error the check raises quotes the text as it was given. *)
Theorem timestamp_reads_every_Z_as_utc (v : string) :
  (exists parts,
      v = join "Z" parts /\ Forall (fun part => find part "Z"%char = None) parts) /\
  (forall parts,
      v = join "Z" parts ->
      Forall (fun part => find part "Z"%char = None) parts ->
      (validate_timestamp fromisoformat v = None <->
       fromisoformat (join "+00:00" parts) = true)) /\
  (find v "Z"%char = None ->
   (validate_timestamp fromisoformat v = None <-> fromisoformat v = true)) /\
  (forall pre post,
      v = (pre ++ "Z" ++ post)%string ->
      find pre "Z"%char = None -> find post "Z"%char = None ->
      (validate_timestamp fromisoformat v = None <->
       fromisoformat (pre ++ "+00:00" ++ post) = true)) /\
  (forall text,
      validate_timestamp fromisoformat v = Some text ->
      text = [Lit "Timestamp must be in ISO format: "; StrOf v]).
Proof.
  unfold validate_timestamp. split; [|split; [|split; [|split]]].
  - destruct (split_at "Z" v) as (parts & _ & E & F). now exists parts.
  - intros parts -> F. rewrite (replace_join "Z" "+00:00" parts F).
    destruct (fromisoformat _); split; congruence.
  - intros F. rewrite (replace_absent _ _ _ F).
    destruct (fromisoformat v); split; congruence.
  - intros pre post -> Fp Fq.
    rewrite replace_append, (replace_absent _ _ _ Fp). simpl.
    rewrite (replace_absent _ _ _ Fq).
    destruct (fromisoformat _); split; congruence.
  - intros text. destruct (fromisoformat _); [discriminate|]. intros E. now inversion E.
Qed.

(** Two Zs are two offsets. *)
Example timestamp_with_two_Z :
  validate_timestamp fromisoformat "2024-01-15TZ10:30:00Z" = None <->
  fromisoformat "2024-01-15T+00:0010:30:00+00:00" = true.
Proof.
  unfold validate_timestamp.
  change (replace "Z" "+00:00" "2024-01-15TZ10:30:00Z")
    with "2024-01-15T+00:0010:30:00+00:00".
  destruct (fromisoformat _); split; congruence.
Qed.

End TimestampFacts.

(* ================================================================== *)
(** * The document and its report *)
(* ================================================================== *)

Lemma validate_consistency_never_raises (self : pydict) : validate_consistency self = None.
Proof.
  unfold validate_consistency.
  destruct (contains "genz" _ || contains "gen_z" _); [|reflexivity].
  now destruct (negb _).
Qed.

Lemma field_errors_nil (vf : ftype -> pyval -> outcome)
  (Hvf : forall t v es, vf t v = Invalid es -> es <> [])
  (d : pydict) (f : string * ftype) :
  field_errors vf d f = [] <->
  match dict_get (fst f) d with
  | None => default_of (snd f) <> None
  | Some x => exists x', vf (snd f) x = Valid x'
  end.
Proof.
  unfold field_errors. destruct (dict_get (fst f) d) as [x|].
  - destruct (vf (snd f) x) as [x'|es] eqn:E; simpl.
    + split; eauto.
    + split.
      * intros M. apply map_eq_nil in M. exfalso. exact (Hvf _ _ _ E M).
      * intros [x' D]. discriminate.
  - destruct (default_of (snd f)); split; try discriminate; try reflexivity; congruence.
Qed.

Lemma flat_map_nil {A B : Type} (g : A -> list B) (l : list A) :
  flat_map g l = [] <-> Forall (fun a => g a = []) l.
Proof.
  induction l as [|a l IH]; simpl.
  - split; [constructor | reflexivity].
  - split.
    + intros E. apply app_eq_nil in E as [E1 E2]. constructor; [exact E1 | now apply IH].
    + intros F. inversion F as [|? ? E1 E2]; subst. rewrite E1. now apply IH.
Qed.

(** X8.  A document is valid exactly when each of its five sections is there
    and valid on its own: the validator of the whole document never
    rejects. *)
Theorem sections_decide_validity (fromisoformat : string -> bool)
  (self : NarrativeValidator) (data : pydict) :
  (forall model, validate_consistency model = None) /\
  (is_valid (report_of (validate_from_dict fromisoformat self data)) = true <->
   Forall (fun section =>
             exists x x', dict_get (fst section) data = Some x /\
                          validate false (snd section) x = Valid x')
          (sections fromisoformat)).
Proof.
  split; [exact validate_consistency_never_raises|].
  destruct (report_errors fromisoformat self data) as [_ ->].
  unfold NarrativeGenesisInput at 1. rewrite validate_model.
  rewrite validate_consistency_never_raises.
  change (FModel true _ validate_consistency) with (NarrativeGenesisInput fromisoformat).
  assert (E : flat_map (field_errors (validate true) data) (sections fromisoformat) = [] <->
              Forall (fun section =>
                        exists x x', dict_get (fst section) data = Some x /\
                                     validate false (snd section) x = Valid x')
                     (sections fromisoformat)).
  { rewrite flat_map_nil. unfold sections, NarrativeGenesisInput.
    repeat rewrite Forall_cons_iff.
    repeat rewrite (field_errors_nil (validate true) (validate_invalid_nonempty true)).
    cbn [fst snd]. 
    repeat match goal with
           | |- context [dict_get ?k data] => destruct (dict_get k data) as [?x|]
           end; cbn [default_of]; unfold Meta, BrandIdentityCore, StrategicNarrativeFramework,
             AutonomousCharacterSeed, TargetAudienceContext; cbn [default_of];
      intuition (try congruence; eauto);
      repeat match goal with
             | H : exists _, _ |- _ => destruct H
             | H : _ /\ _ |- _ => destruct H
             | H : Some _ = Some _ |- _ => inversion H; subst; clear H
             | H : None = Some _ |- _ => discriminate H
             end; eauto. }
  rewrite <- E. unfold sections, NarrativeGenesisInput.
  destruct (flat_map _ _); split; try reflexivity; discriminate.
Qed.



Lemma lookup_field_In (name : string) (ty : ftype) (fs : list (string * ftype)) :
  distinct (map fst fs) = true -> In (name, ty) fs -> lookup_field name fs = Some ty.
Proof.
  induction fs as [|[n t0] rest IH]; simpl; [contradiction|].
  intros D [E | I].
  - inversion E; subst. now rewrite String.eqb_refl.
  - apply andb_true_iff in D as [N D].
    destruct (String.eqb name n) eqn:En; [|now apply IH].
    apply String.eqb_eq in En. subst n. exfalso.
    apply negb_true_iff in N.
    assert (M : mem name (map fst rest) = true).
    { apply mem_In. apply in_map_iff. now exists (name, ty). }
    congruence.
Qed.

(** The attributes of a validated model: one for each declared field, the
    validated value of the entry or the default; nothing else. *)
Lemma walk_get (vf : ftype -> pyval -> outcome)
  (Hvf : forall t v es, vf t v = Invalid es -> es <> [])
  (d : pydict) (fs : list (string * ftype)) :
  fst (walk vf d fs) = [] ->
  forall name,
    dict_get name (snd (walk vf d fs)) =
    match lookup_field name fs with
    | None => None
    | Some ty =>
        match dict_get name d with
        | None => default_of ty
        | Some x => match vf ty x with Valid x' => Some x' | Invalid _ => None end
        end
    end.
Proof.
  induction fs as [|[n ty] rest IH]; [reflexivity|].
  cbn [walk lookup_field]. destruct (walk vf d rest) as [es vals]. cbn [fst snd] in IH.
  intros E name.
  destruct (dict_get n d) as [x|] eqn:G.
  - destruct (vf ty x) as [x'|es'] eqn:V; cbn [fst snd] in *.
    + simpl. destruct (String.eqb name n) eqn:En.
      * apply String.eqb_eq in En. subst n. now rewrite G, V.
      * now apply IH.
    + apply app_eq_nil in E as [E _]. apply map_eq_nil in E.
      exfalso. exact (Hvf _ _ _ V E).
  - destruct (default_of ty) as [dv|] eqn:Dv; cbn [fst snd] in *.
    + simpl. destruct (String.eqb name n) eqn:En.
      * apply String.eqb_eq in En. subst n. now rewrite G.
      * now apply IH.
    + discriminate.
Qed.

Lemma validate_valid_model (s strip_here : bool) (fields : list (string * ftype))
  (after : pydict -> option fstring) (v v' : pyval) :
  validate s (FModel strip_here fields after) v = Valid v' ->
  exists d, v = PDict d /\
            fst (walk (validate strip_here) d fields) = [] /\
            v' = PDict (snd (walk (validate strip_here) d fields)).
Proof.
  destruct v as [| | | | |items|d]; try discriminate.
  rewrite validate_model, <- walk_errors.
  destruct (fst (walk (validate strip_here) d fields)) eqn:E; [|discriminate].
  destruct (after _); [discriminate|]. intros V. inversion V. eauto.
Qed.

Lemma validate_valid_dict (s strip_here : bool) (fields : list (string * ftype))
  (after : pydict -> option fstring) (d d' : pydict) :
  validate s (FModel strip_here fields after) (PDict d) = Valid (PDict d') ->
  fst (walk (validate strip_here) d fields) = [] /\
  d' = snd (walk (validate strip_here) d fields).
Proof.
  intros V. apply validate_valid_model in V as (d0 & E0 & E & E').
  inversion E0; subst d0. inversion E'. auto.
Qed.

Lemma well_formed_field (strip_here : bool) (fields : list (string * ftype))
  (after : pydict -> option fstring) (name : string) (ty : ftype) :
  well_formed (FModel strip_here fields after) = true -> In (name, ty) fields ->
  lookup_field name fields = Some ty /\ well_formed ty = true.
Proof.
  simpl. intros W I. apply andb_true_iff in W as [D F]. split.
  - now apply lookup_field_In.
  - rewrite forallb_forall in F. exact (F _ I).
Qed.

(** What a valid value holds at a declared place is valid for the type
    declared there, and the validated value holds the outcome. *)
Lemma valid_at (s : bool) (t : ftype) (p : location) (s' : bool) (t' : ftype) :
  declares s t p s' t' -> well_formed t = true ->
  forall v v' x,
    validate s t v = Valid v' -> value_at p v = Some x ->
    exists x', value_at p v' = Some x' /\ validate s' t' x = Valid x'.
Proof.
  induction 1 as [s t | s strip_here fields after name ty p s' t' I D IH]; intros W v v' x V A.
  - simpl in A. inversion A; subst. exists v'. auto.
  - destruct (well_formed_field _ _ _ _ _ W I) as [L Wty].
    apply validate_valid_model in V as (d & -> & E & ->).
    simpl in A. destruct (dict_get name d) as [x0|] eqn:G; [|discriminate].
    pose proof (walk_get _ (validate_invalid_nonempty strip_here) d fields E name) as Q.
    rewrite L, G in Q. simpl. rewrite Q.
    destruct (validate strip_here ty x0) as [x0'|es] eqn:V0.
    + exact (IH Wty _ _ _ V0 A).
    + exfalso. rewrite walk_errors in E. apply flat_map_nil in E.
      rewrite Forall_forall in E. specialize (E _ I). unfold field_errors in E.
      cbn [fst snd] in E. rewrite G, V0 in E. simpl in E. apply map_eq_nil in E.
      exact (validate_invalid_nonempty _ _ _ _ V0 E).
Qed.

Lemma declares_default (s : bool) (t : ftype) (p : location) (s' : bool) (t' : ftype) :
  declares s t p s' t' -> default_of t' = None -> default_of t = None.
Proof. destruct 1; [auto | reflexivity]. Qed.

(** A valid value has an entry at every declared place whose type has no
    default. *)
Lemma valid_present (s : bool) (t : ftype) (p : location) (s' : bool) (t' : ftype) :
  declares s t p s' t' -> well_formed t = true -> default_of t' = None ->
  forall v v', validate s t v = Valid v' -> exists x, value_at p v = Some x.
Proof.
  induction 1 as [s t | s strip_here fields after name ty p s' t' I D IH]; intros W Df v v' V.
  - exists v. reflexivity.
  - destruct (well_formed_field _ _ _ _ _ W I) as [L Wty].
    apply validate_valid_model in V as (d & -> & E & ->).
    rewrite walk_errors in E. apply flat_map_nil in E.
    rewrite Forall_forall in E. specialize (E _ I).
    apply (field_errors_nil _ (validate_invalid_nonempty strip_here)) in E.
    cbn [fst snd] in E. simpl. destruct (dict_get name d) as [x0|].
    + destruct E as [x0' V0]. exact (IH Wty Df _ _ V0).
    + exfalso. apply E. exact (declares_default _ _ _ _ _ D Df).
Qed.

(** A leaf validated without the whitespace setting comes out as it went
    in. *)
Lemma leaf_unchanged (t : ftype) (x x' : pyval) :
  is_leaf t = true -> validate false t x = Valid x' -> x' = x.
Proof.
  destruct t as [n check | | n check | choices | sh fs af]; simpl; try discriminate; intros _.
  - destruct x; try discriminate. simpl.
    destruct (String.length s <? n)%nat; [discriminate|].
    destruct (check s); [discriminate|]. intros V. now inversion V.
  - destruct x; try discriminate; simpl; intros V; now inversion V.
  - destruct x as [| | | | |items|]; try discriminate.
    destruct (validate_items false 0 items) as [es ss] eqn:E.
    destruct es; [|discriminate].
    destruct (List.length ss <? n)%nat; [discriminate|].
    destruct (check ss); [discriminate|]. intros V. inversion V.
    assert (F : fst (validate_items false 0 items) = []) by now rewrite E.
    destruct (items_all_strings _ _ _ F) as [xs ->].
    rewrite items_of_strings in E. inversion E. now rewrite map_stripped_false.
  - destruct x; try discriminate. destruct (mem s choices); [|discriminate].
    intros V. now inversion V.
Qed.

Lemma declares_leaf_setting (s : bool) (t : ftype) (p : location) (s' : bool) (t' : ftype) :
  declares s t p s' t' -> is_leaf t' = true -> In (p, s') (leaf_settings s t).
Proof.
  induction 1 as [s t | s strip_here fields after name ty p s' t' I D IH]; intros L.
  - destruct t; try discriminate; left; reflexivity.
  - simpl. apply in_flat_map. exists (name, ty). split; [exact I|].
    apply in_map_iff. exists (p, s'). split; [reflexivity | auto].
Qed.

Lemma document_leaves_untrimmed (fromisoformat : string -> bool) (p : location) (s' : bool) :
  In (p, s') (leaf_settings false (NarrativeGenesisInput fromisoformat)) -> s' = false.
Proof.
  intros I.
  assert (F : forallb (fun ps => negb (snd ps))
                (leaf_settings false (NarrativeGenesisInput fromisoformat)) = true)
    by reflexivity.
  rewrite forallb_forall in F. specialize (F _ I). simpl in F. now destruct s'.
Qed.

Lemma document_well_formed (fromisoformat : string -> bool) :
  well_formed (NarrativeGenesisInput fromisoformat) = true.
Proof. reflexivity. Qed.

Lemma valid_report_data (fromisoformat : string -> bool) (self : NarrativeValidator)
  (data : pydict) :
  is_valid (report_of (validate_from_dict fromisoformat self data)) = true ->
  exists validated,
    validate false (NarrativeGenesisInput fromisoformat) (PDict data) = Valid (PDict validated) /\
    report_of (validate_from_dict fromisoformat self data)
    = mkReport true [] (Some (PDict validated)).
Proof.
  unfold validate_from_dict, report_of.
  destruct (validate false (NarrativeGenesisInput fromisoformat) (PDict data)) as [v|es] eqn:V;
    [|discriminate].
  intros _. destruct (validate_valid_model _ _ _ _ _ _ V) as (d & _ & _ & ->).
  eexists. split; reflexivity.
Qed.

(** X9.  Validation changes nothing of what it accepts.  The model of a valid
    document holds, at every declared leaf the document has an entry for,
    that very entry: no string is trimmed (the whitespace setting of the
    root model reaches no string field), nothing is coerced; every
    declared field without a default has an entry; and the entries of the
    document that no section declares are not in the model. *)
Theorem validation_keeps_the_values (fromisoformat : string -> bool)
  (self : NarrativeValidator) (document : pydict)
  (Hvalid : is_valid (report_of (validate_from_dict fromisoformat self document)) = true) :
  exists validated,
    data (report_of (validate_from_dict fromisoformat self document))
    = Some (PDict validated) /\
    (forall p s' t' x,
        declares false (NarrativeGenesisInput fromisoformat) p s' t' ->
        is_leaf t' = true ->
        value_at p (PDict document) = Some x ->
        s' = false /\ value_at p (PDict validated) = Some x) /\
    (forall p s' t',
        declares false (NarrativeGenesisInput fromisoformat) p s' t' ->
        default_of t' = None ->
        exists x, value_at p (PDict document) = Some x) /\
    (forall name,
        lookup_field name (sections fromisoformat) = None ->
        dict_get name validated = None).
Proof.
  destruct (valid_report_data _ _ _ Hvalid) as (validated & V & R).
  exists validated. rewrite R. split; [reflexivity|].
  pose proof (document_well_formed fromisoformat) as W.
  split; [|split].
  - intros p s' t' x D L A.
    assert (S : s' = false).
    { apply (document_leaves_untrimmed fromisoformat p). now apply declares_leaf_setting with t'. }
    split; [exact S|]. subst s'.
    destruct (valid_at _ _ _ _ _ D W _ _ _ V A) as (x' & A' & V').
    now rewrite (leaf_unchanged _ _ _ L V') in A'.
  - intros p s' t' D Df. exact (valid_present _ _ _ _ _ D W Df _ _ V).
  - intros name N.
    destruct (validate_valid_dict _ _ _ _ _ _ V) as (E & ->).
    rewrite (walk_get _ (validate_invalid_nonempty true) document _ E name).
    unfold sections, NarrativeGenesisInput in N. now rewrite N.
Qed.

Lemma validation_keeps_the_values_witness :
  exists validated,
    data
      (report_of (validate_from_dict fromisoformat_sample new_validator
                    (sample_document "Genesis" "Low" ["Cold"]
                       [("product_name", PStr " Genesis ")])))
    = Some (PDict validated) /\
    value_at [Key "brand_identity_core"; Key "product_name"] (PDict validated)
    = Some (PStr " Genesis ").
Proof.
  assert (H : is_valid
                (report_of (validate_from_dict fromisoformat_sample new_validator
                              (sample_document "Genesis" "Low" ["Cold"]
                                 [("product_name", PStr " Genesis ")]))) = true)
    by (vm_compute; reflexivity).
  pose proof (validation_keeps_the_values fromisoformat_sample new_validator _ H) as T.
  destruct T as (validated & R & K & _).
  exists validated. split; [exact R|].
  apply (K _ false (FStr 1 no_check)); [|reflexivity|reflexivity].
  apply (declares_under false true _ _ "brand_identity_core" BrandIdentityCore);
    [simpl; tauto|].
  apply (declares_under true false _ _ "product_name" (FStr 1 no_check));
    [simpl; tauto|].
  apply declares_here.
Defined.


(** X10.  In a report of [validate_from_dict] the three attributes agree: it
    is valid exactly when it lists no error, and exactly when it carries
    the validated model; a failed report lists at least one error, which
    the count of its summary shows. *)
Theorem report_attributes_agree (fromisoformat : string -> bool)
  (self : NarrativeValidator) (document : pydict) :
  let report := report_of (validate_from_dict fromisoformat self document) in
  (is_valid report = true <-> errors report = []) /\
  (is_valid report = true <-> exists model, data report = Some (PDict model)) /\
  (is_valid report = false <-> data report = None) /\
  summary_is_valid (get_summary report) = is_valid report /\
  summary_errors (get_summary report) = errors report /\
  (error_count (get_summary report) = 0 <-> is_valid report = true) /\
  (is_valid report = false -> 1 <= error_count (get_summary report)).
Proof.
  unfold validate_from_dict, report_of, get_summary.
  destruct (validate false (NarrativeGenesisInput fromisoformat) (PDict document)) as [v|es] eqn:V;
    cbn [fst snd is_valid errors data summary_is_valid summary_errors error_count].
  - destruct (validate_valid_model _ _ _ _ _ _ V) as (d & _ & _ & ->).
    repeat split; try reflexivity; try discriminate; eauto.
  - rewrite map_report_error.
    pose proof (validate_invalid_nonempty _ _ _ _ V) as N.
    destruct es as [|e es]; [contradiction|].
    repeat split; try reflexivity; try discriminate; simpl; try lia.
    intros [model M]. discriminate.
Qed.


Lemma lookup_field_some (name : string) (ty : ftype) (fs : list (string * ftype)) :
  lookup_field name fs = Some ty -> In (name, ty) fs.
Proof.
  induction fs as [|[n t0] rest IH]; simpl; [discriminate|].
  destruct (String.eqb name n) eqn:E.
  - apply String.eqb_eq in E. subst n. intros H. inversion H. now left.
  - intros H. right. now apply IH.
Qed.

Lemma field_at_declares (p : location) :
  forall s t s' t', field_at s t p = Some (s', t') -> declares s t p s' t'.
Proof.
  induction p as [|[name|i] p IH]; intros s t s' t'; simpl.
  - intros H. inversion H. constructor.
  - destruct t as [| | | |strip_here fields after]; try discriminate.
    destruct (lookup_field name fields) as [ty|] eqn:L; [|discriminate].
    intros H. apply declares_under with ty; [now apply lookup_field_some | now apply IH].
  - discriminate.
Qed.

(** A valid document and its model hold the same entry at a required
    leaf, and the entry is valid for the type of the leaf. *)
Lemma valid_leaf_value (fromisoformat : string -> bool) (data validated : pydict)
  (p : location) (t' : ftype) :
  validate false (NarrativeGenesisInput fromisoformat) (PDict data) = Valid (PDict validated) ->
  field_at false (NarrativeGenesisInput fromisoformat) p = Some (false, t') ->
  is_leaf t' = true -> default_of t' = None ->
  exists x, value_at p (PDict data) = Some x /\
            value_at p (PDict validated) = Some x /\
            validate false t' x = Valid x.
Proof.
  intros V F L Df. apply field_at_declares in F.
  pose proof (document_well_formed fromisoformat) as W.
  destruct (valid_present _ _ _ _ _ F W Df _ _ V) as [x A].
  destruct (valid_at _ _ _ _ _ F W _ _ _ V A) as (x' & A' & V').
  pose proof (leaf_unchanged _ _ _ L V') as ->.
  exists x. auto.
Qed.

Lemma valid_string (n : nat) (check : string -> option fstring) (x : pyval) :
  validate false (FStr n check) x = Valid x ->
  exists y, x = PStr y /\ n <= String.length y /\ check y = None.
Proof.
  destruct x; try discriminate. simpl.
  destruct (String.length s <? n)%nat eqn:L; [discriminate|].
  destruct (check s) eqn:C; [discriminate|]. intros _.
  apply Nat.ltb_ge in L. eauto.
Qed.

Lemma valid_list (n : nat) (check : list string -> option fstring) (x : pyval) :
  validate false (FListStr n check) x = Valid x ->
  exists ys, x = PList (map PStr ys) /\ n <= List.length ys /\ check ys = None.
Proof.
  destruct x as [| | | | |items|]; try discriminate. cbn [validate].
  destruct (validate_items false 0 items) as [es ss] eqn:E.
  destruct es; [|discriminate].
  assert (F : fst (validate_items false 0 items) = []) by now rewrite E.
  destruct (items_all_strings _ _ _ F) as [xs ->].
  rewrite items_of_strings, map_stripped_false in E. inversion E; subst ss.
  destruct (List.length xs <? n)%nat eqn:L; [discriminate|].
  destruct (check xs) eqn:C; [discriminate|]. intros _.
  apply Nat.ltb_ge in L. eauto.
Qed.

Lemma valid_literal (choices : list string) (x : pyval) :
  validate false (FLiteral choices) x = Valid x ->
  exists y, x = PStr y /\ In y choices.
Proof.
  destruct x; try discriminate. simpl. destruct (mem s choices) eqn:M; [|discriminate].
  intros _. apply mem_In in M. eauto.
Qed.

Lemma attr_at2 (a b : string) (d : pydict) (x : pyval) :
  value_at [Key a; Key b] (PDict d) = Some x -> attr b (attr_model a d) = x.
Proof.
  unfold attr_model, attr. simpl.
  destruct (dict_get a d) as [[| | | | | |d1]|]; try discriminate.
  destruct (dict_get b d1); [|discriminate]. intros H. now inversion H.
Qed.

Lemma attr_at3 (a b c : string) (d : pydict) (x : pyval) :
  value_at [Key a; Key b; Key c] (PDict d) = Some x ->
  attr c (attr_model b (attr_model a d)) = x.
Proof.
  unfold attr_model at 2. unfold attr at 2. simpl.
  destruct (dict_get a d) as [[| | | | | |d1]|]; try discriminate.
  intros H. now apply attr_at2.
Qed.

Lemma len_strings (ys : list string) :
  len (PList (map PStr ys)) = PInt (Z.of_nat (List.length ys)).
Proof. simpl. now rewrite length_map. Qed.

(** X11.  The statistics are those of the last document validated.  After an
    invalid document there are none, whatever was validated before; after
    a valid one they are read off the document itself: its names, its
    autonomy level, and the lengths of its lists. *)
Theorem stats_describe_the_last_document (fromisoformat : string -> bool)
  (self : NarrativeValidator) (document : pydict) :
  let run := validate_from_dict fromisoformat self document in
  (is_valid (report_of run) = false ->
   get_validation_stats (validator_after run) = inl [("status", PStr "no_valid_data")]) /\
  (is_valid (report_of run) = true ->
   exists product character persona autonomy points allowed forbidden slang,
     value_at [Key "brand_identity_core"; Key "product_name"] (PDict document)
     = Some (PStr product) /\
     value_at [Key "autonomous_character_seed"; Key "base_persona"; Key "name"] (PDict document)
     = Some (PStr character) /\
     value_at [Key "target_audience_context"; Key "persona_code"] (PDict document)
     = Some (PStr persona) /\
     value_at [Key "strategic_narrative_framework"; Key "proof_points"] (PDict document)
     = Some (PList (map PStr points)) /\
     value_at [Key "brand_identity_core"; Key "tone_guardrails"; Key "allowed"] (PDict document)
     = Some (PList (map PStr allowed)) /\
     value_at [Key "brand_identity_core"; Key "tone_guardrails"; Key "forbidden"] (PDict document)
     = Some (PList (map PStr forbidden)) /\
     value_at [Key "target_audience_context"; Key "language_model"; Key "slang_whitelist"]
       (PDict document)
     = Some (PList (map PStr slang)) /\
     value_at [Key "autonomous_character_seed"; Key "evolution_parameters";
               Key "autonomy_level"] (PDict document)
     = Some (PStr autonomy) /\
     get_validation_stats (validator_after run)
     = inl [ ("status", PStr "valid");
             ("product_name", PStr product);
             ("character_name", PStr character);
             ("target_persona", PStr persona);
             ("proof_points_count", PInt (Z.of_nat (List.length points)));
             ("allowed_tones", PInt (Z.of_nat (List.length allowed)));
             ("forbidden_tones", PInt (Z.of_nat (List.length forbidden)));
             ("slang_count", PInt (Z.of_nat (List.length slang)));
             ("autonomy_level", PStr autonomy) ]).
Proof.
  intros run. split.
  - subst run. unfold validate_from_dict, report_of, validator_after, get_validation_stats.
    destruct (validate false (NarrativeGenesisInput fromisoformat) (PDict document));
      [discriminate | reflexivity].
  - intros Hvalid. destruct (valid_report_data _ _ _ Hvalid) as (validated & V & _).
    assert (R : get_validation_stats (validator_after run)
                = get_validation_stats (mkValidator (Some (mkReport true [] (Some (PDict validated)))))).
    { subst run. unfold validate_from_dict, validator_after. now rewrite V. }
    rewrite R. clear R Hvalid run.
    destruct (valid_leaf_value fromisoformat document validated
                [Key "brand_identity_core"; Key "product_name"] (FStr 1 no_check) V
                eq_refl eq_refl eq_refl) as (x1 & A1 & B1 & V1).
    apply valid_string in V1 as (product & -> & _).
    destruct (valid_leaf_value fromisoformat document validated
                [Key "autonomous_character_seed"; Key "base_persona"; Key "name"]
                (FStr 1 no_check) V eq_refl eq_refl eq_refl) as (x2 & A2 & B2 & V2).
    apply valid_string in V2 as (character & -> & _).
    destruct (valid_leaf_value fromisoformat document validated
                [Key "target_audience_context"; Key "persona_code"]
                (FStr 1 no_check) V eq_refl eq_refl eq_refl) as (x3 & A3 & B3 & V3).
    apply valid_string in V3 as (persona & -> & _).
    destruct (valid_leaf_value fromisoformat document validated
                [Key "strategic_narrative_framework"; Key "proof_points"]
                (FListStr 1 no_check) V eq_refl eq_refl eq_refl) as (x4 & A4 & B4 & V4).
    apply valid_list in V4 as (points & -> & _).
    destruct (valid_leaf_value fromisoformat document validated
                [Key "brand_identity_core"; Key "tone_guardrails"; Key "allowed"]
                (FListStr 1 no_check) V eq_refl eq_refl eq_refl) as (x5 & A5 & B5 & V5).
    apply valid_list in V5 as (allowed & -> & _).
    destruct (valid_leaf_value fromisoformat document validated
                [Key "brand_identity_core"; Key "tone_guardrails"; Key "forbidden"]
                (FListStr 1 no_check) V eq_refl eq_refl eq_refl) as (x6 & A6 & B6 & V6).
    apply valid_list in V6 as (forbidden & -> & _).
    destruct (valid_leaf_value fromisoformat document validated
                [Key "target_audience_context"; Key "language_model"; Key "slang_whitelist"]
                (FListStr 1 validate_slang) V eq_refl eq_refl eq_refl) as (x7 & A7 & B7 & V7).
    apply valid_list in V7 as (slang & -> & _).
    destruct (valid_leaf_value fromisoformat document validated
                [Key "autonomous_character_seed"; Key "evolution_parameters";
                 Key "autonomy_level"]
                (FLiteral ["Low"; "Medium"; "High"]) V eq_refl eq_refl eq_refl)
      as (x8 & A8 & B8 & V8).
    apply valid_literal in V8 as (autonomy & -> & _).
    exists product, character, persona, autonomy, points, allowed, forbidden, slang.
    repeat (split; [assumption|]).
    unfold get_validation_stats.
    cbn [last_report is_valid negb data].
    rewrite (attr_at2 _ _ _ _ B1), (attr_at3 _ _ _ _ _ B2), (attr_at2 _ _ _ _ B3),
      (attr_at2 _ _ _ _ B4), (attr_at3 _ _ _ _ _ B5), (attr_at3 _ _ _ _ _ B6),
      (attr_at3 _ _ _ _ _ B7), (attr_at3 _ _ _ _ _ B8).
    now rewrite !len_strings.
Qed.

(* ================================================================== *)
(** * Dictionaries *)
(* ================================================================== *)

Lemma dict_get_set_same (k : string) (v : pyval) (d : pydict) :
  dict_get k (dict_set k v d) = Some v.
Proof.
  induction d as [|[k' v'] r IH]; simpl.
  - now rewrite String.eqb_refl.
  - destruct (String.eqb k k') eqn:E; simpl.
    + now rewrite String.eqb_refl.
    + now rewrite E.
Qed.

Lemma dict_get_set_other (k k' : string) (v : pyval) (d : pydict) :
  k' <> k -> dict_get k' (dict_set k v d) = dict_get k' d.
Proof.
  intros N. apply String.eqb_neq in N.
  induction d as [|[k0 v0] r IH]; simpl.
  - now rewrite N.
  - destruct (String.eqb k k0) eqn:E; simpl.
    + apply String.eqb_eq in E. subst k0. now rewrite N.
    + now rewrite IH.
Qed.

Lemma dict_set_twice (k : string) (v : pyval) (d : pydict) :
  dict_set k v (dict_set k v d) = dict_set k v d.
Proof.
  induction d as [|[k' v'] r IH]; simpl.
  - now rewrite String.eqb_refl.
  - destruct (String.eqb k k') eqn:E; simpl.
    + now rewrite String.eqb_refl.
    + now rewrite E, IH.
Qed.

Lemma dict_set_not_empty (k : string) (v : pyval) (d : pydict) : dict_set k v d <> [].
Proof.
  destruct d as [|[k' v'] r]; simpl; [discriminate|].
  destruct (String.eqb k k'); discriminate.
Qed.

Lemma dict_get_setdefault (k k' : string) (v : pyval) (d : pydict) :
  dict_get k' (setdefault k v d) =
  match dict_get k' d with
  | Some x => Some x
  | None => if String.eqb k' k then Some v else None
  end.
Proof.
  unfold setdefault, dict_has. destruct (String.eqb k' k) eqn:E.
  - apply String.eqb_eq in E. subst k'.
    destruct (dict_get k d) eqn:G; [now rewrite G | apply dict_get_set_same].
  - apply String.eqb_neq in E. destruct (dict_get k d) eqn:G.
    + now destruct (dict_get k' d).
    + rewrite (dict_get_set_other _ _ _ _ E). now destruct (dict_get k' d).
Qed.

Lemma setdefault_present (k : string) (v : pyval) (d : pydict) :
  dict_has k d = true -> setdefault k v d = d.
Proof. unfold setdefault. now intros ->. Qed.

Lemma setdefault_not_empty (k : string) (v : pyval) (d : pydict) : setdefault k v d <> [].
Proof.
  unfold setdefault, dict_has. destruct (dict_get k d) eqn:G.
  - intros ->. discriminate.
  - apply dict_set_not_empty.
Qed.

(* ================================================================== *)
(** * Stamping the pillars *)
(* ================================================================== *)

Section PipelineFacts.

Variable loads : string -> pyval + loads_error.
Variable json_repair_loads : string -> pyval + string.
Variable float_is_zero : string -> bool.

(** The [meta] a block is stamped with, given the one it has. *)
Lemma stamped_meta_get (source_input timestamp generated_for : string) (m : pydict)
  (key : string) :
  dict_get key
    (setdefault "schema_version"
       (match dict_get "schema_version"
                (setdefault "generation_timestamp" (PStr timestamp)
                   (setdefault "source_input" (PStr source_input)
                      (setdefault "generated_for" (PStr generated_for) m))) with
        | Some v => v
        | None => PStr "2.1.0"
        end)
       (setdefault "generation_timestamp" (PStr timestamp)
          (setdefault "source_input" (PStr source_input)
             (setdefault "generated_for" (PStr generated_for) m))))
  = match dict_get key m with
    | Some v => Some v
    | None => stamp_default source_input timestamp generated_for key
    end.
Proof.
  rewrite !dict_get_setdefault. unfold stamp_default.
  destruct (dict_get key m) as [v|] eqn:G; [reflexivity|].
  destruct (String.eqb key "generated_for") eqn:E1; [reflexivity|].
  destruct (String.eqb key "source_input") eqn:E2; [reflexivity|].
  destruct (String.eqb key "generation_timestamp") eqn:E3; [reflexivity|].
  destruct (String.eqb key "schema_version") eqn:E4; [|reflexivity].
  apply String.eqb_eq in E4. subst key. rewrite G. reflexivity.
Qed.

Lemma stamp_meta_cases (source_input timestamp : string) (block : pyval)
  (generated_for : string) :
  match block with
  | PDict b =>
      match dict_get "meta" b with
      | Some (PDict (e :: m)) =>
          exists m', _stamp_meta float_is_zero source_input timestamp block generated_for
                     = inl (PDict (dict_set "meta" (PDict m') b)) /\
                     m' <> [] /\
                     forall key, dict_get key m' =
                                 match dict_get key (e :: m) with
                                 | Some v => Some v
                                 | None => stamp_default source_input timestamp
                                             generated_for key
                                 end
      | Some got =>
          if truthy float_is_zero got
          then _stamp_meta float_is_zero source_input timestamp block generated_for
               = inr (attribute_error got "setdefault")
          else exists m', _stamp_meta float_is_zero source_input timestamp block generated_for
                          = inl (PDict (dict_set "meta" (PDict m') b)) /\
                          m' <> [] /\
                          forall key, dict_get key m' =
                                      stamp_default source_input timestamp generated_for key
      | None =>
          exists m', _stamp_meta float_is_zero source_input timestamp block generated_for
                     = inl (PDict (dict_set "meta" (PDict m') b)) /\
                     m' <> [] /\
                     forall key, dict_get key m' =
                                 stamp_default source_input timestamp generated_for key
      end
  | _ => _stamp_meta float_is_zero source_input timestamp block generated_for
         = inr (attribute_error block "get")
  end.
Proof.
  assert (Fresh : forall b,
             exists m', inl (PDict (dict_set "meta"
                          (PDict (setdefault "schema_version"
                             (match dict_get "schema_version"
                                      (setdefault "generation_timestamp" (PStr timestamp)
                                         (setdefault "source_input" (PStr source_input)
                                            (setdefault "generated_for" (PStr generated_for) [])))
                              with Some v => v | None => PStr "2.1.0" end)
                             (setdefault "generation_timestamp" (PStr timestamp)
                                (setdefault "source_input" (PStr source_input)
                                   (setdefault "generated_for" (PStr generated_for) []))))) b))
                        = (inl (PDict (dict_set "meta" (PDict m') b)) : pyval + string) /\
                        m' <> [] /\
                        forall key, dict_get key m' =
                                    stamp_default source_input timestamp generated_for key).
  { intros b. eexists. split; [reflexivity|]. split; [apply setdefault_not_empty|].
    intros key. now rewrite stamped_meta_get. }
  destruct block as [| | | | | |b]; try reflexivity.
  unfold _stamp_meta. destruct (dict_get "meta" b) as [got|]; [|apply Fresh].
  destruct got as [|x|z|l|s|items|entries]; cbn [truthy].
  - apply Fresh.
  - destruct x; [reflexivity | apply Fresh].
  - destruct (negb (z =? 0)%Z); [reflexivity | apply Fresh].
  - destruct (negb (float_is_zero l)); [reflexivity | apply Fresh].
  - destruct (negb (String.eqb s "")); [reflexivity | apply Fresh].
  - destruct items; [apply Fresh | reflexivity].
  - destruct entries as [|e m]; [apply Fresh|].
    eexists. split; [reflexivity|]. split; [apply setdefault_not_empty|].
    intros key. now rewrite stamped_meta_get.
Qed.

(** What a successful stamping returns. *)
Lemma stamp_meta_result (source_input timestamp : string) (b : pydict)
  (generated_for : string) (r : pyval) :
  _stamp_meta float_is_zero source_input timestamp (PDict b) generated_for = inl r ->
  exists m',
    r = PDict (dict_set "meta" (PDict m') b) /\ m' <> [] /\
    forall key, dict_get key m' =
                match dict_get key (meta_of b) with
                | Some v => Some v
                | None => stamp_default source_input timestamp generated_for key
                end.
Proof.
  pose proof (stamp_meta_cases source_input timestamp (PDict b) generated_for) as C.
  cbv beta iota in C. unfold meta_of.
  destruct (dict_get "meta" b) as [got|].
  - destruct got as [|x|z|l|s|items|[|e m]];
      try (destruct (truthy float_is_zero _);
           [rewrite C; discriminate
           | destruct C as (m' & -> & N & K); intros R; inversion R; subst r;
             exists m'; auto]).
    destruct C as (m' & -> & N & K). intros R. inversion R; subst r. exists m'. auto.
  - destruct C as (m' & -> & N & K). intros R. inversion R; subst r. exists m'. auto.
Qed.

(** X12.  Stamping works on a block exactly when the block is an object whose
    [meta] is an object or counts as false (it is then replaced by a fresh
    object); any other block, and any other [meta], raises an
    [AttributeError]. *)
Theorem stamping_needs_objects (source_input timestamp : string) (block : pyval)
  (generated_for : string) :
  ((exists r, _stamp_meta float_is_zero source_input timestamp block generated_for = inl r)
   <-> stampable float_is_zero block = true) /\
  ((forall b, block <> PDict b) ->
   _stamp_meta float_is_zero source_input timestamp block generated_for
   = inr (attribute_error block "get")) /\
  (forall b got,
      block = PDict b -> dict_get "meta" b = Some got ->
      truthy float_is_zero got = true -> (forall m, got <> PDict m) ->
      _stamp_meta float_is_zero source_input timestamp block generated_for
      = inr (attribute_error got "setdefault")).
Proof.
  pose proof (stamp_meta_cases source_input timestamp block generated_for) as C.
  split; [|split].
  - clear C. unfold stampable, _stamp_meta.
    destruct block as [| | | | | |b];
      try (split; [intros [r R]; discriminate | discriminate]).
    destruct (dict_get "meta" b) as [got|]; [|cbn [truthy]; split; eauto].
    destruct got as [|x|z|l|s|items|[|e m]]; cbn [truthy negb];
      repeat match goal with
             | |- context [if ?c then _ else _] => destruct c
             | |- context [match ?l with [] => _ | _ :: _ => _ end] => destruct l
             end;
      cbn [negb];
      first [ solve [split; [reflexivity | eauto]]
            | solve [split; [intros [r R]; discriminate | discriminate]] ].
  - intros N. destruct block as [| | | | | |b]; try exact C. now destruct (N b).
  - intros b got -> G T N. cbv beta iota in C. rewrite G in C.
    destruct got as [|x|z|l|s|items|[|e m]]; try (rewrite T in C; exact C).
    now destruct (N (e :: m)).
Qed.

(** X13.  Stamping adds and never overwrites.  On a block it accepts it
    returns the block with its [meta] set: every other entry of the block
    is as it was, every entry the [meta] had is as it was (a null
    included), and of the four stamps those the [meta] lacked are filled
    in. *)
Theorem stamping_adds_and_never_overwrites (source_input timestamp : string)
  (b : pydict) (generated_for : string) (r : pyval)
  (Hstamped : _stamp_meta float_is_zero source_input timestamp (PDict b) generated_for
              = inl r) :
  exists b' m',
    r = PDict b' /\
    dict_get "meta" b' = Some (PDict m') /\
    (forall key, key <> "meta" -> dict_get key b' = dict_get key b) /\
    (forall key v, dict_get key (meta_of b) = Some v -> dict_get key m' = Some v) /\
    (forall key, dict_get key (meta_of b) = None ->
                 dict_get key m' = stamp_default source_input timestamp generated_for key) /\
    (forall key, In key ["generated_for"; "source_input"; "generation_timestamp";
                         "schema_version"] ->
                 dict_has key m' = true).
Proof.
  destruct (stamp_meta_result _ _ _ _ _ Hstamped) as (m' & -> & N & K).
  exists (dict_set "meta" (PDict m') b), m'.
  split; [reflexivity|]. split; [apply dict_get_set_same|].
  split; [intros key Nk; now apply dict_get_set_other|].
  split; [intros key v G; now rewrite K, G|].
  split; [intros key G; now rewrite K, G|].
  intros key I. unfold dict_has. rewrite K.
  destruct (dict_get key (meta_of b)); [reflexivity|].
  simpl in I. destruct I as [<- | [<- | [<- | [<- | []]]]]; reflexivity.
Qed.

(** X14.  Stamping a stamped block changes nothing, whatever the source, the
    time and the pillar named the second time. *)
Theorem stamping_twice_is_stamping_once (source_input timestamp : string)
  (block : pyval) (generated_for : string) (r : pyval)
  (Hstamped : _stamp_meta float_is_zero source_input timestamp block generated_for = inl r) :
  forall source_input' timestamp' generated_for',
    _stamp_meta float_is_zero source_input' timestamp' r generated_for' = inl r.
Proof.
  intros si' ts' g'.
  destruct block as [| | | | | |b]; try discriminate.
  destruct (stamp_meta_result _ _ _ _ _ Hstamped) as (m' & -> & N & K).
  assert (Has : forall key, In key ["generated_for"; "source_input"; "generation_timestamp";
                                    "schema_version"] -> dict_has key m' = true).
  { intros key I. unfold dict_has. rewrite K.
    destruct (dict_get key (meta_of b)); [reflexivity|].
    simpl in I. destruct I as [<- | [<- | [<- | [<- | []]]]]; reflexivity. }
  unfold _stamp_meta. rewrite dict_get_set_same.
  assert (T : truthy float_is_zero (PDict m') = true) by (destruct m'; [contradiction | reflexivity]).
  rewrite T.
  rewrite (setdefault_present "generated_for" _ m') by (apply Has; simpl; auto).
  rewrite (setdefault_present "source_input" _ m') by (apply Has; simpl; auto).
  rewrite (setdefault_present "generation_timestamp" _ m') by (apply Has; simpl; auto).
  rewrite (setdefault_present "schema_version" _ m') by (apply Has; simpl; auto 6).
  now rewrite dict_set_twice.
Qed.

Lemma call_returns_keys (c : content) (pillars : pydict) :
  _call_openrouter_for_pillars loads json_repair_loads c = inl pillars ->
  forall key, In key required_keys -> dict_has key pillars = true.
Proof.
  unfold _call_openrouter_for_pillars.
  destruct (recovered loads json_repair_loads c) as [v|e]; [|discriminate].
  unfold check_pillars. destruct v; try discriminate.
  destruct (check_keys _ entries) eqn:K; [discriminate|].
  intros E. inversion E; subst. now apply check_keys_none.
Qed.

Lemma getitem_present (key : string) (d : pydict) :
  dict_has key d = true -> exists v, dict_get key d = Some v /\ getitem key d = inl v.
Proof.
  unfold dict_has, getitem. destruct (dict_get key d); [eauto | discriminate].
Qed.

(** The three stampings one after the other, read from the pillars as
    they came. *)
Lemma stamp_pillars_steps (source_input timestamp : string) (pillars : pydict)
  (b2 b3 b4 : pyval) :
  dict_get "pillar2" pillars = Some b2 ->
  dict_get "pillar3" pillars = Some b3 ->
  dict_get "pillar4" pillars = Some b4 ->
  stamp_pillars float_is_zero source_input timestamp pillars =
  match _stamp_meta float_is_zero source_input timestamp b2
          "Pillar 2 (Hook Intelligence System)" with
  | inr exc => inr exc
  | inl pillar2 =>
      match _stamp_meta float_is_zero source_input timestamp b3
              "Pillar 3 (Logic & Script Context)" with
      | inr exc => inr exc
      | inl pillar3 =>
          match _stamp_meta float_is_zero source_input timestamp b4
                  "Pillar 4 (Visual Production & QA)" with
          | inr exc => inr exc
          | inl pillar4 =>
              inl (mkFiles pillar2 pillar3 pillar4
                     (PDict (dict_set "pillar4" pillar4
                               (dict_set "pillar3" pillar3
                                  (dict_set "pillar2" pillar2 pillars)))))
          end
      end
  end.
Proof.
  intros G2 G3 G4. unfold stamp_pillars, bind, getitem. rewrite G2.
  destruct (_stamp_meta _ _ _ b2 _) as [p2|e2]; [|reflexivity].
  rewrite dict_get_set_other, G3 by discriminate.
  destruct (_stamp_meta _ _ _ b3 _) as [p3|e3]; [|reflexivity].
  rewrite !dict_get_set_other, G4 by discriminate.
  now destruct (_stamp_meta _ _ _ b4 _).
Qed.

Lemma stampable_stamps (source_input timestamp : string) (block : pyval)
  (generated_for : string) :
  match _stamp_meta float_is_zero source_input timestamp block generated_for with
  | inl _ => stampable float_is_zero block = true
  | inr exc => stampable float_is_zero block = false /\
               exists v name, exc = attribute_error v name
  end.
Proof.
  unfold stampable, _stamp_meta.
  destruct block as [| | | | | |b]; try (split; [reflexivity | eauto]).
  destruct (dict_get "meta" b) as [got|]; [|reflexivity].
  destruct got as [|x|z|l|s|items|[|e m]]; cbn [truthy negb];
    repeat match goal with
           | |- context [if ?c then _ else _] => destruct c
           | |- context [match ?l with [] => _ | _ :: _ => _ end] => destruct l
           end;
    cbn [negb]; first [reflexivity | split; [reflexivity | eauto]].
Qed.

(** X15.  When the files are written, the raw response written last holds the
    three blocks as stamped, not as the model returned them: it holds at
    each of the three keys exactly what goes into the file of that pillar,
    and at every other key what the response had. *)
Theorem raw_response_holds_the_stamped_blocks (c : content)
  (source_input timestamp : string) (files : PillarFiles)
  (Hwritten : generate_pillars_from_data loads json_repair_loads float_is_zero c
                source_input timestamp = inl files) :
  exists pillars raw b2 b3 b4,
    _call_openrouter_for_pillars loads json_repair_loads c = inl pillars /\
    dict_get "pillar2" pillars = Some b2 /\
    dict_get "pillar3" pillars = Some b3 /\
    dict_get "pillar4" pillars = Some b4 /\
    _stamp_meta float_is_zero source_input timestamp b2
      "Pillar 2 (Hook Intelligence System)" = inl (output_pillar2 files) /\
    _stamp_meta float_is_zero source_input timestamp b3
      "Pillar 3 (Logic & Script Context)" = inl (output_pillar3 files) /\
    _stamp_meta float_is_zero source_input timestamp b4
      "Pillar 4 (Visual Production & QA)" = inl (output_pillar4 files) /\
    raw_pillars_response files = PDict raw /\
    dict_get "pillar2" raw = Some (output_pillar2 files) /\
    dict_get "pillar3" raw = Some (output_pillar3 files) /\
    dict_get "pillar4" raw = Some (output_pillar4 files) /\
    (forall key, ~ In key required_keys -> dict_get key raw = dict_get key pillars) /\
    run_narrative_pipeline loads json_repair_loads float_is_zero c source_input timestamp
    = Written files.
Proof.
  unfold generate_pillars_from_data, run_narrative_pipeline, bind in *.
  destruct (_call_openrouter_for_pillars loads json_repair_loads c) as [pillars|e] eqn:C;
    [|discriminate].
  pose proof (call_returns_keys _ _ C) as K.
  destruct (getitem_present "pillar2" pillars) as (b2 & G2 & _); [apply K; simpl; auto|].
  destruct (getitem_present "pillar3" pillars) as (b3 & G3 & _); [apply K; simpl; auto|].
  destruct (getitem_present "pillar4" pillars) as (b4 & G4 & _); [apply K; simpl; auto|].
  rewrite (stamp_pillars_steps _ _ _ _ _ _ G2 G3 G4) in *.
  destruct (_stamp_meta _ _ _ b2 _) as [p2|e2] eqn:S2; [|discriminate].
  destruct (_stamp_meta _ _ _ b3 _) as [p3|e3] eqn:S3; [|discriminate].
  destruct (_stamp_meta _ _ _ b4 _) as [p4|e4] eqn:S4; [|discriminate].
  inversion Hwritten; subst files. cbn [output_pillar2 output_pillar3 output_pillar4
                                        raw_pillars_response].
  exists pillars, (dict_set "pillar4" p4 (dict_set "pillar3" p3 (dict_set "pillar2" p2 pillars))),
    b2, b3, b4.
  repeat (split; [reflexivity || assumption|]).
  split.
  { rewrite (dict_get_set_other "pillar4" "pillar2") by discriminate.
    rewrite (dict_get_set_other "pillar3" "pillar2") by discriminate.
    apply dict_get_set_same. }
  split.
  { rewrite (dict_get_set_other "pillar4" "pillar3") by discriminate.
    apply dict_get_set_same. }
  split; [apply dict_get_set_same|].
  split; [|reflexivity].
  intros key N. unfold required_keys in N. simpl in N.
  rewrite !dict_get_set_other; [reflexivity | | |]; intros ->; apply N; auto.
Qed.

(** X16.  The shape check of the response does not cover the blocks.  The
    files are written exactly when the call returns pillars each of whose
    three blocks can be stamped; when it returns pillars one of whose
    blocks cannot, an [AttributeError] leaves both functions, also
    [run_narrative_pipeline], which catches the errors of the call
    itself. *)
Theorem pillars_past_the_shape_check_can_fail_the_stamping (c : content)
  (source_input timestamp : string) :
  ((exists files, generate_pillars_from_data loads json_repair_loads float_is_zero c
                    source_input timestamp = inl files) <->
   exists pillars,
     _call_openrouter_for_pillars loads json_repair_loads c = inl pillars /\
     forall key, In key required_keys ->
                 exists block, dict_get key pillars = Some block /\
                               stampable float_is_zero block = true) /\
  (forall pillars key block,
      _call_openrouter_for_pillars loads json_repair_loads c = inl pillars ->
      In key required_keys -> dict_get key pillars = Some block ->
      stampable float_is_zero block = false ->
      exists v name,
        generate_pillars_from_data loads json_repair_loads float_is_zero c source_input timestamp
        = inr (attribute_error v name) /\
        run_narrative_pipeline loads json_repair_loads float_is_zero c source_input timestamp
        = Raised (attribute_error v name)) /\
  (forall exc,
      _call_openrouter_for_pillars loads json_repair_loads c = inr exc ->
      generate_pillars_from_data loads json_repair_loads float_is_zero c source_input timestamp
      = inr exc /\
      run_narrative_pipeline loads json_repair_loads float_is_zero c source_input timestamp
      = Reported ("Pillar generation via OpenRouter failed: " ++ exc)).
Proof.
  unfold generate_pillars_from_data, run_narrative_pipeline, bind.
  destruct (_call_openrouter_for_pillars loads json_repair_loads c) as [pillars|e] eqn:C.
  - pose proof (call_returns_keys _ _ C) as K.
    destruct (getitem_present "pillar2" pillars) as (b2 & G2 & _); [apply K; simpl; auto|].
    destruct (getitem_present "pillar3" pillars) as (b3 & G3 & _); [apply K; simpl; auto|].
    destruct (getitem_present "pillar4" pillars) as (b4 & G4 & _); [apply K; simpl; auto|].
    rewrite (stamp_pillars_steps _ _ _ _ _ _ G2 G3 G4).
    pose proof (stampable_stamps source_input timestamp b2
                  "Pillar 2 (Hook Intelligence System)") as S2.
    pose proof (stampable_stamps source_input timestamp b3
                  "Pillar 3 (Logic & Script Context)") as S3.
    pose proof (stampable_stamps source_input timestamp b4
                  "Pillar 4 (Visual Production & QA)") as S4.
    assert (Blocks : forall key block,
               In key required_keys -> dict_get key pillars = Some block ->
               block = b2 \/ block = b3 \/ block = b4).
    { intros key block I G. simpl in I.
      destruct I as [<- | [<- | [<- | []]]]; rewrite G in *;
        match goal with H : Some _ = Some _ |- _ => inversion H end; auto. }
    split; [|split; [|discriminate]].
    + split.
      * intros [files W]. exists pillars. split; [reflexivity|].
        destruct (_stamp_meta _ _ _ b2 _); [|discriminate].
        destruct (_stamp_meta _ _ _ b3 _); [|discriminate].
        destruct (_stamp_meta _ _ _ b4 _); [|discriminate].
        intros key I. simpl in I. destruct I as [<- | [<- | [<- | []]]]; eauto.
      * intros (pillars' & E & A). inversion E; subst pillars'.
        destruct (A "pillar2") as (x2 & E2 & T2); [simpl; auto|].
        destruct (A "pillar3") as (x3 & E3 & T3); [simpl; auto|].
        destruct (A "pillar4") as (x4 & E4 & T4); [simpl; auto 6|].
        rewrite G2 in E2. rewrite G3 in E3. rewrite G4 in E4.
        inversion E2; inversion E3; inversion E4; subst x2 x3 x4.
        destruct (_stamp_meta _ _ _ b2 _); [|destruct S2; congruence].
        destruct (_stamp_meta _ _ _ b3 _); [|destruct S3; congruence].
        destruct (_stamp_meta _ _ _ b4 _); [|destruct S4; congruence].
        eauto.
    + intros pillars' key block E I G Bad. inversion E; subst pillars'.
      destruct (_stamp_meta _ _ _ b2 _) as [p2|e2];
        [|destruct S2 as (_ & v & name & ->); eauto].
      destruct (_stamp_meta _ _ _ b3 _) as [p3|e3];
        [|destruct S3 as (_ & v & name & ->); eauto].
      destruct (_stamp_meta _ _ _ b4 _) as [p4|e4];
        [|destruct S4 as (_ & v & name & ->); eauto].
      exfalso. destruct (Blocks _ _ I G) as [-> | [-> | ->]]; congruence.
  - split; [|split].
    + split; [intros [files W]; discriminate | intros (pillars & E & _); discriminate].
    + discriminate.
    + intros exc E. inversion E. auto.
Qed.

End PipelineFacts.

Lemma stamping_adds_and_never_overwrites_witness :
  exists b' m',
    _stamp_meta no_digit_but_zero "ui_session" "2025-01-01T00:00:00+00:00"
      (PDict sample_block) "Pillar 2 (Hook Intelligence System)" = inl (PDict b') /\
    dict_get "meta" b' = Some (PDict m') /\
    dict_get "generation_timestamp" m' = Some PNone /\
    dict_get "schema_version" m' = Some (PStr "3.0").
Proof.
  assert (H : exists r, _stamp_meta no_digit_but_zero "ui_session" "2025-01-01T00:00:00+00:00"
                          (PDict sample_block) "Pillar 2 (Hook Intelligence System)" = inl r)
    by (eexists; vm_compute; reflexivity).
  destruct H as [r H].
  pose proof (stamping_adds_and_never_overwrites no_digit_but_zero _ _ _ _ _ H) as T.
  destruct T as (b' & m' & -> & Gm & _ & Keep & _).
  exists b', m'. split; [exact H|]. split; [exact Gm|].
  split; apply Keep; reflexivity.
Defined.

Lemma stamping_twice_is_stamping_once_witness :
  exists r,
    _stamp_meta no_digit_but_zero "ui_session" "2025-01-01T00:00:00+00:00"
      (PDict sample_block) "Pillar 2 (Hook Intelligence System)" = inl r /\
    _stamp_meta no_digit_but_zero "input_master.json" "2026-06-30T12:00:00+00:00"
      r "Pillar 3 (Logic & Script Context)" = inl r.
Proof.
  assert (H : exists r, _stamp_meta no_digit_but_zero "ui_session" "2025-01-01T00:00:00+00:00"
                          (PDict sample_block) "Pillar 2 (Hook Intelligence System)" = inl r)
    by (eexists; vm_compute; reflexivity).
  destruct H as [r H]. exists r. split; [exact H|].
  exact (stamping_twice_is_stamping_once no_digit_but_zero _ _ _ _ _ H _ _ _).
Defined.

Lemma raw_response_holds_the_stamped_blocks_witness :
  exists files raw,
    generate_pillars_from_data json_loads failing_repair no_digit_but_zero
      (ContentDict sample_pillars)
      "ui_session" "2025-01-01T00:00:00+00:00" = inl files /\
    raw_pillars_response files = PDict raw /\
    dict_get "pillar4" raw = Some (output_pillar4 files) /\
    dict_get "notes" raw = Some (PStr "n").
Proof.
  assert (H : exists files,
             generate_pillars_from_data json_loads failing_repair no_digit_but_zero
               (ContentDict sample_pillars) "ui_session" "2025-01-01T00:00:00+00:00"
             = inl files)
    by (eexists; vm_compute; reflexivity).
  destruct H as [files H].
  pose proof (raw_response_holds_the_stamped_blocks json_loads failing_repair no_digit_but_zero
                _ _ _ _ H) as T.
  destruct T as (pillars & raw & b2 & b3 & b4 & C & _ & _ & _ & _ & _ & _ & R & _ & _ & G4 & O & _).
  exists files, raw. split; [exact H|]. split; [exact R|]. split; [exact G4|].
  rewrite O.
  - vm_compute in C. inversion C. reflexivity.
  - unfold required_keys. simpl. intros [E | [E | [E | []]]]; discriminate.
Defined.

(* ================================================================== *)
(** * The form *)
(* ================================================================== *)

Lemma conforms_model (sh : bool) (fields : list (string * ftype))
  (after : pydict -> option fstring) (v : pyval) :
  conforms (FModel sh fields after) v <->
  exists d, v = PDict d /\
            Forall (fun f => match dict_get (fst f) d with
                             | Some x => conforms (snd f) x
                             | None => default_of (snd f) <> None
                             end) fields.
Proof.
  cbn [conforms]. split; intros (d & -> & H); exists d; (split; [reflexivity|]).
  - induction fields as [|[n ty] rest IH]; [constructor|].
    destruct H as [H1 H2]. constructor; [exact H1 | now apply IH].
  - induction fields as [|[n ty] rest IH]; [exact I|].
    inversion H as [|? ? H1 H2]; subst. split; [exact H1 | now apply IH].
Qed.

(** A value of the right shape draws no error about a missing field or a
    wrong type. *)
Lemma conforming_errors (t : ftype) :
  forall s v e, conforms t v -> In e (errors_of (validate s t v)) ->
                In (err_type e) content_errors.
Proof.
  induction t as [n check | | n check | choices | sh fields after IH] using ftype_nested_ind;
    intros s v e C I.
  - destruct C as [x ->]. simpl in I.
    destruct (String.length _ <? n)%nat; [|destruct (check _)]; simpl in I;
      try contradiction; destruct I as [<- | []]; simpl; auto.
  - destruct C as [-> | [x ->]]; simpl in I; contradiction.
  - destruct C as [xs ->]. cbn [validate] in I. rewrite items_of_strings in I.
    destruct (List.length _ <? n)%nat; [|destruct (check _)]; simpl in I;
      try contradiction; destruct I as [<- | []]; simpl; auto.
  - destruct C as [x ->]. simpl in I. destruct (mem x choices); simpl in I;
      try contradiction; destruct I as [<- | []]; simpl; auto.
  - apply conforms_model in C as (d & -> & C). rewrite validate_model in I.
    destruct (flat_map (field_errors (validate sh) d) fields) as [|e0 es] eqn:F.
    + destruct (after _); simpl in I; try contradiction.
      destruct I as [<- | []]; simpl; auto 6.
    + simpl errors_of in I. rewrite <- F in I. clear F.
      apply in_flat_map in I as (f & If & Ie).
      rewrite Forall_forall in IH, C. specialize (IH _ If). specialize (C _ If).
      unfold field_errors in Ie. destruct (dict_get (fst f) d) as [x|].
      * apply in_map_iff in Ie as (e' & <- & Ie'). simpl. exact (IH _ _ _ C Ie').
      * destruct (default_of (snd f)); [contradiction | congruence].
Qed.

Lemma session_input_conforms (fromisoformat : string -> bool) (session_state : Session) :
  conforms (NarrativeGenesisInput fromisoformat)
    (PDict (build_input_dict_from_session session_state)).
Proof.
  unfold build_input_dict_from_session.
  destruct (social_setting session_state) as [s|]; [destruct (String.eqb s "")|];
    cbn; repeat (first [split | eexists | reflexivity | right; eexists; reflexivity
                       | left; reflexivity]).
Qed.

Lemma relocate_nil (e : ErrorDetails) : relocate [] e = e.
Proof. now destruct e. Qed.

(** A violation located under a place of the schema is a violation of the
    type declared there, by the value held there. *)
Lemma violates_descends (p : location) :
  forall s t v e q x,
    well_formed t = true ->
    violates s t v e -> err_loc e = p ++ q -> value_at p v = Some x ->
    exists s' t' e',
      field_at s t p = Some (s', t') /\ violates s' t' x e' /\
      e = relocate p e' /\ err_loc e' = q.
Proof.
  induction p as [|[name|i] p IH]; intros s t v e q x W H L A.
  - simpl in A. inversion A; subst x. exists s, t, e.
    rewrite relocate_nil. auto.
  - simpl in A. destruct v as [| | | | | |d]; try discriminate.
    destruct (dict_get name d) as [x0|] eqn:G; [|discriminate].
    destruct t as [n check | | n check | choices | sh fields after];
      try (inversion H; subst; simpl in L; discriminate).
    apply violates_model_inv in H
      as [(n & ty & Hin & Hn & ->)
         | [(n & ty & y & e' & Hin & Hy & Hv & ->) | (self & text & _ & _ & ->)]];
      simpl in L.
    + injection L as -> _. congruence.
    + injection L as -> L'. rewrite G in Hy. inversion Hy; subst y.
      destruct (well_formed_field _ _ _ _ _ W Hin) as [Lk Wty].
      destruct (IH _ _ _ _ _ _ Wty Hv L' A) as (s' & t' & e'' & F & V & -> & Lq).
      exists s', t', e''. simpl. rewrite Lk. auto.
    + discriminate.
  - discriminate.
Qed.

Lemma map_PStr_inj (xs ys : list string) : map PStr xs = map PStr ys -> xs = ys.
Proof.
  revert ys. induction xs as [|x xs IH]; intros [|y ys]; simpl; try discriminate.
  - reflexivity.
  - intros H. inversion H. f_equal. now apply IH.
Qed.

(** The violations of a list type by a list of strings. *)
Lemma violates_list_of_strings (s : bool) (n : nat) (check : list string -> option fstring)
  (xs : list string) (e : ErrorDetails) :
  violates s (FListStr n check) (PList (map PStr xs)) e ->
  (List.length xs < n /\ e = mkError "too_short" [] Standard (PList (map PStr xs))) \/
  (n <= List.length xs /\
   exists text, check (map (stripped s) xs) = Some text /\
                e = mkError "value_error" [] (ValueError text) (PList (map PStr xs))).
Proof.
  intros H. apply violation_reported in H. cbn [validate] in H.
  rewrite items_of_strings, length_map in H.
  destruct (List.length xs <? n)%nat eqn:Ln.
  - apply Nat.ltb_lt in Ln. destruct H as [<- | []]. auto.
  - apply Nat.ltb_ge in Ln. destruct (check _) as [text|] eqn:C; [|contradiction].
    destruct H as [<- | []]. right. eauto.
Qed.

Lemma non_blank_any (items : list string) :
  non_blank items <> [] <-> any_non_blank items = true.
Proof.
  unfold non_blank, any_non_blank, filled.
  induction items as [|x r IH]; simpl; [split; [congruence | discriminate]|].
  destruct (negb (String.eqb (strip x) "")); simpl; [split; [reflexivity | discriminate]|].
  exact IH.
Qed.

Lemma non_blank_any_item (items : list string) :
  non_blank items <> [] -> any_item items = true.
Proof. destruct items; [intros H; now destruct H | reflexivity]. Qed.

Section FormFacts.

Variable fromisoformat : string -> bool.

(** X17.  For a session filled by the form itself (a [str] in every text
    field, a list of [str] in every list: the sessions of the type
    [Session]), the document built from it has the shape of the schema: its
    validation never reports a missing field or a value of the wrong type,
    only what the content of the fields can draw. *)
Theorem form_input_draws_content_errors_only (session_state : Session) :
  let report := validate_input_data fromisoformat
                  (build_input_dict_from_session session_state) in
  forall e, In e (errors report) ->
            In (err_type e) content_errors /\
            ~ In (err_type e) ["missing"; "string_type"; "list_type"; "model_type"].
Proof.
  intros report e I.
  assert (T : In (err_type e) content_errors).
  { subst report. unfold validate_input_data in I.
    destruct (report_errors fromisoformat new_validator
                (build_input_dict_from_session session_state)) as [E _].
    unfold report_of in E. rewrite E in I.
    exact (conforming_errors _ _ _ _ (session_input_conforms fromisoformat session_state) I). }
  split; [exact T|].
  unfold content_errors in T. simpl in T. simpl.
  intros [E | [E | [E | [E | []]]]]; rewrite <- E in T;
    destruct T as [T | [T | [T | [T | []]]]]; discriminate.
Qed.

(** X18.  The slang whitelist built from the form holds no blank entry, so at
    its place a report can only say that the list is empty or name an entry
    of the form that is longer than 50 characters; the error about empty
    strings cannot come up. *)
Theorem form_slang_is_never_blank (session_state : Session) :
  let report := validate_input_data fromisoformat
                  (build_input_dict_from_session session_state) in
  (forall items,
      validate_slang (non_blank items)
      <> Some [Lit "Slang whitelist cannot contain empty strings"]) /\
  (forall e, In e (errors report) -> err_loc e = slang_place ->
             (non_blank (audience_slang session_state) = [] /\ err_type e = "too_short") \/
             (exists bad,
                 In bad (audience_slang session_state) /\ 50 < String.length bad /\
                 err_type e = "value_error" /\
                 err_msg e = ValueError [Lit "Slang entry too long: ";
                                         StrOf (slice_to 30 bad); Lit "..."])).
Proof.
  intros report.
  assert (Long : forall items text,
             validate_slang (non_blank items) = Some text ->
             exists bad, In bad items /\ 50 < String.length bad /\
                         text = [Lit "Slang entry too long: "; StrOf (slice_to 30 bad);
                                 Lit "..."]).
  { intros items. induction items as [|x r IH]; intros text; [discriminate|].
    unfold non_blank. cbn [filter]. fold (non_blank r).
    destruct (negb (String.eqb (strip x) "")) eqn:B.
    - assert (A : all_space x = false).
      { destruct (all_space x) eqn:A; [|reflexivity].
        apply strip_empty in A. rewrite A in B. discriminate. }
      rewrite validate_slang_cons, A.
      destruct (50 <? String.length x)%nat eqn:L.
      + intros E. inversion E. apply Nat.ltb_lt in L. exists x. simpl. auto.
      + intros E. destruct (IH _ E) as (bad & I & Lb & ->). exists bad. simpl. auto.
    - intros E. destruct (IH _ E) as (bad & I & Lb & ->). exists bad. simpl. auto. }
  split.
  - intros items E. destruct (Long _ _ E) as (bad & _ & _ & D). discriminate.
  - intros e I Loc. subst report. unfold validate_input_data in I.
    destruct (report_collects_violations fromisoformat new_validator
                (build_input_dict_from_session session_state)) as [V _].
    apply V in I. clear V.
    assert (Loc' : err_loc e = slang_place ++ []) by (now rewrite app_nil_r).
    destruct (violates_descends slang_place _ _ _ _ [] _ (document_well_formed fromisoformat)
                I Loc' eq_refl)
      as (s' & t' & e' & F & V & -> & L').
    cbn in F. inversion F; subst s' t'. clear F.
    apply violates_list_of_strings in V as [[Ln ->] | (_ & text & C & ->)].
    + left. split; [|reflexivity].
      destruct (non_blank (audience_slang session_state)); [reflexivity | simpl in Ln; lia].
    + right. rewrite map_stripped_false in C.
      destruct (Long _ _ C) as (bad & Ib & Lb & ->). exists bad. auto.
Qed.

Lemma set_inter_In (x : string) (a b : list string) :
  In x (set_inter (make_set a) (make_set b)) <-> In x a /\ In x b.
Proof.
  unfold set_inter. rewrite filter_In, mem_In, !make_set_In. tauto.
Qed.

Lemma schema_overlap_is_form_overlap (allowed forbidden : list string) :
  check_no_overlap_lists allowed forbidden <> None ->
  set_inter (make_set (map (fun t => strip (lower t)) allowed))
            (make_set (map (fun t => strip (lower t)) forbidden)) <> [].
Proof.
  unfold check_no_overlap_lists.
  destruct (set_inter (make_set (map lower allowed)) (make_set (map lower forbidden)))
    as [|x r] eqn:O; [congruence|]. intros _.
  assert (I : In x (set_inter (make_set (map lower allowed))
                              (make_set (map lower forbidden)))) by (rewrite O; now left).
  apply overlap_In in I as (a & f & Ia & If & La & Lf).
  assert (J : In (strip x)
                (set_inter (make_set (map (fun t => strip (lower t)) allowed))
                           (make_set (map (fun t => strip (lower t)) forbidden)))).
  { apply set_inter_In. split; apply in_map_iff; [exists a | exists f]; split; auto;
      congruence. }
  intros E. rewrite E in J. contradiction.
Qed.

(** X19.  The warning of the form covers the overlap rule of the schema:
    whenever the report of the document built from the form has an error at
    the tone guardrails themselves, [check_tone_overlap] warns.  The form
    is the stricter of the two: it also trims the tones it compares. *)
Theorem form_warning_covers_the_schema_overlap (session_state : Session) :
  let report := validate_input_data fromisoformat
                  (build_input_dict_from_session session_state) in
  ((exists e, In e (errors report) /\ err_loc e = tone_place) ->
   check_tone_overlap session_state <> None) /\
  (check_no_overlap_lists (non_blank (brand_allowed_tones session_state))
                          (non_blank (brand_forbidden_tones session_state)) <> None ->
   check_tone_overlap session_state <> None) /\
  (check_tone_overlap spaced_tone_session = Some (TonesInBothLists ["raw"]) /\
   check_no_overlap_lists (non_blank (brand_allowed_tones spaced_tone_session))
                          (non_blank (brand_forbidden_tones spaced_tone_session)) = None).
Proof.
  intros report.
  assert (Covers : check_no_overlap_lists (non_blank (brand_allowed_tones session_state))
                     (non_blank (brand_forbidden_tones session_state)) <> None ->
                   check_tone_overlap session_state <> None).
  { intros H. apply schema_overlap_is_form_overlap in H. unfold check_tone_overlap.
    destruct (set_inter _ _); [contradiction | discriminate]. }
  split; [|split; [exact Covers | split; reflexivity]].
  intros (e & I & Loc). apply Covers. subst report. unfold validate_input_data in I.
  destruct (report_collects_violations fromisoformat new_validator
              (build_input_dict_from_session session_state)) as [V _].
  apply V in I. clear V.
  assert (Loc' : err_loc e = tone_place ++ []) by (now rewrite app_nil_r).
  destruct (violates_descends tone_place _ _ _ _ [] _ (document_well_formed fromisoformat)
              I Loc' eq_refl)
    as (s' & t' & e' & F & V & -> & L').
  cbn in F. inversion F; subst s' t'. clear F.
  apply violates_model_inv in V
    as [(n & ty & _ & _ & ->) | [(n & ty & y & e'' & _ & _ & _ & ->) | (self' & text & W & A & ->)]];
    try discriminate.
  match type of W with
  | walk _ ?tones _ = _ =>
      rewrite (tone_walk tones (non_blank (brand_allowed_tones session_state))
                 (non_blank (brand_forbidden_tones session_state)) self'
                 eq_refl eq_refl W) in A
  end.
  congruence.
Qed.

Lemma valid_string_filled (document validated : pydict) (p : location)
  (n : nat) (check : string -> option fstring) (y : string) :
  validate false (NarrativeGenesisInput fromisoformat) (PDict document)
  = Valid (PDict validated) ->
  field_at false (NarrativeGenesisInput fromisoformat) p = Some (false, FStr (S n) check) ->
  value_at p (PDict document) = Some (PStr y) ->
  filled y = true.
Proof.
  intros V F A.
  destruct (valid_leaf_value _ _ _ _ _ V F eq_refl eq_refl) as (x & A' & _ & Vx).
  rewrite A in A'. inversion A'; subst x.
  apply valid_string in Vx as (y' & E & L & _). inversion E; subst y'.
  unfold filled. destruct y; [simpl in L; lia | reflexivity].
Qed.

Lemma valid_list_filled (document validated : pydict) (p : location)
  (n : nat) (check : list string -> option fstring) (ys : list string) :
  validate false (NarrativeGenesisInput fromisoformat) (PDict document)
  = Valid (PDict validated) ->
  field_at false (NarrativeGenesisInput fromisoformat) p = Some (false, FListStr (S n) check) ->
  value_at p (PDict document) = Some (PList (map PStr ys)) ->
  ys <> [].
Proof.
  intros V F A.
  destruct (valid_leaf_value _ _ _ _ _ V F eq_refl eq_refl) as (x & A' & _ & Vx).
  rewrite A in A'. inversion A' as [E']. rewrite <- E' in Vx.
  apply valid_list in Vx as (ys' & E & L & _). inversion E as [E2].
  apply map_PStr_inj in E2. subst ys'.
  intros ->. simpl in L. lia.
Qed.

Lemma valid_literal_filled (document validated : pydict) (p : location)
  (choices : list string) (y : string) :
  validate false (NarrativeGenesisInput fromisoformat) (PDict document)
  = Valid (PDict validated) ->
  field_at false (NarrativeGenesisInput fromisoformat) p = Some (false, FLiteral choices) ->
  value_at p (PDict document) = Some (PStr y) ->
  In y choices.
Proof.
  intros V F A.
  destruct (valid_leaf_value _ _ _ _ _ V F eq_refl eq_refl) as (x & A' & _ & Vx).
  rewrite A in A'. inversion A'; subst x.
  apply valid_literal in Vx as (y' & E & I). now inversion E; subst y'.
Qed.

(** X20.  A form whose document passes validation shows the four sections
    that carry content as complete: nothing the completion marks ask of
    them goes beyond the schema.  (The project information is another
    matter: the schema takes an empty name of the author.) *)
Theorem valid_form_is_complete (session_state : Session)
  (Hvalid : is_valid (validate_input_data fromisoformat
                        (build_input_dict_from_session session_state)) = true) :
  forall section,
    In section ["Brand Identity"; "Strategic Narrative"; "Character Seed"; "Target Audience"] ->
    In (section, true) (get_section_completion session_state).
Proof.
  unfold validate_input_data in Hvalid.
  destruct (valid_report_data fromisoformat new_validator _ Hvalid) as (validated & V & _).
  pose proof (fun p n check y => valid_string_filled _ _ p n check y V) as S.
  pose proof (fun p n check ys => valid_list_filled _ _ p n check ys V) as L.
  pose proof (fun p choices y => valid_literal_filled _ _ p choices y V) as C.
  assert (B1 : filled (brand_product_name session_state) = true)
    by exact (S [Key "brand_identity_core"; Key "product_name"] _ _ _ eq_refl eq_refl).
  assert (B2 : filled (brand_archetype session_state) = true)
    by exact (S [Key "brand_identity_core"; Key "archetype"] _ _ _ eq_refl eq_refl).
  assert (B3 : filled (brand_philosophy session_state) = true)
    by exact (S [Key "brand_identity_core"; Key "core_philosophy"] _ _ _ eq_refl eq_refl).
  assert (B4 : non_blank (brand_allowed_tones session_state) <> [])
    by exact (L [Key "brand_identity_core"; Key "tone_guardrails"; Key "allowed"]
                _ _ _ eq_refl eq_refl).
  assert (B5 : non_blank (brand_forbidden_tones session_state) <> [])
    by exact (L [Key "brand_identity_core"; Key "tone_guardrails"; Key "forbidden"]
                _ _ _ eq_refl eq_refl).
  assert (N1 : filled (world_description session_state) = true)
    by exact (S [Key "strategic_narrative_framework"; Key "the_world_status_quo";
                 Key "description"] _ _ _ eq_refl eq_refl).
  assert (N2 : filled (enemy_name session_state) = true)
    by exact (S [Key "strategic_narrative_framework"; Key "the_enemy"; Key "name"]
                _ _ _ eq_refl eq_refl).
  assert (N3 : filled (promised_vision session_state) = true)
    by exact (S [Key "strategic_narrative_framework"; Key "the_promised_land"; Key "vision"]
                _ _ _ eq_refl eq_refl).
  assert (N4 : non_blank (proof_points session_state) <> [])
    by exact (L [Key "strategic_narrative_framework"; Key "proof_points"]
                _ _ _ eq_refl eq_refl).
  assert (N5 : filled (transformation_from_state session_state) = true)
    by exact (S [Key "strategic_narrative_framework"; Key "transformation_thesis";
                 Key "from_state"] _ _ _ eq_refl eq_refl).
  assert (N6 : filled (transformation_to_state session_state) = true)
    by exact (S [Key "strategic_narrative_framework"; Key "transformation_thesis";
                 Key "to_state"] _ _ _ eq_refl eq_refl).
  assert (C1 : filled (character_name session_state) = true)
    by exact (S [Key "autonomous_character_seed"; Key "base_persona"; Key "name"]
                _ _ _ eq_refl eq_refl).
  assert (C2 : filled (character_role session_state) = true)
    by exact (S [Key "autonomous_character_seed"; Key "base_persona"; Key "role"]
                _ _ _ eq_refl eq_refl).
  assert (C3 : filled (lore_belief session_state) = true)
    by exact (S [Key "autonomous_character_seed"; Key "lore_seed"; Key "central_belief"]
                _ _ _ eq_refl eq_refl).
  assert (C4 : non_blank (lore_obsessions session_state) <> [])
    by exact (L [Key "autonomous_character_seed"; Key "lore_seed"; Key "obsession_topics"]
                _ _ _ eq_refl eq_refl).
  assert (C5 : filled (lore_affliction session_state) = true)
    by exact (S [Key "autonomous_character_seed"; Key "lore_seed"; Key "affliction"]
                _ _ _ eq_refl eq_refl).
  assert (C6 : filled (lore_aspiration session_state) = true)
    by exact (S [Key "autonomous_character_seed"; Key "lore_seed"; Key "aspiration"]
                _ _ _ eq_refl eq_refl).
  assert (C7 : filled (product_relation session_state) = true).
  { pose proof (C [Key "autonomous_character_seed"; Key "base_persona";
                   Key "product_relation"] _ _ eq_refl eq_refl) as I.
    simpl in I. destruct I as [<- | [<- | [<- | [<- | []]]]]; reflexivity. }
  assert (A1 : filled (audience_code session_state) = true)
    by exact (S [Key "target_audience_context"; Key "persona_code"] _ _ _ eq_refl eq_refl).
  assert (A2 : non_blank (audience_pain_points session_state) <> [])
    by exact (L [Key "target_audience_context"; Key "pain_points"] _ _ _ eq_refl eq_refl).
  assert (A3 : non_blank (audience_slang session_state) <> [])
    by exact (L [Key "target_audience_context"; Key "language_model"; Key "slang_whitelist"]
                _ _ _ eq_refl eq_refl).
  clear S L C V Hvalid.
  apply non_blank_any_item in B4, B5.
  apply non_blank_any in N4, C4, A2, A3.
  intros section I. unfold get_section_completion.
  rewrite B1, B2, B3, B4, B5, N1, N2, N3, N4, N5, N6, C1, C2, C3, C4, C5, C6, C7, A1, A2, A3.
  simpl in I. simpl.
  destruct I as [<- | [<- | [<- | [<- | []]]]]; auto 6.
Qed.

(** X21.  The form as it starts does not validate, whatever the time: beside
    what the timestamp may draw, its report lists eleven errors, for the
    fields the form leaves empty; and the completion marks show the
    character seed as complete although two of its fields, the memory
    retention and the hallucination permission, are among them: a complete
    section need not be a valid one. *)
Theorem the_form_starts_invalid (now : string) :
  let session_state := initialize_session_state now in
  let report := validate_input_data fromisoformat
                  (build_input_dict_from_session session_state) in
  is_valid report = false /\
  map (fun e => (err_type e, err_loc e)) (errors report)
  = (if fromisoformat (replace "Z" "+00:00" now) then []
     else [("value_error", [Key "meta"; Key "timestamp"])])
    ++ [ ("string_too_short", [Key "brand_identity_core"; Key "archetype"]);
         ("string_too_short", [Key "brand_identity_core"; Key "core_philosophy"]);
         ("too_short", [Key "brand_identity_core"; Key "tone_guardrails"; Key "allowed"]);
         ("too_short", [Key "brand_identity_core"; Key "tone_guardrails"; Key "forbidden"]);
         ("too_short", [Key "strategic_narrative_framework"; Key "proof_points"]);
         ("string_too_short",
          [Key "autonomous_character_seed"; Key "evolution_parameters";
           Key "memory_retention"]);
         ("string_too_short",
          [Key "autonomous_character_seed"; Key "evolution_parameters";
           Key "hallucination_permission"]);
         ("string_too_short", [Key "target_audience_context"; Key "persona_code"]);
         ("too_short", [Key "target_audience_context"; Key "pain_points"]);
         ("too_short",
          [Key "target_audience_context"; Key "language_model"; Key "slang_whitelist"]);
         ("too_short",
          [Key "target_audience_context"; Key "language_model";
           Key "cultural_references"]) ] /\
  get_section_completion session_state
  = [ ("Project Info", false); ("Brand Identity", false); ("Strategic Narrative", false);
      ("Character Seed", true); ("Target Audience", false) ] /\
  check_tone_overlap session_state = None.
Proof.
  intros session_state report.
  assert (Sections :
            flat_map (field_errors (validate true)
                        (build_input_dict_from_session session_state))
              (sections fromisoformat)
            = (if fromisoformat (replace "Z" "+00:00" now) then []
               else [mkError "value_error" [Key "meta"; Key "timestamp"]
                       (ValueError [Lit "Timestamp must be in ISO format: "; StrOf now])
                       (PStr now)])
              ++ errors (validate_input_data (fun _ => true)
                           (build_input_dict_from_session session_state))).
  { unfold sections, NarrativeGenesisInput. cbn [flat_map].
    apply (f_equal2 (@app ErrorDetails)).
    - lazy - [replace]. now destruct (fromisoformat (replace "Z" "+00:00" now)).
    - vm_compute. reflexivity. }
  assert (Rest : map (fun e => (err_type e, err_loc e))
                   (errors (validate_input_data (fun _ => true)
                              (build_input_dict_from_session session_state)))
                 = [ ("string_too_short", [Key "brand_identity_core"; Key "archetype"]);
                     ("string_too_short", [Key "brand_identity_core"; Key "core_philosophy"]);
                     ("too_short",
                      [Key "brand_identity_core"; Key "tone_guardrails"; Key "allowed"]);
                     ("too_short",
                      [Key "brand_identity_core"; Key "tone_guardrails"; Key "forbidden"]);
                     ("too_short", [Key "strategic_narrative_framework"; Key "proof_points"]);
                     ("string_too_short",
                      [Key "autonomous_character_seed"; Key "evolution_parameters";
                       Key "memory_retention"]);
                     ("string_too_short",
                      [Key "autonomous_character_seed"; Key "evolution_parameters";
                       Key "hallucination_permission"]);
                     ("string_too_short",
                      [Key "target_audience_context"; Key "persona_code"]);
                     ("too_short", [Key "target_audience_context"; Key "pain_points"]);
                     ("too_short",
                      [Key "target_audience_context"; Key "language_model";
                       Key "slang_whitelist"]);
                     ("too_short",
                      [Key "target_audience_context"; Key "language_model";
                       Key "cultural_references"]) ])
    by (vm_compute; reflexivity).
  assert (V : validate false (NarrativeGenesisInput fromisoformat)
                (PDict (build_input_dict_from_session session_state))
              = Invalid (flat_map (field_errors (validate true)
                                     (build_input_dict_from_session session_state))
                           (sections fromisoformat))).
  { assert (NE : exists x l,
               errors (validate_input_data (fun _ => true)
                         (build_input_dict_from_session session_state)) = x :: l)
      by (destruct (errors _); [discriminate Rest | eauto]).
    destruct NE as (x & l & NE).
    unfold NarrativeGenesisInput at 1. rewrite validate_model.
    unfold sections, NarrativeGenesisInput in Sections |- *.
    cbv beta iota in Sections |- *.
    rewrite Sections, NE.
    now destruct (fromisoformat (replace "Z" "+00:00" now)). }
  assert (R : report = mkReport false
                (flat_map (field_errors (validate true)
                             (build_input_dict_from_session session_state))
                   (sections fromisoformat)) None).
  { subst report. unfold validate_input_data, validate_from_dict. rewrite V.
    cbn [fst]. now rewrite map_report_error. }
  rewrite R. cbn [is_valid errors]. rewrite Sections, map_app, Rest.
  split; [reflexivity|]. split.
  - now destruct (fromisoformat (replace "Z" "+00:00" now)).
  - split; vm_compute; reflexivity.
Qed.

End FormFacts.

Lemma valid_form_is_complete_witness :
  In ("Character Seed", true) (get_section_completion sample_session) /\
  In ("Project Info", false) (get_section_completion sample_session).
Proof.
  assert (H : is_valid (validate_input_data fromisoformat_sample
                          (build_input_dict_from_session sample_session)) = true)
    by (vm_compute; reflexivity).
  pose proof (valid_form_is_complete fromisoformat_sample sample_session H
                "Character Seed") as T.
  split; [apply T; simpl; auto | vm_compute; auto].
Defined.

Lemma form_input_draws_content_errors_only_witness :
  In (mkError "string_too_short" [Key "brand_identity_core"; Key "archetype"]
        Standard (PStr ""))
     (errors (validate_input_data fromisoformat_sample
                (build_input_dict_from_session
                   (initialize_session_state "2024-01-15T10:30:00Z")))) /\
  In "string_too_short" content_errors.
Proof.
  assert (H : In (mkError "string_too_short" [Key "brand_identity_core"; Key "archetype"]
                    Standard (PStr ""))
                (errors (validate_input_data fromisoformat_sample
                           (build_input_dict_from_session
                              (initialize_session_state "2024-01-15T10:30:00Z")))))
    by (vm_compute; left; reflexivity).
  pose proof (form_input_draws_content_errors_only fromisoformat_sample
                (initialize_session_state "2024-01-15T10:30:00Z") _ H) as T.
  split; [exact H | exact (proj1 T)].
Defined.

(* ================================================================== *)
(** * The configurations *)
(* ================================================================== *)

Lemma lower_append (a b : string) : lower (a ++ b) = (lower a ++ lower b)%string.
Proof. induction a as [|c a IH]; simpl; [reflexivity | now rewrite IH]. Qed.

Lemma occurs_in_lower (lit v : string) :
  occurs_in lit v -> occurs_in (lower lit) (lower v).
Proof.
  intros (pre & post & ->). exists (lower pre), (lower post).
  now rewrite !lower_append.
Qed.







Lemma attr_read3 (a b c : string) (d : pydict) :
  attr c (attr_model b (attr_model a d)) = read [Key a; Key b; Key c] d.
Proof.
  unfold read, attr_model, attr. simpl.
  destruct (dict_get a d) as [[| | | | | |d1]|]; try reflexivity.
  destruct (dict_get b d1) as [[| | | | | |d2]|]; try reflexivity.
  now destruct (dict_get c d2).
Qed.

Lemma attr_str_read3 (a b c : string) (d : pydict) :
  attr_str c (attr_model b (attr_model a d)) = as_str (read [Key a; Key b; Key c] d).
Proof. unfold attr_str. rewrite attr_read3. now destruct (read _ d). Qed.

Lemma attr_list_read3 (a b c : string) (d : pydict) :
  attr_list c (attr_model b (attr_model a d))
  = match read [Key a; Key b; Key c] d with PList l => map as_str l | _ => [] end.
Proof. unfold attr_list. now rewrite attr_read3. Qed.

Section ConfigFacts.

Variable fromisoformat : string -> bool.

(** X22.  A denied imagination reads as a granted one.  For a valid document
    the scriptwriter parameters set [can_imagine_scenarios] by looking for
    "allowed" in the lower-cased permission, which "Not Allowed" contains:
    the flag is true for every permission that holds "Allowed" or
    "Not Allowed", and false only for one that passed validation on
    "Limited". *)
Theorem denied_imagination_reads_as_granted (self : NarrativeValidator) (document : pydict)
  (Hvalid : is_valid (report_of (validate_from_dict fromisoformat self document)) = true) :
  exists validated v,
    data (report_of (validate_from_dict fromisoformat self document))
    = Some (PDict validated) /\
    value_at hallucination_place (PDict document) = Some (PStr v) /\
    dict_get "can_imagine_scenarios" (content_generation_params validated)
    = Some (PBool (contains "allowed" (lower v))) /\
    (occurs_in "Not Allowed" v -> contains "allowed" (lower v) = true) /\
    (occurs_in "Allowed" v -> contains "allowed" (lower v) = true) /\
    (contains "allowed" (lower v) = false -> occurs_in "Limited" v).
Proof.
  destruct (valid_report_data _ _ _ Hvalid) as (validated & V & R).
  destruct (valid_leaf_value fromisoformat document validated hallucination_place
              (FStr 1 validate_hallucination) V eq_refl eq_refl eq_refl) as (x & A & B & Vx).
  apply valid_string in Vx as (v & -> & _ & C).
  exists validated, v. rewrite R. split; [reflexivity|]. split; [exact A|].
  assert (Allowed : occurs_in "Allowed" v -> contains "allowed" (lower v) = true).
  { intros O. apply contains_occurs. exact (occurs_in_lower _ _ O). }
  split; [|split; [|split; [exact Allowed|]]].
  - unfold content_generation_params. cbn [dict_get String.eqb Ascii.eqb Bool.eqb].
    unfold attr_str. unfold hallucination_place in B.
    now rewrite (attr_at3 _ _ _ _ _ B).
  - intros O. apply Allowed. now apply (occurs_in_suffix "Not " "Allowed").
  - intros N. apply validate_hallucination_accepts in C as (lit & I & O).
    simpl in I. destruct I as [<- | [<- | [<- | []]]].
    + rewrite (Allowed O) in N. discriminate.
    + rewrite (Allowed (occurs_in_suffix "Not " "Allowed" _ O)) in N. discriminate.
    + exact O.
Qed.

End ConfigFacts.

Lemma denied_imagination_reads_as_granted_witness :
  exists validated,
    data (report_of (validate_from_dict fromisoformat_sample new_validator
                       (sample_document "Genesis" "Low" ["Cold"]
                          [("product_name", PStr "Genesis")])))
    = Some (PDict validated) /\
    dict_get "can_imagine_scenarios" (content_generation_params validated)
    = Some (PBool false).
Proof.
  assert (H : is_valid
                (report_of (validate_from_dict fromisoformat_sample new_validator
                              (sample_document "Genesis" "Low" ["Cold"]
                                 [("product_name", PStr "Genesis")]))) = true)
    by (vm_compute; reflexivity).
  pose proof (denied_imagination_reads_as_granted fromisoformat_sample new_validator _ H) as T.
  destruct T as (validated & v & R & A & G & _).
  exists validated. split; [exact R|]. rewrite G.
  vm_compute in A. inversion A. reflexivity.
Defined.

(** X23.  The Pillar 3 configuration depends on the document through twelve
    of its fields only (the allowed tones, the proof points, the autonomy
    level and the rest play no part), and its vocabulary blacklist is the
    five fixed entries followed by the forbidden tones of the document. *)
Theorem pillar3_config_reads_twelve_fields (now : string) :
  (forall d1 d2,
      (forall p, In p pillar3_reads -> value_at p (PDict d1) = value_at p (PDict d2)) ->
      generate_pillar3_config now d1 = generate_pillar3_config now d2) /\
  (forall d forbidden,
      value_at [Key "brand_identity_core"; Key "tone_guardrails"; Key "forbidden"] (PDict d)
      = Some (strs forbidden) ->
      value_at [Key "agent_system_prompt_config"; Key "voice_engine";
                Key "vocabulary_blacklist"] (PDict (generate_pillar3_config now d))
      = Some (strs ([ "Semangat Pagi"; "Financial Freedom (terlalu jauh)"; "Mindset Sukses";
                      "Ayo Kawan"; "Solusi Terbaik" ] ++ forbidden))).
Proof.
  split.
  - intros d1 d2 H.
    assert (R : forall p, In p pillar3_reads -> read p d1 = read p d2).
    { intros p I. unfold read. now rewrite (H p I). }
    unfold generate_pillar3_config, build_voice_engine, build_state_machine,
      build_framework_implementation, build_lore_engine.
    rewrite !attr_str_read3, !attr_list_read3, !attr_read3.
    rewrite !R by (unfold pillar3_reads; simpl; auto 20).
    reflexivity.
  - intros d forbidden A.
    unfold generate_pillar3_config, build_voice_engine.
    rewrite attr_list_read3. unfold read. rewrite A. unfold strs.
    now rewrite map_as_str.
Qed.


(* ================================================================== *)
(** * The warnings of the validator *)
(* ================================================================== *)

Lemma attr_read2 (a b : string) (d : pydict) :
  attr b (attr_model a d) = read [Key a; Key b] d.
Proof.
  unfold read, attr_model, attr. simpl.
  destruct (dict_get a d) as [[| | | | | |d1]|]; try reflexivity.
  now destruct (dict_get b d1).
Qed.

Lemma attr_str_read2 (a b : string) (d : pydict) :
  attr_str b (attr_model a d) = as_str (read [Key a; Key b] d).
Proof. unfold attr_str. rewrite attr_read2. now destruct (read _ d). Qed.

Lemma attr_list_read2 (a b : string) (d : pydict) :
  attr_list b (attr_model a d)
  = match read [Key a; Key b] d with PList l => map as_str l | _ => [] end.
Proof. unfold attr_list. now rewrite attr_read2. Qed.

Lemma checks_read_five_fields (d1 d2 : pydict) :
  (forall p, In p checks_reads -> value_at p (PDict d1) = value_at p (PDict d2)) ->
  _perform_business_logic_checks d1 = _perform_business_logic_checks d2.
Proof.
  intros H.
  assert (R : forall p, In p checks_reads -> read p d1 = read p d2).
  { intros p I. unfold read. now rewrite (H p I). }
  unfold _perform_business_logic_checks.
  rewrite !attr_str_read3, !attr_list_read3, !attr_str_read2, !attr_list_read2.
  rewrite !R by (unfold checks_reads; simpl; auto 10).
  reflexivity.
Qed.

(** X25.  The warnings of the validator are those of the document as it was
    given.  The checks read five fields and nothing else; they give at most
    three warnings, the three fixed sentences in a fixed order; a valid
    document draws the warnings its own entries give, an invalid one
    none. *)
Theorem warnings_are_those_of_the_document (fromisoformat : string -> bool)
  (self : NarrativeValidator) (document : pydict) :
  (forall d1 d2,
      (forall p, In p checks_reads -> value_at p (PDict d1) = value_at p (PDict d2)) ->
      _perform_business_logic_checks d1 = _perform_business_logic_checks d2) /\
  (forall d, exists rebel short salary : bool,
      _perform_business_logic_checks d
      = (if rebel
         then ["Archetype is 'Rebel' but tone doesn't include rebellious characteristics"]
         else [])
        ++ (if short
            then ["Some proof points seem too short - consider adding more detail"]
            else [])
        ++ (if salary
            then ["Target audience has salary pain points but character demographics don't mention income/debt"]
            else [])) /\
  (is_valid (report_of (validate_from_dict fromisoformat self document)) = true ->
   warnings_of (validate_from_dict fromisoformat self document)
   = _perform_business_logic_checks document) /\
  (is_valid (report_of (validate_from_dict fromisoformat self document)) = false ->
   warnings_of (validate_from_dict fromisoformat self document) = []).
Proof.
  split; [exact checks_read_five_fields|]. split; [|split].
  - intros d. unfold _perform_business_logic_checks. cbv zeta.
    repeat match goal with
           | |- context [if ?c then _ else _] => destruct c
           end;
      solve [ (exists true + exists false); (exists true + exists false);
              (exists true + exists false); reflexivity ].
  - intros Hvalid. destruct (valid_report_data _ _ _ Hvalid) as (validated & V & _).
    unfold warnings_of, validate_from_dict. rewrite V. cbn [snd].
    apply checks_read_five_fields. intros p I.
    unfold checks_reads in I. simpl in I.
    destruct I as [<- | [<- | [<- | [<- | [<- | []]]]]].
    + destruct (valid_leaf_value fromisoformat document validated
                  [Key "brand_identity_core"; Key "archetype"] (FStr 1 no_check) V
                  eq_refl eq_refl eq_refl) as (x & A & B & _). now rewrite A, B.
    + destruct (valid_leaf_value fromisoformat document validated
                  [Key "brand_identity_core"; Key "tone_guardrails"; Key "allowed"]
                  (FListStr 1 no_check) V eq_refl eq_refl eq_refl) as (x & A & B & _).
      now rewrite A, B.
    + destruct (valid_leaf_value fromisoformat document validated
                  [Key "strategic_narrative_framework"; Key "proof_points"]
                  (FListStr 1 no_check) V eq_refl eq_refl eq_refl) as (x & A & B & _).
      now rewrite A, B.
    + destruct (valid_leaf_value fromisoformat document validated
                  [Key "autonomous_character_seed"; Key "base_persona"; Key "demographics"]
                  (FStr 1 no_check) V eq_refl eq_refl eq_refl) as (x & A & B & _).
      now rewrite A, B.
    + destruct (valid_leaf_value fromisoformat document validated
                  [Key "target_audience_context"; Key "pain_points"]
                  (FListStr 1 no_check) V eq_refl eq_refl eq_refl) as (x & A & B & _).
      now rewrite A, B.
  - unfold warnings_of, validate_from_dict, report_of.
    now destruct (validate false (NarrativeGenesisInput fromisoformat) (PDict document)).
Qed.
